(** * Local Library: controllers, validation chains and models

    A shallow embedding of the catalog controllers (author, book and
    book-instance controllers) together with the Mongoose models they use.

    Conventions of the embedding.
    - A character is its code (0..255); a string is a sequence of characters.
    - [req.body] is a form-encoded body: every field but [genre] holds one
      string (or is missing); [genre] holds one string, a list of strings or
      is missing.  Sanitizers write their results (strings, dates, null) back
      into the body, as express-validator does.
    - The store is one list of documents per collection, in natural order.
      Mongoose is modelled as far as the controllers use it: casts of
      identifiers, strings and dates, defaults, the validators of the
      schemas, and the queries by [_id], by reference and by name or title.
    - [Promise.all] of two reads is the two reads in the order written: they
      write nothing, and the first rejection is the one that is thrown.
    - A handler is run against a [world]: the store, the clock, and the calls
      made on [res] and [next] so far.  An exception inside [asyncHandler] ends the
      handler and is passed to [next]. *)

From Stdlib Require Import ZArith Ascii String.
From stdpp Require Import base option list strings gmap sorting pretty.

Local Open Scope string_scope.

(** ** validator.js: the string functions behind the validation chains *)

Module validator.

Definition code (c : ascii) : N := N_of_ascii c.

(** The class [\s] of a JavaScript regular expression, for codes below 256. *)
Definition is_space (c : ascii) : bool :=
  existsb (N.eqb (code c)) [9; 10; 11; 12; 13; 32; 160]%N.

Fixpoint ltrim (s : string) : string :=
  match s with
  | "" => ""
  | String c s' => if is_space c then ltrim s' else s
  end.

Fixpoint rtrim (s : string) : string :=
  match s with
  | "" => ""
  | String c s' =>
      match rtrim s' with
      | "" => if is_space c then "" else String c ""
      | t => String c t
      end
  end.

Definition trim (s : string) : string := rtrim (ltrim s).

(** [escape] replaces the ampersand, both quotes, the angle brackets, the
    slash, the backslash and the backtick by HTML entities. *)
Definition escape_char (c : ascii) : string :=
  match code c with
  | 38%N => "&amp;"
  | 34%N => "&quot;"
  | 39%N => "&#x27;"
  | 60%N => "&lt;"
  | 62%N => "&gt;"
  | 47%N => "&#x2F;"
  | 92%N => "&#x5C;"
  | 96%N => "&#96;"
  | _ => String c ""
  end.

Fixpoint escape (s : string) : string :=
  match s with
  | "" => ""
  | String c s' => escape_char c +:+ escape s'
  end.

Definition is_alnum (c : ascii) : bool :=
  let n := code c in
  ((48 <=? n) && (n <=? 57) || (65 <=? n) && (n <=? 90)
   || (97 <=? n) && (n <=? 122))%N.

Fixpoint all_alnum (s : string) : bool :=
  match s with
  | "" => true
  | String c s' => is_alnum c && all_alnum s'
  end.

(** [isAlphanumeric] for the default locale: [/^[0-9A-Z]+$/i]. *)
Definition isAlphanumeric (s : string) : bool :=
  match s with
  | "" => false
  | _ => all_alnum s
  end.

Definition isLength (min : nat) (max : option nat) (s : string) : bool :=
  (min <=? String.length s)%nat
  && match max with
     | Some m => (String.length s <=? m)%nat
     | None => true
     end.

End validator.

(** ** Dates

    [isISO8601] (validator.js) and the [Date] functions of the JavaScript
    runtime are not part of this repository; they are taken as an interface.
    A date is its time value in milliseconds. *)

Class DateLib := {
  isISO8601 : string → bool;
  (** [Date.parse]: [None] stands for NaN *)
  Date_parse : string → option Z;
  (** [Date.prototype.toISOString] *)
  Date_toISOString : Z → string;
  (** [Date.prototype.toString] *)
  Date_toString : Z → string;
  (** [new Date(s)] as Mongoose's date cast reads a non-empty string *)
  Date_of_string : string → option Z;
}.

(** ** Values of the request body *)

Inductive scalar :=
  | SStr (s : string)
  | SDate (t : Z)
  | SNull.

(** The [genre] field: one value, or an array of values. *)
Inductive multi :=
  | One (x : scalar)
  | Many (l : list scalar).

Global Instance scalar_eq_dec : EqDecision scalar.
Proof. solve_decision. Defined.

Global Instance multi_eq_dec : EqDecision multi.
Proof. solve_decision. Defined.

(** JavaScript truthiness; a missing field reads [undefined]. *)
Definition falsy (v : option scalar) : bool :=
  match v with
  | None => true
  | Some SNull => true
  | Some (SStr "") => true
  | Some (SStr _) => false
  | Some (SDate _) => false
  end.

(** ** express-validator *)

Module express_validator.

Record error := { path : string; msg : string }.

Global Instance error_eq_dec : EqDecision error.
Proof. solve_decision. Defined.

Inductive std_validator :=
  | VIsLength (min : nat) (max : option nat)
  | VIsAlphanumeric
  | VIsISO8601.

Inductive std_sanitizer :=
  | STrim
  | SEscape
  | SToDate.

Inductive item :=
  | Validation (v : std_validator) (message : option string)
  | Sanitization (s : std_sanitizer).

(** The methods called on a chain, in source order. *)
Inductive call :=
  | Trim
  | IsLength (min : nat) (max : option nat)
  | Escape
  | WithMessage (m : string)
  | IsAlphanumeric
  | Optional_falsy
  | IsISO8601
  | ToDate.

Record context := {
  stack : list item;
  optional : bool;
  message : option string;   (* the second argument of [body] *)
}.

(** [withMessage] sets the message of the last validator of the chain,
    whatever sanitizers were added after it. *)
Fixpoint set_last_message (m : string) (rev_stack : list item) : list item :=
  match rev_stack with
  | [] => []
  | Validation v _ :: r => Validation v (Some m) :: r
  | Sanitization s :: r => Sanitization s :: set_last_message m r
  end.

Definition add_call (ctx : context) (c : call) : context :=
  let push i := {| stack := (stack ctx ++ [i])%list; optional := optional ctx;
                   message := message ctx |} in
  match c with
  | Trim => push (Sanitization STrim)
  | Escape => push (Sanitization SEscape)
  | ToDate => push (Sanitization SToDate)
  | IsLength min max => push (Validation (VIsLength min max) None)
  | IsAlphanumeric => push (Validation VIsAlphanumeric None)
  | IsISO8601 => push (Validation VIsISO8601 None)
  | WithMessage m =>
      {| stack := rev (set_last_message m (rev (stack ctx)));
         optional := optional ctx; message := message ctx |}
  | Optional_falsy =>
      {| stack := stack ctx; optional := true; message := message ctx |}
  end.

Definition build (message : option string) (calls : list call) : context :=
  fold_left add_call calls
    {| stack := []; optional := false; message := message |}.

Section run.
Context `{DateLib}.

(** The string a standard validator or sanitizer is applied to. *)
Definition toString (v : option scalar) : string :=
  match v with
  | None => ""
  | Some SNull => ""
  | Some (SStr s) => s
  | Some (SDate t) => Date_toISOString t
  end.

Definition validate (v : std_validator) (s : string) : bool :=
  match v with
  | VIsLength min max => validator.isLength min max s
  | VIsAlphanumeric => validator.isAlphanumeric s
  | VIsISO8601 => isISO8601 s
  end.

(** validator.js [toDate]: null when the string does not parse. *)
Definition toDate (s : string) : scalar :=
  match Date_parse s with
  | Some t => SDate t
  | None => SNull
  end.

Definition sanitize (f : std_sanitizer) (s : string) : scalar :=
  match f with
  | STrim => SStr (validator.trim s)
  | SEscape => SStr (validator.escape s)
  | SToDate => toDate s
  end.

(** One item of the stack on one field instance: the value after the
    item and the errors it adds. *)
Definition run_item (ctx : context) (p : string) (i : item)
    (v : option scalar) : option scalar * list error :=
  if optional ctx && falsy v then (v, [])
  else
    match i with
    | Validation f m =>
        if validate f (toString v) then (v, [])
        else (v, [ {| path := p;
                      msg := default (default "Invalid value" (message ctx)) m |} ])
    | Sanitization f => (Some (sanitize f (toString v)), [])
    end.

Fixpoint run_stack (ctx : context) (p : string) (items : list item)
    (v : option scalar) : option scalar * list error :=
  match items with
  | [] => (v, [])
  | i :: items' =>
      let '(v1, e1) := run_item ctx p i v in
      let '(v2, e2) := run_stack ctx p items' v1 in
      (v2, (e1 ++ e2)%list)
  end.

Definition run_field (ctx : context) (p : string) (v : option scalar)
    : option scalar * list error :=
  run_stack ctx p (stack ctx) v.
End run.

End express_validator.

(** ** Errors

    A JavaScript error object: its name, its message and the [status]
    property the controllers set on not-found errors. *)

Module Err.
Record t := { name : string; message : string; status : option Z }.

Global Instance eq_dec : EqDecision t.
Proof. solve_decision. Defined.

(** [const err = new Error(m); err.status = s;] *)
Definition with_status (m : string) (s : Z) : t :=
  {| name := "Error"; message := m; status := Some s |}.

(** Mongoose's error for a value that does not fit the type of a path.  The
    message is abbreviated: Mongoose's also quotes the value, its type and
    the model. *)
Definition CastError (kind path : string) : t :=
  {| name := "CastError";
     message := "Cast to " +:+ kind +:+ " failed at path " +:+ path;
     status := None |}.

Definition TypeError (m : string) : t :=
  {| name := "TypeError"; message := m; status := None |}.

(** Mongoose's error for a document that fails schema validation. *)
Definition ValidationError (model : string) (paths : list string) : t :=
  {| name := "ValidationError";
     message := model +:+ " validation failed: " +:+ String.concat ", " paths;
     status := None |}.

(** The server's error for an insert whose [_id] is already in use. *)
Definition DuplicateKey : t :=
  {| name := "MongoServerError"; message := "E11000 duplicate key error";
     status := None |}.
End Err.

(** ** ObjectId

    An ObjectId is written as its 24 lower-case hexadecimal digits.  The
    driver reads a string of 24 hexadecimal digits, or a string of 12
    one-byte characters, and rejects every other string. *)

Abbreviation ObjectId := string (only parsing).

Module ObjectId.
Import validator.

Fixpoint forall_chars (p : ascii → bool) (s : string) : bool :=
  match s with
  | "" => true
  | String c s' => p c && forall_chars p s'
  end.

Fixpoint map_chars (f : ascii → ascii) (s : string) : string :=
  match s with
  | "" => ""
  | String c s' => String (f c) (map_chars f s')
  end.

Definition is_hex (c : ascii) : bool :=
  let n := code c in
  ((48 <=? n) && (n <=? 57) || (65 <=? n) && (n <=? 70)
   || (97 <=? n) && (n <=? 102))%N.

Definition to_lower (c : ascii) : ascii :=
  let n := code c in
  if ((65 <=? n) && (n <=? 70))%N then ascii_of_N (n + 32) else c.

Definition hex_digit (n : N) : ascii :=
  if (n <? 10)%N then ascii_of_N (48 + n) else ascii_of_N (87 + n).

Fixpoint toHex (s : string) : string :=
  match s with
  | "" => ""
  | String c s' =>
      String (hex_digit (code c / 16)) (String (hex_digit (code c mod 16)) (toHex s'))
  end.

(** [new ObjectId(s)] for a string [s]; [None] when the driver throws. *)
Definition ofString (s : string) : option ObjectId :=
  if (String.length s =? 12)%nat then
    if forall_chars (λ c, (code c <? 128)%N) s then Some (toHex s) else None
  else if (String.length s =? 24)%nat && forall_chars is_hex s then
    Some (map_chars to_lower s)
  else None.
End ObjectId.

(** ** Mongoose: paths, casts and documents *)

(** The value of a path of a document: JavaScript keeps [undefined] and
    [null] apart, and so do defaults and updates. *)
Inductive field (A : Type) :=
  | Undefined
  | Null
  | Val (a : A).
Global Arguments Undefined {A}.
Global Arguments Null {A}.
Global Arguments Val {A} a.

Global Instance field_eq_dec `{EqDecision A} : EqDecision (field A).
Proof. solve_decision. Defined.

Definition is_val {A} (f : field A) : bool :=
  match f with Val _ => true | _ => false end.

(** The value a sort or an equality test reads: null and missing alike. *)
Definition field_value {A} (f : field A) : option A :=
  match f with Val a => Some a | _ => None end.

(** The result of casting one value to the type of a path. *)
Inductive cast (A : Type) :=
  | CastOk (f : field A)
  | CastFailed.
Global Arguments CastOk {A} f.
Global Arguments CastFailed {A}.

Section casts.
Context `{DateLib}.

Definition castString (v : option scalar) : cast string :=
  match v with
  | None => CastOk Undefined
  | Some SNull => CastOk Null
  | Some (SStr s) => CastOk (Val s)
  | Some (SDate t) => CastOk (Val (Date_toString t))
  end.

(** An empty string is read as null, "because of empty form values". *)
Definition castDate (v : option scalar) : cast Z :=
  match v with
  | None => CastOk Undefined
  | Some SNull => CastOk Null
  | Some (SStr "") => CastOk Null
  | Some (SDate t) => CastOk (Val t)
  | Some (SStr s) =>
      match Date_of_string s with
      | Some t => CastOk (Val t)
      | None => CastFailed
      end
  end.

Definition castObjectId (v : option scalar) : cast ObjectId :=
  let of_string s :=
    match ObjectId.ofString s with
    | Some i => CastOk (Val i)
    | None => CastFailed
    end in
  match v with
  | None => CastOk Undefined
  | Some SNull => CastOk Null
  | Some (SStr s) => of_string s
  | Some (SDate t) => of_string (Date_toString t)
  end.

(** An array path: a single value is wrapped, every element is cast, and
    one element that does not cast fails the whole path. *)
Fixpoint castObjectIds (l : list scalar) : option (list (field ObjectId)) :=
  match l with
  | [] => Some []
  | x :: l' =>
      match castObjectId (Some x), castObjectIds l' with
      | CastOk f, Some r => Some (f :: r)
      | _, _ => None
      end
  end.
End casts.

(** The value a path takes and whether its cast failed: a failed cast leaves
    the path at its default and records the path. *)
Definition set_path {A} (p : string) (c : cast A) (dflt : field A)
    : field A * list string :=
  match c with
  | CastOk Undefined => (dflt, [])
  | CastOk f => (f, [])
  | CastFailed => (dflt, [p])
  end.

(** A document under construction: its paths and the paths whose value did
    not cast (reported when the document is validated). *)
Record candidate (D : Type) := { doc : D; cast_errors : list string }.
Global Arguments doc {D} c.
Global Arguments cast_errors {D} c.

(** The [required] validator of a string path and of any other path. *)
Definition required_string (p : string) (f : field string) : list string :=
  match f with
  | Val (String _ _) => []
  | _ => [p]
  end.

Definition required {A} (p : string) (f : field A) : list string :=
  match f with
  | Val _ => []
  | _ => [p]
  end.

Definition maxLength (n : nat) (p : string) (f : field string) : list string :=
  match f with
  | Val s => if (String.length s <=? n)%nat then [] else [p]
  | _ => []
  end.

(** An update with a document sets the paths the document has: a path of
    [new] that is set replaces the path of [old]. *)
Definition assign {A} (old new : field A) : field A :=
  match new with Undefined => old | _ => new end.

Definition enum (values : list string) (p : string) (f : field string)
    : list string :=
  match f with
  | Val s => if bool_decide (s ∈ values) then [] else [p]
  | _ => []
  end.

(** A path is reported once: the validators of a path run in order and the
    first failure is the one that is kept; a path whose value did not cast
    is reported for its cast alone. *)
Definition first_failure (a b : list string) : list string :=
  match a with
  | [] => b
  | _ => a
  end.

Definition unless_cast {D} (c : candidate D) (p : string) (l : list string)
    : list string :=
  if bool_decide (p ∈ cast_errors c) then [] else l.

(** ** models/Author.js *)

Module Author.
Record t := {
  _id : ObjectId;
  first_name : field string;      (* required, maxLength 100 *)
  family_name : field string;     (* required, maxLength 100 *)
  date_of_birth : field Z;
  date_of_death : field Z;
}.

Global Instance eq_dec : EqDecision t.
Proof. solve_decision. Defined.

(** Virtual for the author's name: empty unless both names are set. *)
Definition name (a : t) : string :=
  match first_name a, family_name a with
  | Val (String c f), Val (String d g) => String c f +:+ " " +:+ String d g
  | _, _ => ""
  end.

Definition url (a : t) : string := "/catalog/author/" +:+ _id a.

Section new.
Context `{DateLib}.

(** [new Author({ first_name, family_name, date_of_birth, date_of_death,
    _id })]: [oid] is the identifier the constructor generates, kept when no
    [_id] is given or when the given one does not cast. *)
Definition new (oid : ObjectId) (id : option string)
    (first_name family_name date_of_birth date_of_death : option scalar)
    : candidate t :=
  let '(i, e0) := set_path "_id" (castObjectId (SStr <$> id)) (Val oid) in
  let '(fn, e1) := set_path "first_name" (castString first_name) Undefined in
  let '(gn, e2) := set_path "family_name" (castString family_name) Undefined in
  let '(db, e3) := set_path "date_of_birth" (castDate date_of_birth) Undefined in
  let '(dd, e4) := set_path "date_of_death" (castDate date_of_death) Undefined in
  {| doc := {| _id := default oid (field_value i); first_name := fn;
               family_name := gn; date_of_birth := db; date_of_death := dd |};
     cast_errors := (e0 ++ e1 ++ e2 ++ e3 ++ e4)%list |}.
End new.

(** The paths that fail the schema's validators. *)
Definition validate (c : candidate t) : list string :=
  (cast_errors c
   ++ required_string "first_name" (first_name (doc c))
   ++ maxLength 100 "first_name" (first_name (doc c))
   ++ required_string "family_name" (family_name (doc c))
   ++ maxLength 100 "family_name" (family_name (doc c)))%list.

Definition update (old new : t) : t :=
  {| _id := _id old;
     first_name := assign (first_name old) (first_name new);
     family_name := assign (family_name old) (family_name new);
     date_of_birth := assign (date_of_birth old) (date_of_birth new);
     date_of_death := assign (date_of_death old) (date_of_death new) |}.
End Author.

(** ** The Genre model *)

Module Genre.
(** Modelled from the spec: the file that declares the Genre model is
    missing; the data model gives a genre an [id] and a [name]. *)
Record t := { _id : ObjectId; name : field string }.

Global Instance eq_dec : EqDecision t.
Proof. solve_decision. Defined.
End Genre.

(** ** models/Book.js *)

Module Book.
Record t := {
  _id : ObjectId;
  title : field string;                      (* required *)
  author : field ObjectId;                   (* ref Author, required *)
  summary : field string;                    (* required *)
  isbn : field string;                       (* required *)
  genre : field (list (field ObjectId));     (* refs Genre, each required *)
}.

Global Instance eq_dec : EqDecision t.
Proof. solve_decision. Defined.

Definition url (b : t) : string := "/catalog/book/" +:+ _id b.

Section new.
Context `{DateLib}.

Definition castGenre (g : option multi) : cast (list (field ObjectId)) :=
  let of_list l :=
    match castObjectIds l with
    | Some r => CastOk (Val r)
    | None => CastFailed
    end in
  match g with
  | None => CastOk Undefined
  | Some (One SNull) => CastOk Null
  | Some (One x) => of_list [x]
  | Some (Many l) => of_list l
  end.

(** [new Book({ title, author, summary, isbn, genre, _id })]; an array path
    defaults to the empty array. *)
Definition new (oid : ObjectId) (id : option string)
    (title author summary isbn : option scalar) (genre : option multi)
    : candidate t :=
  let '(i, e0) := set_path "_id" (castObjectId (SStr <$> id)) (Val oid) in
  let '(ti, e1) := set_path "title" (castString title) Undefined in
  let '(au, e2) := set_path "author" (castObjectId author) Undefined in
  let '(su, e3) := set_path "summary" (castString summary) Undefined in
  let '(isb, e4) := set_path "isbn" (castString isbn) Undefined in
  let '(ge, e5) := set_path "genre" (castGenre genre) (Val []) in
  {| doc := {| _id := default oid (field_value i); title := ti; author := au;
               summary := su; isbn := isb; genre := ge |};
     cast_errors := (e0 ++ e1 ++ e2 ++ e3 ++ e4 ++ e5)%list |}.
End new.

Definition validate (c : candidate t) : list string :=
  (cast_errors c
   ++ required_string "title" (title (doc c))
   ++ unless_cast c "author" (required "author" (author (doc c)))
   ++ required_string "summary" (summary (doc c))
   ++ required_string "isbn" (isbn (doc c))
   ++ match genre (doc c) with
      | Val l => if forallb is_val l then [] else ["genre"]
      | _ => []
      end)%list.

Definition update (old new : t) : t :=
  {| _id := _id old;
     title := assign (title old) (title new);
     author := assign (author old) (author new);
     summary := assign (summary old) (summary new);
     isbn := assign (isbn old) (isbn new);
     genre := assign (genre old) (genre new) |}.

(** A projection such as ["title summary"]: the selected paths and [_id]. *)
Definition select (paths : list string) (b : t) : t :=
  let keep {A} (p : string) (f : field A) : field A :=
    if bool_decide (p ∈ paths) then f else Undefined in
  {| _id := _id b; title := keep "title" (title b);
     author := keep "author" (author b); summary := keep "summary" (summary b);
     isbn := keep "isbn" (isbn b); genre := keep "genre" (genre b) |}.
End Book.

(** ** The BookInstance model *)

Module BookInstance.
Record t := {
  _id : ObjectId;
  book : field ObjectId;       (* ref Book, required *)
  imprint : field string;      (* required *)
  status : field string;       (* required, enum, default "Maintenance" *)
  due_back : field Z;          (* default: see [BookInstanceSchema] *)
}.

Global Instance eq_dec : EqDecision t.
Proof. solve_decision. Defined.

Definition url (b : t) : string := "/catalog/bookinstance/" +:+ _id b.

(** What the schema object holds once the module is loaded. *)
Record schema := {
  status_enum : list string;
  status_default : string;
  due_back_default : Z;
}.

(** [new Schema({ ..., due_back: { type: Date, default: Date.now() } })].
    The argument [Date.now()] is a call: it is evaluated while the schema is
    built, and [Date_now] is the clock reading at that moment. *)
Definition BookInstanceSchema (Date_now : Z) : schema :=
  {| status_enum := ["Available"; "Maintenance"; "Loaned"; "Reserved"];
     status_default := "Maintenance";
     due_back_default := Date_now |}.

Section new.
Context `{DateLib}.

(** [new BookInstance({ book, imprint, status, due_back, _id })] *)
Definition new (sch : schema) (oid : ObjectId) (id : option string)
    (book imprint status due_back : option scalar) : candidate t :=
  let '(i, e0) := set_path "_id" (castObjectId (SStr <$> id)) (Val oid) in
  let '(bo, e1) := set_path "book" (castObjectId book) Undefined in
  let '(im, e2) := set_path "imprint" (castString imprint) Undefined in
  let '(st, e3) :=
    set_path "status" (castString status) (Val (status_default sch)) in
  let '(du, e4) :=
    set_path "due_back" (castDate due_back) (Val (due_back_default sch)) in
  {| doc := {| _id := default oid (field_value i); book := bo; imprint := im;
               status := st; due_back := du |};
     cast_errors := (e0 ++ e1 ++ e2 ++ e3 ++ e4)%list |}.
End new.

Definition validate (sch : schema) (c : candidate t) : list string :=
  (cast_errors c
   ++ unless_cast c "book" (required "book" (book (doc c)))
   ++ required_string "imprint" (imprint (doc c))
   ++ first_failure (required_string "status" (status (doc c)))
        (enum (status_enum sch) "status" (status (doc c))))%list.

Definition update (old new : t) : t :=
  {| _id := _id old;
     book := assign (book old) (book new);
     imprint := assign (imprint old) (imprint new);
     status := assign (status old) (status new);
     due_back := assign (due_back old) (due_back new) |}.
End BookInstance.

(** ** The store and the calls of a model *)

Record store := {
  authors : list Author.t;
  books : list Book.t;
  bookinstances : list BookInstance.t;
  genres : list Genre.t;
}.

(** What [mongoose.model(name, schema)] gives the controllers. *)
Class Model (D : Type) := {
  modelName : string;
  id_of : D → ObjectId;
  collection : store → list D;
  set_collection : list D → store → store;
  (** the paths that fail validation when the document is saved *)
  invalid : candidate D → list string;
  (** the stored document after an update with the paths of another *)
  updated : D → D → D;
}.

Global Instance AuthorModel : Model Author.t := {|
  modelName := "Author";
  id_of := Author._id;
  collection := authors;
  set_collection l s :=
    {| authors := l; books := books s; bookinstances := bookinstances s;
       genres := genres s |};
  invalid := Author.validate;
  updated := Author.update;
|}.

Global Instance BookModel : Model Book.t := {|
  modelName := "Book";
  id_of := Book._id;
  collection := books;
  set_collection l s :=
    {| authors := authors s; books := l; bookinstances := bookinstances s;
       genres := genres s |};
  invalid := Book.validate;
  updated := Book.update;
|}.

(** The BookInstance model of a loaded schema. *)
Definition BookInstanceModel (sch : BookInstance.schema)
    : Model BookInstance.t := {|
  modelName := "BookInstance";
  id_of := BookInstance._id;
  collection := bookinstances;
  set_collection l s :=
    {| authors := authors s; books := books s; bookinstances := l;
       genres := genres s |};
  invalid := BookInstance.validate sch;
  updated := BookInstance.update;
|}.

(** ** Responses *)

(** The values the controllers hand to the views. *)
Inductive local :=
  | LString (s : string)
  | LNumber (n : nat)
  | LField (f : field string)
  | LId (i : ObjectId)
  | LErrors (l : list express_validator.error)
  | LAuthor (a : option Author.t)
  | LAuthors (l : list Author.t)
  | LBook (b : option Book.t)
  | LBooks (l : list Book.t)
  | LBookInstance (b : option BookInstance.t)
  | LBookInstances (l : list BookInstance.t)
  (* genres, each with its [checked] mark *)
  | LGenres (l : list (Genre.t * bool))
  (* books with [author] populated *)
  | LBooksWithAuthor (l : list (Book.t * option Author.t))
  (* a book with [author] and [genre] populated *)
  | LBookWithRefs (b : Book.t) (a : option Author.t) (g : list Genre.t)
  (* book instances with [book] populated *)
  | LBookInstanceWithBook (b : BookInstance.t * option Book.t)
  | LBookInstancesWithBook (l : list (BookInstance.t * option Book.t)).

(** A call on [res] or on [next]. *)
Inductive action :=
  | Redirect (url : string)
  | Render (view : string) (locals : list (string * local))
  | Next (e : Err.t).

(** ** Handlers: state, exceptions and the trace of responses *)

Record world := {
  db : store;
  clock : Z;              (* what [Date.now()] reads while the request is handled *)
  sent : list action;
}.

Inductive completion (A : Type) :=
  | Normal (a : A)
  | Throw (e : Err.t).
Global Arguments Normal {A} a.
Global Arguments Throw {A} e.

Definition M (A : Type) : Type := world → completion A * world.

Global Instance M_ret : MRet M := λ A a w, (Normal a, w).

Global Instance M_bind : MBind M := λ A B f m w,
  match m w with
  | (Normal a, w') => f a w'
  | (Throw e, w') => (Throw e, w')
  end.

Global Instance M_fmap : FMap M := λ A B f m w,
  match m w with
  | (Normal a, w') => (Normal (f a), w')
  | (Throw e, w') => (Throw e, w')
  end.

Definition throw {A} (e : Err.t) : M A := λ w, (Throw e, w).

Definition get_db : M store := λ w, (Normal (db w), w).

Definition put_db (s : store) : M unit :=
  λ w, (Normal (), {| db := s; clock := clock w; sent := sent w |}).

Definition send (a : action) : M unit :=
  λ w, (Normal (), {| db := db w; clock := clock w; sent := (sent w ++ [a])%list |}).

Definition redirect (url : string) : M unit := send (Redirect url).

Definition render (view : string) (locals : list (string * local)) : M unit :=
  send (Render view locals).

Definition next (e : Err.t) : M unit := send (Next e).

(** [asyncHandler(fn)]: a rejection of [fn] is passed to [next]. *)
Definition asyncHandler (fn : M unit) (w : world) : world :=
  match fn w with
  | (Normal _, w') => w'
  | (Throw e, w') =>
      {| db := db w'; clock := clock w'; sent := (sent w' ++ [Next e])%list |}
  end.

(** ** Queries *)

Section queries.
Context `{DateLib} {D : Type} {model : Model D}.

Definition has_id (i : ObjectId) (d : D) : bool := bool_decide (id_of d = i).

(** The identifier of a query by [_id], cast as the path [_id]. *)
Definition cast_id (s : string) : M ObjectId :=
  match ObjectId.ofString s with
  | Some i => mret i
  | None => throw (Err.CastError "ObjectId" "_id")
  end.

(** [Model.findById(id).exec()] *)
Definition findById (s : string) : M (option D) :=
  i ← cast_id s;
  st ← get_db;
  mret (List.find (has_id i) (collection st)).

(** The first document that satisfies [p] taken out of the list. *)
Fixpoint remove_first (p : D → bool) (l : list D) : option D * list D :=
  match l with
  | [] => (None, [])
  | d :: l' =>
      if p d then (Some d, l')
      else let '(r, l'') := remove_first p l' in (r, d :: l'')
  end.

(** [Model.findByIdAndRemove(id)], that is [findOneAndRemove({ _id: id })].
    An identifier that is [undefined] is sent as null, as a null one is: no
    document has a null [_id], and nothing is removed. *)
Definition findByIdAndRemove (v : option scalar) : M (option D) :=
  p ← match v with
      | None => mret (λ _ : D, false)
      | Some _ =>
          match castObjectId v with
          | CastOk (Val i) => mret (has_id i)
          | CastOk _ => mret (λ _ : D, false)
          | CastFailed => throw (Err.CastError "ObjectId" "_id")
          end
      end;
  st ← get_db;
  let '(r, l) := remove_first p (collection st) in
  _ ← put_db (set_collection l st);
  mret r.

Fixpoint replace_first (p : D → bool) (f : D → D) (l : list D) : list D :=
  match l with
  | [] => []
  | d :: l' => if p d then f d :: l' else d :: replace_first p f l'
  end.

(** [Model.findByIdAndUpdate(id, doc)]: no upsert; the result is the
    document as it was before the update, or null when none has the id. *)
Definition findByIdAndUpdate (s : string) (c : candidate D) : M (option D) :=
  i ← cast_id s;
  st ← get_db;
  match List.find (has_id i) (collection st) with
  | None => mret None
  | Some old =>
      _ ← put_db (set_collection
             (replace_first (has_id i) (λ d, updated d (doc c)) (collection st)) st);
      mret (Some old)
  end.

(** [doc.save()] of a new document: validate, then insert. *)
Definition save (c : candidate D) : M unit :=
  match invalid c with
  | [] =>
      st ← get_db;
      if existsb (has_id (id_of (doc c))) (collection st)
      then throw Err.DuplicateKey
      else put_db (set_collection (collection st ++ [doc c])%list st)
  | paths => throw (Err.ValidationError modelName paths)
  end.
End queries.

(** ** Sorting, conditions and population *)

(** The order of an ascending sort on a string path: a document without the
    path comes first, strings compare character by character. *)
Definition key_le (a b : option string) : Prop :=
  match a, b with
  | None, _ => True
  | Some _, None => False
  | Some x, Some y => String.le x y
  end.

Global Instance key_le_dec : RelDecision key_le.
Proof. intros [x|] [y|]; simpl; apply _. Defined.

Definition by_key {D} (key : D → field string) : relation D :=
  λ a b, key_le (field_value (key a)) (field_value (key b)).

Global Instance by_key_dec {D} (key : D → field string) : RelDecision (by_key key).
Proof. intros a b. unfold by_key. apply _. Defined.

(** [.sort(path)] *)
Definition sort {D} (key : D → field string) (l : list D) : list D :=
  merge_sort (by_key key) l.

Section conditions.
Context `{DateLib}.

(** The condition [{ path: v }] on a string path.  A value that is
    [undefined] is sent as null, and null matches the documents that hold no
    value at the path. *)
Definition string_is (v : option scalar) (f : field string) : bool :=
  match castString v with
  | CastOk Undefined => negb (is_val f)
  | CastOk Null => negb (is_val f)
  | CastOk (Val s) => bool_decide (f = Val s)
  | CastFailed => false
  end.
End conditions.

(** [Model.find({ path: id })] for a reference path and an identifier taken
    from the URL. *)
Definition find_refs {D} {model : Model D} (path : string) (ref : D → field ObjectId)
    (s : string) : M (list D) :=
  match ObjectId.ofString s with
  | Some i =>
      st ← get_db;
      mret (List.filter (λ d, bool_decide (ref d = Val i)) (collection st))
  | None => throw (Err.CastError "ObjectId" path)
  end.

(** [Model.find()] *)
Definition find_all {D} {model : Model D} : M (list D) :=
  st ← get_db; mret (collection st).

Definition by_id {D} (id : D → ObjectId) (i : field ObjectId) (l : list D)
    : option D :=
  match i with
  | Val i => List.find (λ d, bool_decide (id d = i)) l
  | _ => None
  end.

(** [.populate("author")], [.populate("genre")], [.populate("book")] *)
Definition populate_author (st : store) (b : Book.t) : option Author.t :=
  by_id Author._id (Book.author b) (authors st).

Definition populate_genre (st : store) (b : Book.t) : list Genre.t :=
  match Book.genre b with
  | Val l => omap (λ i, by_id Genre._id i (genres st)) l
  | _ => []
  end.

Definition populate_book (st : store) (b : BookInstance.t) : option Book.t :=
  by_id Book._id (BookInstance.book b) (books st).

(** ** Requests and validation middleware *)

Record request := {
  params_id : string;                 (* req.params.id *)
  body : gmap string scalar;          (* req.body, all fields but genre *)
  body_genre : option multi;          (* req.body.genre *)
}.

Definition middleware : Type :=
  request * list express_validator.error → request * list express_validator.error.

Section middleware.
Context `{DateLib}.
Import express_validator.

(** [body(field, message).call1().call2()...]: the chain runs on the field,
    the sanitized value is written back to the body, the errors are kept for
    [validationResult]. *)
Definition check_body (f : string) (message : option string) (calls : list call)
    : middleware := λ '(req, errors),
  let '(v, es) := run_field (build message calls) f (body req !! f) in
  ({| params_id := params_id req;
      body := match v with Some x => <[f := x]> (body req) | None => body req end;
      body_genre := body_genre req |},
   (errors ++ es)%list).

(** One element of an array field, at index [i]. *)
Fixpoint run_elements (ctx : context) (f : string) (i : nat) (l : list scalar)
    : list scalar * list error :=
  match l with
  | [] => ([], [])
  | x :: l' =>
      let '(v, e1) :=
        run_field ctx (f +:+ "[" +:+ pretty i +:+ "]") (Some x) in
      let '(r, e2) := run_elements ctx f (S i) l' in
      (default x v :: r, (e1 ++ e2)%list)
  end.

(** [body("genre.*", message).call1()...]: the chain runs on every element
    of the array; a value that is no array has no element. *)
Definition check_genre_each (message : option string) (calls : list call)
    : middleware := λ '(req, errors),
  match body_genre req with
  | Some (Many l) =>
      let '(l', es) := run_elements (build message calls) "genre" 0 l in
      ({| params_id := params_id req; body := body req;
          body_genre := Some (Many l') |}, (errors ++ es)%list)
  | _ => (req, errors)
  end.

Definition run_middlewares (ms : list middleware) (req : request)
    : request * list express_validator.error :=
  fold_left (λ acc m, m acc) ms (req, []).
End middleware.

(** ** The author controller *)

Section controllers.
Context `{DateLib}.
Import express_validator.

(** Reading a property of [null]. *)
Definition null_property {A} (prop : string) : M A :=
  throw (Err.TypeError ("Cannot read properties of null (reading '" +:+ prop +:+ "')")).

(** Reading a property of [undefined]. *)
Definition undefined_property {A} (prop : string) : M A :=
  throw (Err.TypeError
           ("Cannot read properties of undefined (reading '" +:+ prop +:+ "')")).

(** Display list of all Authors. *)
Definition author_list (req : request) : world → world :=
  asyncHandler (
    allAuthors ← sort Author.first_name <$> find_all;
    render "author_list"
      [("title", LString "Author List"); ("author_list", LAuthors allAuthors)]).

(** Display detail page for a specific Author. *)
Definition author_detail (req : request) : world → world :=
  asyncHandler (
    author ← findById (params_id req);
    allBooksByAuthor ←
      fmap (M := list) (Book.select ["title"; "summary"])
        <$> find_refs "author" Book.author (params_id req);
    match author with
    | None => next (Err.with_status "Author not found" 404)
    | Some _ =>
        render "author_detail"
          [("title", LString "Author Detail"); ("author", LAuthor author);
           ("author_books", LBooks allBooksByAuthor)]
    end).

Definition name_chain (field required_msg alnum_msg : string) : middleware :=
  check_body field None
    [Trim; IsLength 1 (Some 100); Escape; WithMessage required_msg;
     IsAlphanumeric; WithMessage alnum_msg].

Definition date_chain (field : string) (message : option string) : middleware :=
  check_body field message [Optional_falsy; IsISO8601; ToDate].

Definition author_chains : list middleware :=
  [ name_chain "first_name" "First name must be specified."
      "First name has non-alphanumeric characters.";
    name_chain "family_name" "Family name must be specified."
      "Family name has non-alphanumeric characters.";
    date_chain "date_of_birth" None;
    date_chain "date_of_death" None ].

(** The conditions [{ first_name, family_name }] of the search for an
    existing author. *)
Definition name_is (first_name family_name : option scalar) (a : Author.t) : bool :=
  string_is first_name (Author.first_name a)
  && string_is family_name (Author.family_name a).

(** Handle Author create on POST.  [oid] is the identifier [new Author]
    generates. *)
Definition author_create_post (oid : ObjectId) (req0 : request) : world → world :=
  let '(req, errors) := run_middlewares author_chains req0 in
  asyncHandler (
    let first_name := body req !! "first_name" in
    let family_name := body req !! "family_name" in
    let date_of_birth := body req !! "date_of_birth" in
    let date_of_death := body req !! "date_of_death" in
    let author :=
      Author.new oid None first_name family_name date_of_birth date_of_death in
    match errors with
    | _ :: _ =>
        render "author_form"
          [("title", LString "Create Author"); ("author", LAuthor (Some (doc author)));
           ("errors", LErrors errors)]
    | [] =>
        st ← get_db;
        let authorExists :=
          List.find (name_is first_name family_name) (authors st) in
        match authorExists with
        | Some a => redirect (Author.url a)
        | None => _ ← save author; redirect (Author.url (doc author))
        end
    end).

(** Display Author delete form on GET.  The redirect of the missing-author
    branch does not return: the render call follows it. *)
Definition author_delete_get (req : request) : world → world :=
  asyncHandler (
    author ← findById (params_id req);
    allBooksByAuthor ←
      fmap (M := list) (Book.select ["title"; "summary"])
        <$> find_refs "author" Book.author (params_id req);
    _ ← match author with
        | None => redirect "/catalog/authors"
        | Some _ => mret ()
        end;
    render "author_delete"
      [("title", LString "Delete Author"); ("author", LAuthor author);
       ("author_books", LBooks allBooksByAuthor)]).

Definition author_delete_chains : list middleware :=
  [check_body "authorid" (Some "Author Id is required") [Trim; IsLength 1 None]].

(** Handle Author delete on POST. *)
Definition author_delete_post (req0 : request) : world → world :=
  let '(req, errors) := run_middlewares author_delete_chains req0 in
  asyncHandler (
    author ← findById (params_id req);
    allBooksByAuthor ←
      fmap (M := list) (Book.select ["title"; "summary"])
        <$> find_refs "author" Book.author (params_id req);
    match allBooksByAuthor with
    | _ :: _ =>
        render "author_delete"
          [("title", LString "Delete Author"); ("author", LAuthor author);
           ("author_books", LBooks allBooksByAuthor)]
    | [] =>
        _ ← findByIdAndRemove (D := Author.t) (body req !! "authorid");
        redirect "/catalog/authors"
    end).

(** Handle Author update on POST. *)
Definition author_update_post (oid : ObjectId) (req0 : request) : world → world :=
  let '(req, errors) := run_middlewares author_chains req0 in
  asyncHandler (
    let author :=
      Author.new oid (Some (params_id req)) (body req !! "first_name")
        (body req !! "family_name") (body req !! "date_of_birth")
        (body req !! "date_of_death") in
    match errors with
    | _ :: _ =>
        render "author_form"
          [("title", LString "Update Author"); ("author", LAuthor (Some (doc author)));
           ("errors", LErrors errors)]
    | [] =>
        theAuthor ← findByIdAndUpdate (params_id req) author;
        match theAuthor with
        | Some a => redirect (Author.url a)
        | None => null_property "url"
        end
    end).

(** ** The book-instance controller *)

Section bookinstance.
Variable sch : BookInstance.schema.
Let BI : Model BookInstance.t := BookInstanceModel sch.
Local Existing Instance BI.

(** Display list of all BookInstances. *)
Definition bookinstance_list (req : request) : world → world :=
  asyncHandler (
    st ← get_db;
    allbookInstances ← find_all (D := BookInstance.t);
    render "bookinstance_list"
      [("title", LString "Book Instance List");
       ("bookinstance_list",
        LBookInstancesWithBook ((λ b, (b, populate_book st b)) <$> allbookInstances))]).

(** Display detail page for a specific BookInstance. *)
Definition bookinstance_detail (req : request) : world → world :=
  asyncHandler (
    st ← get_db;
    bookInstance ← findById (D := BookInstance.t) (params_id req);
    match bookInstance with
    | None => next (Err.with_status "Book copy not found" 404)
    | Some b =>
        render "bookinstance_detail"
          [("title", LString "Book:");
           ("bookinstance", LBookInstanceWithBook (b, populate_book st b))]
    end).

Definition bookinstance_chains : list middleware :=
  [ check_body "book" (Some "Book must be specified") [Trim; IsLength 1 None; Escape];
    check_body "imprint" (Some "Imprint must be specified")
      [Trim; IsLength 1 None; Escape];
    check_body "status" None [Escape];
    date_chain "due_back" (Some "Invalid date") ].

(** The form rendered again after a validation failure; [bookInstance.book._id]
    is read from the document under construction. *)
Definition bookinstance_form (title : string) (bookInstance : BookInstance.t)
    (errors : list error) : M unit :=
  allBooks ← fmap (M := list) (Book.select ["title"]) <$> find_all;
  selected_book ←
    match BookInstance.book bookInstance with
    | Val i => mret i
    | Null => null_property "_id"
    | Undefined => undefined_property "_id"
    end;
  render "bookinstance_form"
    [("title", LString title); ("book_list", LBooks allBooks);
     ("selected_book", LId selected_book);
     ("bookinstance", LBookInstance (Some bookInstance));
     ("errors", LErrors errors)].

(** Handle BookInstance create on POST. *)
Definition bookinstance_create_post (oid : ObjectId) (req0 : request)
    : world → world :=
  let '(req, errors) := run_middlewares bookinstance_chains req0 in
  asyncHandler (
    let bookInstance :=
      BookInstance.new sch oid None (body req !! "book") (body req !! "imprint")
        (body req !! "status") (body req !! "due_back") in
    match errors with
    | _ :: _ => bookinstance_form "Create BookInstance" (doc bookInstance) errors
    | [] =>
        _ ← save bookInstance;
        redirect (BookInstance.url (doc bookInstance))
    end).

Definition bookinstance_delete_chains : list middleware :=
  [check_body "bookinstanceid" (Some "Book Instance is required")
     [Trim; IsLength 1 None]].

(** Handle BookInstance delete on POST.  The redirect of the failed
    validation does not return: the removal and the second redirect follow. *)
Definition bookinstance_delete_post (req0 : request) : world → world :=
  let '(req, errors) := run_middlewares bookinstance_delete_chains req0 in
  asyncHandler (
    _ ← match errors with
        | _ :: _ => redirect "/catalog/bookinstances"
        | [] => mret ()
        end;
    _ ← findByIdAndRemove (D := BookInstance.t) (body req !! "bookinstanceid");
    redirect "/catalog/bookinstances").

(** Handle bookinstance update on POST. *)
Definition bookinstance_update_post (oid : ObjectId) (req0 : request)
    : world → world :=
  let '(req, errors) := run_middlewares bookinstance_chains req0 in
  asyncHandler (
    let bookInstance :=
      BookInstance.new sch oid (Some (params_id req)) (body req !! "book")
        (body req !! "imprint") (body req !! "status") (body req !! "due_back") in
    match errors with
    | _ :: _ => bookinstance_form "Update BookInstance" (doc bookInstance) errors
    | [] =>
        theBookInstance ← findByIdAndUpdate (params_id req) bookInstance;
        match theBookInstance with
        | Some b => redirect (BookInstance.url b)
        | None => null_property "url"
        end
    end).
End bookinstance.

(** ** The book controller *)

(** Display list of all books. *)
Definition book_list (req : request) : world → world :=
  asyncHandler (
    st ← get_db;
    allBooks ←
      (λ l, sort Book.title (Book.select ["title"; "author"] <$> l)) <$> find_all;
    render "book_list"
      [("title", LString "Book List");
       ("book_list", LBooksWithAuthor ((λ b, (b, populate_author st b)) <$> allBooks))]).

(** Display detail page for a specific book. *)
Definition book_detail (sch : BookInstance.schema) (req : request) : world → world :=
  asyncHandler (
    st ← get_db;
    book ← findById (D := Book.t) (params_id req);
    bookInstances ←
      sort BookInstance.status
        <$> find_refs (model := BookInstanceModel sch) "book" BookInstance.book
              (params_id req);
    match book with
    | None => next (Err.with_status "Book not found" 404)
    | Some b =>
        render "book_detail"
          [("title", LField (Book.title b));
           ("book", LBookWithRefs b (populate_author st b) (populate_genre st b));
           ("book_instances", LBookInstances bookInstances)]
    end).

(** The first middleware of the book forms: convert the genre to an array. *)
Definition genre_to_array : middleware := λ '(req, errors),
  ({| params_id := params_id req; body := body req;
      body_genre :=
        match body_genre req with
        | Some (Many l) => Some (Many l)        (* instanceof Array *)
        | None => Some (Many [])                (* typeof ... === "undefined" *)
        | Some (One x) => Some (Many [x])       (* new Array(x) *)
        end |},
   errors).

Definition text_chain (field message : string) : middleware :=
  check_body field (Some message) [Trim; IsLength 1 None; Escape].

Definition book_chains (isbn_msg : string) (genre_msg : option string)
    : list middleware :=
  [ genre_to_array;
    text_chain "title" "Title must not be empty.";
    text_chain "author" "Author must not be empty.";
    text_chain "summary" "Summary must not be empty.";
    text_chain "isbn" isbn_msg;
    check_genre_each genre_msg [Escape] ].

(** The form rendered again after a validation failure: the genres of the
    book under construction are marked as checked. *)
Definition book_form (title : string) (book : Book.t) (errors : list error)
    : M unit :=
  allAuthors ← find_all (D := Author.t);
  st ← get_db;
  let allGenres :=
    (λ g, (g, match Book.genre book with
              | Val l => bool_decide (Val (Genre._id g) ∈ l)
              | _ => false
              end)) <$> genres st in
  render "book_form"
    [("title", LString title); ("authors", LAuthors allAuthors);
     ("genres", LGenres allGenres); ("book", LBook (Some book));
     ("errors", LErrors errors)].

(** The condition [{ title }] of the search for an existing book. *)
Definition title_is (title : option scalar) (b : Book.t) : bool :=
  string_is title (Book.title b).

Definition book_create_chains : list middleware :=
  book_chains "ISBN must not be empty." (Some "Genre must not be empty.").

Definition book_update_chains : list middleware :=
  book_chains "ISBN must not be empty" None.

(** Handle book create on POST. *)
Definition book_create_post (oid : ObjectId) (req0 : request) : world → world :=
  let '(req, errors) := run_middlewares book_create_chains req0 in
  asyncHandler (
    let title := body req !! "title" in
    let book :=
      Book.new oid None title (body req !! "author") (body req !! "summary")
        (body req !! "isbn") (body_genre req) in
    match errors with
    | _ :: _ => book_form "Create Book" (doc book) errors
    | [] =>
        st ← get_db;
        let bookExists := List.find (title_is title) (books st) in
        match bookExists with
        | Some b => redirect (Book.url b)
        | None => _ ← save book; redirect (Book.url (doc book))
        end
    end).

(** Display book delete form on GET; as for authors, the redirect of the
    missing-book branch does not return. *)
Definition book_delete_get (sch : BookInstance.schema) (req : request)
    : world → world :=
  asyncHandler (
    book ← findById (D := Book.t) (params_id req);
    bookInstances ←
      find_refs (model := BookInstanceModel sch) "book" BookInstance.book
        (params_id req);
    _ ← match book with
        | None => redirect "/catalog/books"
        | Some _ => mret ()
        end;
    render "book_delete"
      [("title", LString "Delete Book"); ("book", LBook book);
       ("bookinstances", LBookInstances bookInstances)]).

Definition book_delete_chains : list middleware :=
  [check_body "bookid" None [Trim; IsLength 1 None]].

(** Handle book delete on POST. *)
Definition book_delete_post (sch : BookInstance.schema) (req0 : request)
    : world → world :=
  let '(req, errors) := run_middlewares book_delete_chains req0 in
  asyncHandler (
    book ← findById (D := Book.t) (params_id req);
    bookInstances ←
      find_refs (model := BookInstanceModel sch) "book" BookInstance.book
        (params_id req);
    match bookInstances with
    | _ :: _ =>
        render "book_delete"
          [("title", LString "Delete Book"); ("book", LBook book);
           ("bookinstances", LBookInstances bookInstances)]
    | [] =>
        _ ← findByIdAndRemove (D := Book.t) (body req !! "bookid");
        redirect "/catalog/books"
    end).

(** Handle book update on POST. *)
Definition book_update_post (oid : ObjectId) (req0 : request) : world → world :=
  let '(req, errors) := run_middlewares book_update_chains req0 in
  asyncHandler (
    let book :=
      Book.new oid (Some (params_id req)) (body req !! "title")
        (body req !! "author") (body req !! "summary") (body req !! "isbn")
        (Some (default (Many []) (body_genre req))) in
    match errors with
    | _ :: _ => book_form "Update Book" (doc book) errors
    | [] =>
        thebook ← findByIdAndUpdate (params_id req) book;
        match thebook with
        | Some b => redirect (Book.url b)
        | None => null_property "url"
        end
    end).

(** [validationResult(req)] after the chains of a route, and the request as
    the chains leave it. *)
Definition validationResult (chains : list middleware) (req : request)
    : list error :=
  (run_middlewares chains req).2.

Definition sanitized (chains : list middleware) (req : request) : request :=
  (run_middlewares chains req).1.

(** The identifier a delete form submits in [field], as its chain trims it. *)
Definition submitted_id (field : string) (req : request) : string :=
  validator.trim (toString (body req !! field)).
End controllers.

(** The identifiers of a collection are unique. *)
Definition unique_ids {D} {model : Model D} (st : store) : Prop :=
  NoDup (id_of <$> collection st).

(** The document with identifier [i] of a collection, if any. *)
Definition stored {D} {model : Model D} (i : ObjectId) (st : store) : option D :=
  List.find (has_id i) (collection st).

(** ** A small date library

    An instance of the date interface on which the controllers can be run.
    It is deliberately smaller than validator.js and the JavaScript [Date]:
    it reads calendar dates [YYYY-MM-DD] only (so [2024-02], which the real
    [isISO8601] accepts, is refused here) and numbers the days from
    0000-00-00 with months of 31 days.  The theorems are stated for every
    instance of the interface; this one only supplies concrete runs. *)

Module SimpleDates.
Import validator.

Definition is_digit (c : ascii) : bool := ((48 <=? code c) && (code c <=? 57))%N.

Definition digit (c : ascii) : Z := (Z.of_N (code c) - 48)%Z.

Definition calendar (s : string) : option Z :=
  match s with
  | String y1 (String y2 (String y3 (String y4 (String h1 (String m1
      (String m2 (String h2 (String d1 (String d2 ""))))))))) =>
      if forallb is_digit [y1; y2; y3; y4; m1; m2; d1; d2]
         && (code h1 =? 45)%N && (code h2 =? 45)%N then
        let y := (digit y1 * 1000 + digit y2 * 100 + digit y3 * 10 + digit y4)%Z in
        let m := (digit m1 * 10 + digit m2)%Z in
        let d := (digit d1 * 10 + digit d2)%Z in
        if ((1 <=? m) && (m <=? 12) && (1 <=? d) && (d <=? 31))%Z
        then Some ((y * 12 + m) * 31 + d)%Z
        else None
      else None
  | _ => None
  end.

Definition lib : DateLib := {|
  isISO8601 s := bool_decide (is_Some (calendar s));
  Date_parse := calendar;
  Date_toISOString t := pretty t;
  Date_toString t := pretty t;
  Date_of_string := calendar;
|}.
End SimpleDates.

(** ** Notions used in the statements *)

(** A validation failure tagged with a field. *)
Definition err (p m : string) : express_validator.error :=
  {| express_validator.path := p; express_validator.msg := m |}.

(** A value that holds no string but the empty one: what a date chain
    leaves in the body. *)
Definition date_ready (v : option scalar) : Prop :=
  match v with
  | Some (SStr (String _ _)) => False
  | _ => True
  end.

(** The world after one more call on [res] or [next], the store untouched. *)
Definition respond (a : action) (w : world) : world :=
  {| db := db w; clock := clock w; sent := (sent w ++ [a])%list |}.

(** A path that holds no value: [undefined] or [null]. *)
Definition absent {A} (f : field A) : Prop := is_val f = false.

(** A middleware that leaves the route parameters alone. *)
Definition keeps_params (m : middleware) : Prop :=
  ∀ r es, params_id (m (r, es)).1 = params_id r.

(** The error of reading [url] from the null result of an update. *)
Definition url_of_null : Err.t :=
  Err.TypeError "Cannot read properties of null (reading 'url')".

(** The books that reference an author and the copies that reference a
    book: the dependents the delete pages look for. *)
Definition books_of (i : ObjectId) (st : store) : list Book.t :=
  List.filter (λ b, bool_decide (Book.author b = Val i)) (books st).

Definition instances_of (i : ObjectId) (st : store) : list BookInstance.t :=
  List.filter (λ d, bool_decide (BookInstance.book d = Val i)) (bookinstances st).

(** The store once the document with identifier [i] is taken out of the
    collection of a model. *)
Definition without {D} {model : Model D} (i : ObjectId) (st : store) : store :=
  set_collection (remove_first (has_id i) (collection st)).2 st.

Definition with_db (st : store) (w : world) : world :=
  {| db := st; clock := clock w; sent := sent w |}.

(** The pages that ask to confirm a delete, with the dependents found. *)
Definition author_delete_page (a : option Author.t) (l : list Book.t) : action :=
  Render "author_delete"
    [("title", LString "Delete Author"); ("author", LAuthor a);
     ("author_books", LBooks (Book.select ["title"; "summary"] <$> l))].

Definition book_delete_page (b : option Book.t) (l : list BookInstance.t) : action :=
  Render "book_delete"
    [("title", LString "Delete Book"); ("book", LBook b);
     ("bookinstances", LBookInstances l)].

(** The list the genre field is read as: none, one value, or the values. *)
Definition genre_list (g : option multi) : list scalar :=
  match g with
  | None => []
  | Some (One x) => [x]
  | Some (Many l) => l
  end.

(** The handler signalled not-found: its one answer is an error with
    status 404 handed to [next]. *)
Definition signals_not_found (w w' : world) : Prop :=
  ∃ e, sent w' = (sent w ++ [Next e])%list ∧ Err.status e = Some 404%Z.

(** ** A small library, to run the controllers on *)

Module Examples.
Definition id_munro : ObjectId := "5f8d0a1b2c3d4e5f60718201".
Definition id_carver : ObjectId := "5f8d0a1b2c3d4e5f60718202".
Definition id_paley : ObjectId := "5f8d0a1b2c3d4e5f60718203".
Definition id_runaway : ObjectId := "5f8d0a1b2c3d4e5f60718211".
Definition id_cathedral : ObjectId := "5f8d0a1b2c3d4e5f60718212".
Definition id_copy1 : ObjectId := "5f8d0a1b2c3d4e5f60718222".
Definition id_copy2 : ObjectId := "5f8d0a1b2c3d4e5f60718221".
Definition id_new : ObjectId := "5f8d0a1b2c3d4e5f607182aa".
Definition id_other : ObjectId := "5f8d0a1b2c3d4e5f607182bb".
Definition id_unknown : ObjectId := "5f8d0a1b2c3d4e5f607182ff".

Definition munro : Author.t :=
  {| Author._id := id_munro; Author.first_name := Val "Alice";
     Author.family_name := Val "Munro"; Author.date_of_birth := Val 0%Z;
     Author.date_of_death := Null |}.

Definition carver : Author.t :=
  {| Author._id := id_carver; Author.first_name := Val "Raymond";
     Author.family_name := Val "Carver"; Author.date_of_birth := Undefined;
     Author.date_of_death := Undefined |}.

(** An author without books. *)
Definition paley : Author.t :=
  {| Author._id := id_paley; Author.first_name := Val "Grace";
     Author.family_name := Val "Paley"; Author.date_of_birth := Undefined;
     Author.date_of_death := Undefined |}.

Definition runaway : Book.t :=
  {| Book._id := id_runaway; Book.title := Val "Runaway";
     Book.author := Val id_munro; Book.summary := Val "Stories";
     Book.isbn := Val "1400042817"; Book.genre := Val [] |}.

Definition cathedral : Book.t :=
  {| Book._id := id_cathedral; Book.title := Val "Cathedral";
     Book.author := Val id_carver; Book.summary := Val "Stories";
     Book.isbn := Val "0679723692"; Book.genre := Val [] |}.

(** Two copies, stored in descending order of every path. *)
Definition copy1 : BookInstance.t :=
  {| BookInstance._id := id_copy1; BookInstance.book := Val id_runaway;
     BookInstance.imprint := Val "Vintage"; BookInstance.status := Val "Reserved";
     BookInstance.due_back := Val 20%Z |}.

Definition copy2 : BookInstance.t :=
  {| BookInstance._id := id_copy2; BookInstance.book := Val id_cathedral;
     BookInstance.imprint := Val "Knopf"; BookInstance.status := Val "Available";
     BookInstance.due_back := Val 10%Z |}.

Definition library : store :=
  {| authors := [munro; carver; paley]; books := [runaway; cathedral];
     bookinstances := [copy1; copy2]; genres := [] |}.

(** The schema was built when the clock read 1000; the requests arrive when
    it reads 2000. *)
Definition sch : BookInstance.schema := BookInstance.BookInstanceSchema 1000.

Definition w0 : world := {| db := library; clock := 2000; sent := [] |}.

Definition request_of (param : string) (fields : list (string * string))
    (genre : option multi) : request :=
  {| params_id := param;
     body := list_to_map ((λ '(k, v), (k, SStr v)) <$> fields);
     body_genre := genre |}.
End Examples.

(** ** The remaining handlers of the three controllers *)

Section forms.
Variable sch : BookInstance.schema.

(** Display Author create form on GET. *)
Definition author_create_get (req : request) (w : world) : world :=
  respond (Render "author_form" [("title", LString "Create Author")]) w.

(** Display Author update form on GET. *)
Definition author_update_get (req : request) : world → world :=
  asyncHandler (
    author ← findById (D := Author.t) (params_id req);
    match author with
    | None => next (Err.with_status "Author not found" 404)
    | Some _ =>
        render "author_form"
          [("title", LString "Update Author"); ("author", LAuthor author)]
    end).

(** Display BookInstance create form on GET. *)
Definition bookinstance_create_get (req : request) : world → world :=
  asyncHandler (
    allBooks ← fmap (M := list) (Book.select ["title"]) <$> find_all;
    render "bookinstance_form"
      [("title", LString "Create BookInstance"); ("book_list", LBooks allBooks)]).

(** The local [bookinstance] of a page: the copy with its book populated,
    or null. *)
Definition bookinstance_local (st : store) (b : option BookInstance.t) : local :=
  match b with
  | Some b => LBookInstanceWithBook (b, populate_book st b)
  | None => LBookInstance None
  end.

(** Display BookInstance delete form on GET; the redirect of the
    missing-copy branch does not return. *)
Definition bookinstance_delete_get (req : request) : world → world :=
  asyncHandler (
    st ← get_db;
    bookInstance ← findById (model := BookInstanceModel sch) (params_id req);
    _ ← match bookInstance with
        | None => redirect "/catalog/bookinstances"
        | Some _ => mret ()
        end;
    render "bookinstance_delete"
      [("title", LString "Delete Copy");
       ("bookinstance", bookinstance_local st bookInstance)]).

(** Display BookInstance update form on GET. *)
Definition bookinstance_update_get (req : request) : world → world :=
  asyncHandler (
    st ← get_db;
    bookInstance ← findById (model := BookInstanceModel sch) (params_id req);
    allBooks ← fmap (M := list) (Book.select ["title"]) <$> find_all;
    match bookInstance with
    | None => next (Err.with_status "No Book Instance Found" 404)
    | Some _ =>
        render "bookinstance_form"
          [("title", LString "Update BookInstance"); ("book_list", LBooks allBooks);
           ("bookinstance", bookinstance_local st bookInstance)]
    end).

(** Display book create form on GET: no genre is marked. *)
Definition book_create_get (req : request) : world → world :=
  asyncHandler (
    allAuthors ← find_all (D := Author.t);
    st ← get_db;
    render "book_form"
      [("title", LString "Create book");
       ("genres", LGenres ((λ g, (g, false)) <$> genres st));
       ("authors", LAuthors allAuthors)]).

(** The two loops of the update form: a genre is marked when one of the
    populated genres of the book has its identifier. *)
Definition mark_checked (book_genres allGenres : list Genre.t)
    : list (Genre.t * bool) :=
  (λ genre,
     (genre,
      existsb (λ book_g, bool_decide (Genre._id genre = Genre._id book_g))
        book_genres)) <$> allGenres.

(** Display book update form on GET. *)
Definition book_update_get (req : request) : world → world :=
  asyncHandler (
    st ← get_db;
    book ← findById (D := Book.t) (params_id req);
    allAuthors ← find_all (D := Author.t);
    match book with
    | None => next (Err.with_status "Book not found" 404)
    | Some b =>
        render "book_form"
          [("title", LString "Update Book"); ("authors", LAuthors allAuthors);
           ("genres", LGenres (mark_checked (populate_genre st b) (genres st)));
           ("book", LBookWithRefs b (populate_author st b) (populate_genre st b))]
    end).

(** The five numbers the home page shows: [countDocuments] of every
    collection, and of the copies whose status is "Available". *)
Record counts := {
  book_count : nat;
  book_instance_count : nat;
  book_instance_available_count : nat;
  author_count : nat;
  genre_count : nat;
}.

Definition index_counts (st : store) : counts :=
  {| book_count := length (books st);
     book_instance_count := length (bookinstances st);
     book_instance_available_count :=
       length (List.filter
                 (λ d, bool_decide (BookInstance.status d = Val "Available"))
                 (bookinstances st));
     author_count := length (authors st);
     genre_count := length (genres st) |}.

(** [Model.countDocuments(conditions).exec()] on a collection. *)
Definition countDocuments {A} (coll : store → list A) (conditions : A → bool)
    : M nat :=
  st ← get_db; mret (length (List.filter conditions (coll st))).

(** The home page of the catalog. *)
Definition index (req : request) : world → world :=
  asyncHandler (
    numBooks ← countDocuments books (λ _, true);
    numGenres ← countDocuments genres (λ _, true);
    numBookInstances ← countDocuments bookinstances (λ _, true);
    numAvailableBookInstances ←
      countDocuments bookinstances
        (λ d, bool_decide (BookInstance.status d = Val "Available"));
    numAuthors ← countDocuments authors (λ _, true);
    render "index"
      [("title", LString "Local Library Home");
       ("book_count", LNumber numBooks);
       ("book_instance_count", LNumber numBookInstances);
       ("book_instance_available_count", LNumber numAvailableBookInstances);
       ("author_count", LNumber numAuthors);
       ("genre_count", LNumber numGenres)]).
End forms.

(** ** More notions used in the statements *)

(** The characters [escape] replaces, the ampersand aside (the entities it
    writes start with one). *)
Definition html_special (c : ascii) : bool :=
  existsb (N.eqb (validator.code c)) [34; 39; 60; 62; 47; 92; 96]%N.

Definition html_safe (s : string) : Prop :=
  ObjectId.forall_chars (λ c, negb (html_special c)) s = true.

(** The identifiers of a genre path. *)
Definition genre_ids (b : Book.t) : list (field ObjectId) :=
  match Book.genre b with
  | Val l => l
  | _ => []
  end.

(** The error of reading [_id] from the undefined path [book]. *)
Definition id_of_undefined : Err.t :=
  Err.TypeError "Cannot read properties of undefined (reading '_id')".

(** A name the author form accepts (once trimmed), a date field a form
    accepts, and a text field that is not blank. *)
Definition valid_name (s : string) : Prop :=
  s ≠ "" ∧ (String.length s ≤ 100)%nat ∧ validator.all_alnum s = true.

Definition valid_date `{DateLib} (v : option scalar) : Prop :=
  falsy v = true ∨ isISO8601 (express_validator.toString v) = true.

Definition filled `{DateLib} (v : option scalar) : Prop :=
  validator.trim (express_validator.toString v) ≠ "".

(** The failures of a name chain on the trimmed name [t], and of a date
    chain without a message of its own. *)
Definition name_errors (f m1 m2 t : string) : list express_validator.error :=
  ((if validator.isLength 1 (Some 100) t then [] else [err f m1])
   ++ (if validator.isAlphanumeric (validator.escape t) then [] else [err f m2]))%list.

Definition date_errors `{DateLib} (f : string) (v : option scalar)
    : list express_validator.error :=
  if falsy v then []
  else if isISO8601 (express_validator.toString v) then []
       else [err f "Invalid value"].

(** The detail pages of stored records. *)
Definition author_detail_page (a : Author.t) (l : list Book.t) : action :=
  Render "author_detail"
    [("title", LString "Author Detail"); ("author", LAuthor (Some a));
     ("author_books", LBooks (Book.select ["title"; "summary"] <$> l))].

Definition book_detail_page (st : store) (b : Book.t) (l : list BookInstance.t)
    : action :=
  Render "book_detail"
    [("title", LField (Book.title b));
     ("book", LBookWithRefs b (populate_author st b) (populate_genre st b));
     ("book_instances", LBookInstances l)].

Definition bookinstance_detail_page (st : store) (c : BookInstance.t) : action :=
  Render "bookinstance_detail"
    [("title", LString "Book:");
     ("bookinstance", LBookInstanceWithBook (c, populate_book st c))].

(** A computation that keeps a property of the store, whether it returns or
    throws. *)
Definition keeps {A} (P : store → Prop) (m : M A) : Prop :=
  ∀ w, P (db w) → P (db (m w).2).

(** No identifier is used twice in a collection. *)
Definition store_ok (sch : BookInstance.schema) (st : store) : Prop :=
  unique_ids (D := Author.t) st
  ∧ unique_ids (D := Book.t) st
  ∧ unique_ids (model := BookInstanceModel sch) st.

(** A field of the body that holds a string without any of the characters
    [escape] replaces. *)
Definition safe_text (b : gmap string scalar) (f : string) : Prop :=
  ∃ s, b !! f = Some (SStr s) ∧ html_safe s.

Definition safe_element (x : scalar) : Prop :=
  ∃ s, x = SStr s ∧ html_safe s.

(** A computation that makes no call on [res] or [next]. *)
Definition silent {A} (m : M A) : Prop := ∀ w, sent (m w).2 = sent w.

(** A computation that makes exactly one call on [res] or [next] when it
    returns, and none when it throws. *)
Definition answers_once (m : M unit) : Prop :=
  ∀ w, match m w with
       | (Normal _, w') => ∃ a, sent w' = (sent w ++ [a])%list
       | (Throw _, w') => sent w' = sent w
       end.

(** A second library, with genres. *)
Module Shelf.
Definition id_fiction : ObjectId := "5f8d0a1b2c3d4e5f60718231".
Definition id_poetry : ObjectId := "5f8d0a1b2c3d4e5f60718232".
Definition id_essays : ObjectId := "5f8d0a1b2c3d4e5f60718233".

Definition fiction : Genre.t := {| Genre._id := id_fiction; Genre.name := Val "Fiction" |}.
Definition poetry : Genre.t := {| Genre._id := id_poetry; Genre.name := Val "Poetry" |}.
Definition essays : Genre.t := {| Genre._id := id_essays; Genre.name := Val "Essays" |}.

Definition collected : Book.t :=
  {| Book._id := Examples.id_cathedral; Book.title := Val "Collected";
     Book.author := Val Examples.id_paley; Book.summary := Val "Stories and essays";
     Book.isbn := Val "0374530289";
     Book.genre := Val [Val id_fiction; Val id_essays] |}.

Definition library : store :=
  {| authors := [Examples.munro; Examples.carver; Examples.paley];
     books := [Examples.runaway; collected];
     bookinstances := [Examples.copy1];
     genres := [fiction; poetry; essays] |}.

Definition w0 : world := {| db := library; clock := 2000; sent := [] |}.
End Shelf.

(** An author with the two names [first] and [family], and a book with the
    title [title]: what "stored under that name" and "stored under that
    title" mean. *)
Definition has_name (first family : string) (a : Author.t) : Prop :=
  Author.first_name a = Val first ∧ Author.family_name a = Val family.

Global Instance has_name_dec first family a : Decision (has_name first family a).
Proof. unfold has_name. apply _. Defined.

Definition has_title (title : string) (b : Book.t) : Prop :=
  Book.title b = Val title.

Global Instance has_title_dec title b : Decision (has_title title b).
Proof. unfold has_title. apply _. Defined.

(** What a date path of a stored document holds for the raw value [v] of its
    field: no value when [v] is falsy; for a non-empty string, the date
    [Date.parse] reads from it, or null when it reads none. *)
Definition stored_date `{DateLib} (v : option scalar) (f : field Z) : Prop :=
  (falsy v = true → absent f)
  ∧ (∀ s, v = Some (SStr s) → s ≠ "" →
          f = match Date_parse s with Some t => Val t | None => Null end).

(** A third library: a book stored under the title R&D and one stored
    under a title between spaces (not through the create form, which would
    have escaped and trimmed them), and two authors who share their first
    name. *)
Module Archive.
Definition id_rnd : ObjectId := "5f8d0a1b2c3d4e5f60718241".
Definition id_notes : ObjectId := "5f8d0a1b2c3d4e5f60718242".
Definition id_zed : ObjectId := "5f8d0a1b2c3d4e5f60718251".
Definition id_abe : ObjectId := "5f8d0a1b2c3d4e5f60718252".

Definition rnd : Book.t :=
  {| Book._id := id_rnd; Book.title := Val "R&D";
     Book.author := Val id_zed; Book.summary := Val "Reports";
     Book.isbn := Val "0000000001"; Book.genre := Val [] |}.

Definition notes : Book.t :=
  {| Book._id := id_notes; Book.title := Val " Notes ";
     Book.author := Val id_zed; Book.summary := Val "Notes";
     Book.isbn := Val "0000000003"; Book.genre := Val [] |}.

Definition zed : Author.t :=
  {| Author._id := id_zed; Author.first_name := Val "Al";
     Author.family_name := Val "Zed"; Author.date_of_birth := Undefined;
     Author.date_of_death := Undefined |}.

Definition abe : Author.t :=
  {| Author._id := id_abe; Author.first_name := Val "Al";
     Author.family_name := Val "Abe"; Author.date_of_birth := Undefined;
     Author.date_of_death := Undefined |}.

Definition library : store :=
  {| authors := [zed; abe]; books := [rnd; notes]; bookinstances := [];
     genres := [] |}.

Definition w0 : world := {| db := library; clock := 2000; sent := [] |}.
End Archive.

(** A second instance of the date interface.  Its validator also accepts
    week dates, [YYYY-Www], which are ISO 8601 and which [Date.parse] does
    not read: the two functions come from different libraries and do not
    accept the same strings. *)
Module WeekDates.
Import validator.

Definition is_week (s : string) : bool :=
  match s with
  | String y1 (String y2 (String y3 (String y4 (String h (String w
      (String d1 (String d2 ""))))))) =>
      forallb SimpleDates.is_digit [y1; y2; y3; y4; d1; d2]
      && (code h =? 45)%N && (code w =? 87)%N
  | _ => false
  end.

Definition lib : DateLib := {|
  isISO8601 s := bool_decide (is_Some (SimpleDates.calendar s)) || is_week s;
  Date_parse := SimpleDates.calendar;
  Date_toISOString t := pretty t;
  Date_toString t := pretty t;
  Date_of_string := SimpleDates.calendar;
|}.
End WeekDates.

(** * Properties *)

(** ** The validation chains *)

Lemma escape_char_cases c :
  validator.escape_char c = String c "" ∨
  (validator.is_alnum c = false ∧ ∃ r, validator.escape_char c = String "&" r).
Proof. destruct c as [[] [] [] [] [] [] [] []]; vm_compute; eauto. Qed.

(** A string that is alphanumeric once escaped holds nothing to escape. *)
Lemma escape_alnum s :
  validator.all_alnum (validator.escape s) = true → validator.escape s = s.
Proof.
  induction s as [|c s IH]; simpl; [done|].
  destruct (escape_char_cases c) as [->|[Hc [r ->]]]; simpl.
  - intros [_ Hs]%andb_prop. by rewrite IH.
  - discriminate.
Qed.

Lemma isAlphanumeric_escape s :
  validator.isAlphanumeric (validator.escape s) = true →
  validator.escape s = s ∧ s ≠ "".
Proof.
  intros Ha. assert (validator.all_alnum (validator.escape s) = true) as Hall.
  { unfold validator.isAlphanumeric in Ha. by destruct (validator.escape s). }
  apply escape_alnum in Hall. split; [done|].
  intros ->. discriminate.
Qed.

Section chain_facts.
Context `{DateLib}.
Import express_validator.

Lemma name_chain_run f m1 m2 p b g es :
  let t := validator.trim (toString (b !! f)) in
  name_chain f m1 m2 ({| params_id := p; body := b; body_genre := g |}, es) =
  ({| params_id := p; body := <[f := SStr (validator.escape t)]> b;
      body_genre := g |},
   (es ++ (if validator.isLength 1 (Some 100) t then [] else [err f m1])
       ++ (if validator.isAlphanumeric (validator.escape t) then []
           else [err f m2]))%list).
Proof.
  intros t. unfold name_chain, check_body, run_field. cbn. fold t.
  destruct (validator.isLength 1 (Some 100) t); cbn;
    destruct (validator.isAlphanumeric (validator.escape t)); reflexivity.
Qed.

Lemma text_chain_run f m p b g es :
  let t := validator.trim (toString (b !! f)) in
  text_chain f m ({| params_id := p; body := b; body_genre := g |}, es) =
  ({| params_id := p; body := <[f := SStr (validator.escape t)]> b;
      body_genre := g |},
   (es ++ (if validator.isLength 1 None t then [] else [err f m]))%list).
Proof.
  intros t. unfold text_chain, check_body, run_field. cbn. fold t.
  destruct (validator.isLength 1 None t); cbn; reflexivity.
Qed.

Lemma date_chain_run f m p b g es :
  date_chain f m ({| params_id := p; body := b; body_genre := g |}, es) =
  if falsy (b !! f) then ({| params_id := p; body := b; body_genre := g |}, es)
  else
    ({| params_id := p; body := <[f := toDate (toString (b !! f))]> b;
        body_genre := g |},
     (es ++ (if isISO8601 (toString (b !! f)) then []
             else [err f (default "Invalid value" m)]))%list).
Proof.
  unfold date_chain, check_body, run_field. cbn. unfold run_item. cbn.
  destruct (falsy (b !! f)) eqn:Hf; cbn.
  - rewrite Hf, app_nil_r. destruct (b !! f) eqn:E; [|done].
    by rewrite insert_id.
  - destruct (isISO8601 (toString (b !! f))); cbn; rewrite Hf; reflexivity.
Qed.

Lemma date_ready_cast v : date_ready v → ∃ f, castDate v = CastOk f.
Proof. destruct v as [[[|c s]|t|]|]; simpl; [eauto| done |eauto..]. Qed.

Lemma toDate_ready s : date_ready (Some (toDate s)).
Proof. unfold toDate. by destruct (Date_parse s). Qed.

Lemma falsy_ready v : falsy v = true → date_ready v.
Proof. by destruct v as [[[|c s]|t|]|]. Qed.

(** The body after the chains of the author forms. *)
Lemma author_chains_run p b g :
  let first := validator.trim (toString (b !! "first_name")) in
  let family := validator.trim (toString (b !! "family_name")) in
  ∃ b' es,
    run_middlewares author_chains {| params_id := p; body := b; body_genre := g |}
    = ({| params_id := p; body := b'; body_genre := g |},
       ((if validator.isLength 1 (Some 100) first then []
         else [err "first_name" "First name must be specified."])
        ++ (if validator.isAlphanumeric (validator.escape first) then []
            else [err "first_name" "First name has non-alphanumeric characters."])
        ++ (if validator.isLength 1 (Some 100) family then []
            else [err "family_name" "Family name must be specified."])
        ++ (if validator.isAlphanumeric (validator.escape family) then []
            else [err "family_name" "Family name has non-alphanumeric characters."])
        ++ es)%list)
    ∧ b' !! "first_name" = Some (SStr (validator.escape first))
    ∧ b' !! "family_name" = Some (SStr (validator.escape family))
    ∧ date_ready (b' !! "date_of_birth")
    ∧ date_ready (b' !! "date_of_death").
Proof.
  intros first family. unfold run_middlewares, author_chains. cbn [fold_left].
  rewrite !name_chain_run. cbn [app]. cbv zeta.
  assert (∀ x, <["first_name":=x]> b !! "family_name" = b !! "family_name") as E.
  { intros x. by rewrite lookup_insert_ne. }
  rewrite !E. fold first family.
  set (b1 := <["family_name":=_]> _).
  assert (b1 !! "first_name" = Some (SStr (validator.escape first))) as H1.
  { unfold b1. rewrite lookup_insert_ne by done. apply lookup_insert_eq. }
  assert (b1 !! "family_name" = Some (SStr (validator.escape family))) as H2.
  { unfold b1. apply lookup_insert_eq. }
  rewrite date_chain_run.
  destruct (falsy (b1 !! "date_of_birth")) eqn:F1; rewrite date_chain_run.
  - destruct (falsy (b1 !! "date_of_death")) eqn:F2.
    + eexists b1, []. rewrite <-!app_assoc, app_nil_r.
      split_and!; [reflexivity | done | done | by apply falsy_ready | by apply falsy_ready ].
    + eexists _, _. rewrite <-!app_assoc. split_and!; [reflexivity|..].
      * by rewrite lookup_insert_ne.
      * by rewrite lookup_insert_ne.
      * rewrite lookup_insert_ne by done. by apply falsy_ready.
      * rewrite lookup_insert_eq. apply toDate_ready.
  - rewrite lookup_insert_ne by done.
    destruct (falsy (b1 !! "date_of_death")) eqn:F2.
    + eexists _, _. rewrite <-!app_assoc. split_and!; [reflexivity|..].
      * by rewrite lookup_insert_ne.
      * by rewrite lookup_insert_ne.
      * rewrite lookup_insert_eq. apply toDate_ready.
      * rewrite lookup_insert_ne by done. by apply falsy_ready.
    + eexists _, _. rewrite <-!app_assoc. split_and!; [reflexivity|..].
      * by rewrite !lookup_insert_ne.
      * by rewrite !lookup_insert_ne.
      * rewrite lookup_insert_ne by done. rewrite lookup_insert_eq. apply toDate_ready.
      * rewrite lookup_insert_eq. apply toDate_ready.
Qed.
End chain_facts.

(** ** Creating an author *)

Section author_create.
Context `{DateLib}.
Import express_validator.

Lemma if_nil {A} (c : bool) (x : A) : (if c then [] else [x]) = [] → c = true.
Proof. by destruct c. Qed.

(** What a submission that passes the author chains leaves in the body. *)
Lemma author_chains_valid req :
  validationResult author_chains req = [] →
  ∃ first family,
    body (sanitized author_chains req) !! "first_name" = Some (SStr first)
    ∧ body (sanitized author_chains req) !! "family_name" = Some (SStr family)
    ∧ first ≠ "" ∧ family ≠ ""
    ∧ (String.length first ≤ 100)%nat ∧ (String.length family ≤ 100)%nat
    ∧ date_ready (body (sanitized author_chains req) !! "date_of_birth")
    ∧ date_ready (body (sanitized author_chains req) !! "date_of_death").
Proof.
  destruct req as [p b g]. unfold validationResult, sanitized.
  destruct (author_chains_run p b g) as (b' & es & -> & H1 & H2 & H3 & H4).
  cbn [fst snd body]. intros He.
  apply app_eq_nil in He as [L1%if_nil He].
  apply app_eq_nil in He as [A1%if_nil He].
  apply app_eq_nil in He as [L2%if_nil He].
  apply app_eq_nil in He as [A2%if_nil _].
  apply isAlphanumeric_escape in A1 as [E1 N1], A2 as [E2 N2].
  rewrite E1 in H1. rewrite E2 in H2.
  unfold validator.isLength in L1, L2.
  apply andb_prop in L1 as [_ L1%Nat.leb_le], L2 as [_ L2%Nat.leb_le].
  eauto 10.
Qed.

(** The document built from such a body passes the schema's validators. *)
Lemma Author_new_valid oid id first family dob dod :
  first ≠ "" → family ≠ "" →
  (String.length first ≤ 100)%nat → (String.length family ≤ 100)%nat →
  date_ready dob → date_ready dod →
  let c := Author.new oid id (Some (SStr first)) (Some (SStr family)) dob dod in
  cast_errors c = [] → Author.validate c = []
  ∧ Author.first_name (doc c) = Val first
  ∧ Author.family_name (doc c) = Val family.
Proof.
  intros N1 N2 L1 L2 [d1 D1]%date_ready_cast [d2 D2]%date_ready_cast c Hc.
  unfold Author.validate. rewrite Hc. subst c. unfold Author.new.
  rewrite D1, D2. cbn.
  destruct (set_path "_id" _ _) as [i e0].
  destruct first as [|c1 f1]; [done|]. destruct family as [|c2 f2]; [done|].
  apply Nat.leb_le in L1, L2.
  destruct d1, d2; cbn [doc Author.first_name Author.family_name required_string
    maxLength app]; by rewrite L1, L2.
Qed.

Lemma Author_new_created oid first family dob dod :
  date_ready dob → date_ready dod →
  let c := Author.new oid None (Some (SStr first)) (Some (SStr family)) dob dod in
  cast_errors c = [] ∧ Author._id (doc c) = oid.
Proof.
  intros [d1 D1]%date_ready_cast [d2 D2]%date_ready_cast. cbn.
  unfold Author.new. rewrite D1, D2. cbn.
  destruct d1, d2; cbn; done.
Qed.

(** A valid submission: search for the name, then save and redirect. *)
Lemma author_create_post_valid oid req w :
  validationResult author_chains req = [] →
  let first := body (sanitized author_chains req) !! "first_name" in
  let family := body (sanitized author_chains req) !! "family_name" in
  let author :=
    Author.new oid None first family
      (body (sanitized author_chains req) !! "date_of_birth")
      (body (sanitized author_chains req) !! "date_of_death") in
  author_create_post oid req w =
  match List.find (name_is first family) (authors (db w)) with
  | Some a => respond (Redirect (Author.url a)) w
  | None =>
      if existsb (has_id oid) (authors (db w))
      then respond (Next Err.DuplicateKey) w
      else {| db := set_collection (authors (db w) ++ [doc author])%list (db w);
              clock := clock w;
              sent := (sent w ++ [Redirect (Author.url (doc author))])%list |}
  end.
Proof.
  intros Hv. destruct (author_chains_valid req Hv)
    as (first & family & H1 & H2 & N1 & N2 & L1 & L2 & D1 & D2).
  cbv zeta. unfold author_create_post.
  unfold validationResult in Hv. unfold sanitized in *.
  destruct (run_middlewares author_chains req) as [req' errs].
  cbn [fst snd] in *. subst errs. rewrite H1, H2.
  destruct (Author_new_created oid first family _ _ D1 D2) as [Hc Hid].
  destruct (Author_new_valid oid None first family _ _ N1 N2 L1 L2 D1 D2 Hc)
    as (Hval & _ & _).
  set (author := Author.new _ _ _ _ _ _) in *.
  unfold asyncHandler, mbind, M_bind, get_db. cbn [db].
  destruct (List.find _ _) as [a|]; [reflexivity|].
  unfold save. cbn [invalid AuthorModel]. rewrite Hval.
  unfold mbind, M_bind, get_db. cbn [db collection AuthorModel id_of].
  rewrite Hid. destruct (existsb _ _); reflexivity.
Qed.
End author_create.

Section dedup.
Context `{DateLib}.

Lemma find_filter_nil {A} (p : A → bool) l :
  List.filter p l = [] → List.find p l = None.
Proof.
  induction l as [|x l IH]; simpl; [done|]. destruct (p x); [done|auto].
Qed.

Lemma find_app_new {A} (p : A → bool) l x :
  List.find p l = None → p x = true → List.find p (l ++ [x]) = Some x.
Proof.
  induction l as [|y l IH]; simpl; intros Hn Hx; [by rewrite Hx|].
  destruct (p y); [done|auto].
Qed.

Lemma name_is_same first family a :
  Author.first_name a = Val first → Author.family_name a = Val family →
  name_is (Some (SStr first)) (Some (SStr family)) a = true.
Proof.
  intros E1 E2. unfold name_is, string_is. cbn. rewrite E1, E2.
  by rewrite !bool_decide_eq_true_2.
Qed.

(** Two submissions of one valid author form whose name is new. *)
Lemma author_create_twice oid1 oid2 req w :
  validationResult author_chains req = [] →
  let first := body (sanitized author_chains req) !! "first_name" in
  let family := body (sanitized author_chains req) !! "family_name" in
  List.filter (name_is first family) (authors (db w)) = [] →
  existsb (has_id oid1) (authors (db w)) = false →
  let w1 := author_create_post oid1 req w in
  let w2 := author_create_post oid2 req w1 in
  length (List.filter (name_is first family) (authors (db w2))) = 1
  ∧ sent w1 = (sent w ++ [Redirect ("/catalog/author/" +:+ oid1)])%list
  ∧ sent w2 = (sent w1 ++ [Redirect ("/catalog/author/" +:+ oid1)])%list.
Proof.
  intros Hv first family Hnew Hfresh w1 w2.
  pose proof (author_create_post_valid oid1 req w Hv) as E1.
  pose proof (author_create_post_valid oid2 req w1 Hv) as E2.
  cbv zeta in E1, E2. fold first family in E1, E2. fold w1 in E1. fold w2 in E2.
  destruct (author_chains_valid req Hv)
    as (f & g & H1 & H2 & N1 & N2 & L1 & L2 & D1 & D2).
  destruct (Author_new_created oid1 f g _ _ D1 D2) as [Hc Hid].
  destruct (Author_new_valid oid1 None f g _ _ N1 N2 L1 L2 D1 D2 Hc)
    as (_ & Hf & Hg).
  rewrite (find_filter_nil _ _ Hnew), Hfresh in E1.
  unfold first, family in *. rewrite H1, H2 in *.
  set (a1 := doc (Author.new oid1 None _ _ _ _)) in *.
  assert (authors (db w1) = (authors (db w) ++ [a1])%list) as Hdb by by rewrite E1.
  rewrite Hdb, (find_app_new _ _ a1) in E2;
    [| by apply find_filter_nil | by apply name_is_same].
  assert (Author.url a1 = "/catalog/author/" +:+ oid1) as Hurl.
  { unfold Author.url. by rewrite Hid. }
  rewrite Hurl in *. split_and!.
  - rewrite E2. cbn [respond db]. rewrite Hdb, List.filter_app, Hnew. cbn.
    by rewrite name_is_same.
  - by rewrite E1.
  - by rewrite E2.
Qed.

(** A valid book form whose title is stored: redirect, nothing written. *)
Lemma book_create_existing oid req w b :
  validationResult book_create_chains req = [] →
  List.find (title_is (body (sanitized book_create_chains req) !! "title"))
    (books (db w)) = Some b →
  book_create_post oid req w = respond (Redirect (Book.url b)) w.
Proof.
  unfold validationResult, sanitized, book_create_post.
  destruct (run_middlewares book_create_chains req) as [req' errs].
  cbn [fst snd]. intros -> Hb.
  unfold asyncHandler, mbind, M_bind, get_db. cbn [db]. by rewrite Hb.
Qed.
End dedup.

(** ** Detail pages *)

Section detail.
Variable sch : BookInstance.schema.

Lemma author_detail_missing req w i :
  ObjectId.ofString (params_id req) = Some i →
  stored (D := Author.t) i (db w) = None →
  author_detail req w = respond (Next (Err.with_status "Author not found" 404)) w.
Proof.
  unfold stored, author_detail, asyncHandler, findById, cast_id, find_refs.
  intros -> Hn. unfold fmap, M_fmap, mbind, M_bind, mret, M_ret, get_db.
  cbn [db collection AuthorModel] in *. by rewrite Hn.
Qed.

Lemma book_detail_missing req w i :
  ObjectId.ofString (params_id req) = Some i →
  stored (D := Book.t) i (db w) = None →
  book_detail sch req w = respond (Next (Err.with_status "Book not found" 404)) w.
Proof.
  unfold stored, book_detail, asyncHandler, findById, cast_id, find_refs.
  intros -> Hn. unfold fmap, M_fmap, mbind, M_bind, mret, M_ret, get_db.
  cbn [db collection BookModel] in *. by rewrite Hn.
Qed.

Lemma bookinstance_detail_missing req w i :
  ObjectId.ofString (params_id req) = Some i →
  stored (model := BookInstanceModel sch) i (db w) = None →
  bookinstance_detail sch req w
  = respond (Next (Err.with_status "Book copy not found" 404)) w.
Proof.
  unfold stored, bookinstance_detail, asyncHandler, findById, cast_id.
  intros -> Hn. unfold mbind, M_bind, mret, M_ret, get_db.
  cbn [db collection BookInstanceModel] in *. by rewrite Hn.
Qed.

(** No detail page writes to the store, whatever the identifier. *)
Lemma detail_reads_only req w :
  db (author_detail req w) = db w
  ∧ db (book_detail sch req w) = db w
  ∧ db (bookinstance_detail sch req w) = db w.
Proof.
  unfold author_detail, book_detail, bookinstance_detail, asyncHandler,
    findById, cast_id, find_refs.
  unfold fmap, M_fmap, mbind, M_bind, mret, M_ret, get_db, throw.
  destruct (ObjectId.ofString (params_id req)); cbn; [|done].
  split_and!; by destruct (List.find _ _).
Qed.
End detail.

(** ** Route parameters survive the validation chains *)

Section params.
Context `{DateLib}.

Lemma check_body_keeps f m calls : keeps_params (check_body f m calls).
Proof.
  intros r es. unfold check_body. by destruct (express_validator.run_field _ _ _).
Qed.

Lemma check_genre_each_keeps m calls : keeps_params (check_genre_each m calls).
Proof.
  intros r es. unfold check_genre_each.
  destruct (body_genre r) as [[x|l]|]; [done| |done].
  by destruct (run_elements _ _ _ _).
Qed.

Lemma genre_to_array_keeps : keeps_params genre_to_array.
Proof. by intros r es. Qed.

Lemma run_middlewares_params ms req :
  Forall keeps_params ms → params_id (run_middlewares ms req).1 = params_id req.
Proof.
  unfold run_middlewares. generalize (@nil express_validator.error).
  revert req. induction ms as [|m ms IH]; intros req es Hk; [done|].
  apply Forall_cons in Hk as [Hm Hk]. cbn [fold_left].
  destruct (m (req, es)) as [r1 e1] eqn:E. rewrite IH by done.
  specialize (Hm req es). by rewrite E in Hm.
Qed.

Lemma author_chains_keep : Forall keeps_params author_chains.
Proof. repeat constructor; apply check_body_keeps. Qed.

Lemma book_chains_keep m g : Forall keeps_params (book_chains m g).
Proof.
  repeat constructor;
    first [apply check_body_keeps | apply check_genre_each_keeps
          | apply genre_to_array_keeps].
Qed.

Lemma bookinstance_chains_keep : Forall keeps_params bookinstance_chains.
Proof. repeat constructor; apply check_body_keeps. Qed.

Lemma delete_chains_keep :
  Forall keeps_params author_delete_chains
  ∧ Forall keeps_params book_delete_chains
  ∧ Forall keeps_params bookinstance_delete_chains.
Proof. split_and!; repeat constructor; apply check_body_keeps. Qed.
End params.

(** ** Updates of a record that is not stored *)

Section update.
Context `{DateLib}.
Variable sch : BookInstance.schema.

Lemma findByIdAndUpdate_missing {D} {model : Model D} s i (c : candidate D) w :
  ObjectId.ofString s = Some i →
  stored i (db w) = None →
  findByIdAndUpdate s c w = (Normal None, w).
Proof.
  unfold stored, findByIdAndUpdate, cast_id. intros -> Hn.
  unfold mbind, M_bind, mret, M_ret, get_db. cbn. by rewrite Hn.
Qed.

Lemma author_update_missing oid req w i :
  validationResult author_chains req = [] →
  ObjectId.ofString (params_id req) = Some i →
  stored (D := Author.t) i (db w) = None →
  author_update_post oid req w = respond (Next url_of_null) w.
Proof.
  unfold validationResult, author_update_post. intros Hv Hi Hn.
  pose proof (run_middlewares_params _ req author_chains_keep) as Hp.
  destruct (run_middlewares author_chains req) as [req' errs].
  cbn [fst snd] in *. subst errs. rewrite Hp.
  unfold asyncHandler, mbind, M_bind.
  by rewrite (findByIdAndUpdate_missing _ i).
Qed.

Lemma book_update_missing oid req w i :
  validationResult book_update_chains req = [] →
  ObjectId.ofString (params_id req) = Some i →
  stored (D := Book.t) i (db w) = None →
  book_update_post oid req w = respond (Next url_of_null) w.
Proof.
  unfold validationResult, book_update_post, book_update_chains.
  intros Hv Hi Hn.
  pose proof (run_middlewares_params _ req
                (book_chains_keep "ISBN must not be empty" None)) as Hp.
  destruct (run_middlewares (book_chains _ _) req) as [req' errs].
  cbn [fst snd] in *. subst errs. rewrite Hp.
  unfold asyncHandler, mbind, M_bind.
  by rewrite (findByIdAndUpdate_missing _ i).
Qed.

Lemma bookinstance_update_missing oid req w i :
  validationResult bookinstance_chains req = [] →
  ObjectId.ofString (params_id req) = Some i →
  stored (model := BookInstanceModel sch) i (db w) = None →
  bookinstance_update_post sch oid req w = respond (Next url_of_null) w.
Proof.
  unfold validationResult, bookinstance_update_post. intros Hv Hi Hn.
  pose proof (run_middlewares_params _ req bookinstance_chains_keep) as Hp.
  destruct (run_middlewares bookinstance_chains req) as [req' errs].
  cbn [fst snd] in *. subst errs. rewrite Hp.
  unfold asyncHandler, mbind, M_bind.
  by rewrite (findByIdAndUpdate_missing (model := BookInstanceModel sch) _ i).
Qed.
End update.

(** ** Deleting *)

Section delete.
Context `{DateLib}.
Variable sch : BookInstance.schema.
Import express_validator.

Lemma id_chain_run f m p b g :
  let req := {| params_id := p; body := b; body_genre := g |} in
  run_middlewares [check_body f m [Trim; IsLength 1 None]] req =
  ({| params_id := p; body := <[f := SStr (submitted_id f req)]> b;
      body_genre := g |},
   if validator.isLength 1 None (submitted_id f req) then []
   else [err f (default "Invalid value" m)]).
Proof.
  intros req. unfold run_middlewares, check_body, run_field, submitted_id.
  cbn. by destruct (validator.isLength _ _ _).
Qed.

(** A blank identifier is the only one that fails the chain, and it does
    not cast. *)
Lemma blank_id s :
  validator.isLength 1 None s = false → ObjectId.ofString s = None.
Proof. destruct s; [done|]. discriminate. Qed.

Lemma findByIdAndRemove_cast {D} {model : Model D} s i w :
  ObjectId.ofString s = Some i →
  findByIdAndRemove (D := D) (Some (SStr s)) w
  = (Normal (remove_first (has_id i) (collection (db w))).1,
     with_db (without i (db w)) w).
Proof.
  intros Hi. unfold findByIdAndRemove, castObjectId. rewrite Hi.
  unfold mbind, M_bind, mret, M_ret, get_db, put_db, without, with_db.
  cbn. by destruct (remove_first _ _).
Qed.

Lemma findByIdAndRemove_malformed {D} {model : Model D} s w :
  ObjectId.ofString s = None →
  findByIdAndRemove (D := D) (Some (SStr s)) w
  = (Throw (Err.CastError "ObjectId" "_id"), w).
Proof.
  intros Hi. unfold findByIdAndRemove, castObjectId. by rewrite Hi.
Qed.

Lemma find_no_id {D} {model : Model D} i (l : list D) :
  i ∉ id_of <$> l → List.find (has_id i) l = None.
Proof.
  induction l as [|d l IH]; [done|]. rewrite fmap_cons. intros Hn.
  apply not_elem_of_cons in Hn as [Hd Hl]. cbn. unfold has_id at 1.
  rewrite bool_decide_eq_false_2 by done. auto.
Qed.

(** Taking a document out by its identifier leaves none with it, when the
    identifiers are unique. *)
Lemma remove_first_gone {D} {model : Model D} i (l : list D) :
  NoDup (id_of <$> l) →
  List.find (has_id i) (remove_first (has_id i) l).2 = None.
Proof.
  induction l as [|d l IH]; [done|]. rewrite fmap_cons.
  intros Hnd. pose proof (NoDup_cons_1_1 _ _ Hnd) as Hd.
  pose proof (NoDup_cons_1_2 _ _ Hnd) as Hl.
  cbn [remove_first]. destruct (has_id i d) eqn:E.
  - cbn [snd]. apply bool_decide_eq_true in E. subst i. by apply find_no_id.
  - destruct (remove_first (has_id i) l) as [r l'] eqn:Er. cbn [snd] in *.
    cbn. rewrite E. by apply IH.
Qed.

Lemma without_gone {D} {model : Model D} i st :
  (∀ l, collection (set_collection l st) = l) →
  unique_ids (D := D) st → stored (D := D) i (without i st) = None.
Proof.
  intros Hc Hu. unfold stored, without. rewrite Hc. by apply remove_first_gone.
Qed.
(** The delete of an entity with dependents is refused: the POST handler
    answers as the GET handler does. *)
Lemma author_delete_refused req w i a :
  ObjectId.ofString (params_id req) = Some i →
  stored (D := Author.t) i (db w) = Some a →
  books_of i (db w) ≠ [] →
  author_delete_post req w
  = respond (author_delete_page (Some a) (books_of i (db w))) w
  ∧ author_delete_get req w
    = respond (author_delete_page (Some a) (books_of i (db w))) w.
Proof.
  destruct req as [p b g]. cbn [params_id]. intros Hi Ha Hb.
  unfold author_delete_post, author_delete_get, author_delete_chains.
  rewrite id_chain_run. cbn [params_id].
  unfold asyncHandler, findById, cast_id, find_refs. rewrite Hi.
  unfold fmap, M_fmap, mbind, M_bind, mret, M_ret, get_db.
  unfold stored in Ha. cbn [db collection AuthorModel BookModel] in *.
  rewrite Ha. fold (books_of i (db w)).
  destruct (books_of i (db w)) as [|x l]; [done|]. done.
Qed.

Lemma book_delete_refused req w i b :
  ObjectId.ofString (params_id req) = Some i →
  stored (D := Book.t) i (db w) = Some b →
  instances_of i (db w) ≠ [] →
  book_delete_post sch req w
  = respond (book_delete_page (Some b) (instances_of i (db w))) w
  ∧ book_delete_get sch req w
    = respond (book_delete_page (Some b) (instances_of i (db w))) w.
Proof.
  destruct req as [p bd g]. cbn [params_id]. intros Hi Ha Hb.
  unfold book_delete_post, book_delete_get, book_delete_chains.
  rewrite id_chain_run. cbn [params_id].
  unfold asyncHandler, findById, cast_id, find_refs. rewrite Hi.
  unfold fmap, M_fmap, mbind, M_bind, mret, M_ret, get_db.
  unfold stored in Ha. cbn [db collection BookModel BookInstanceModel] in *.
  rewrite Ha. fold (instances_of i (db w)).
  destruct (instances_of i (db w)) as [|x l]; [done|]. done.
Qed.

(** The entity of the URL has no dependents: the entity of the form field
    is taken out. *)
Lemma author_delete_other req w p bi :
  ObjectId.ofString (params_id req) = Some p →
  books_of p (db w) = [] →
  ObjectId.ofString (submitted_id "authorid" req) = Some bi →
  author_delete_post req w
  = respond (Redirect "/catalog/authors")
      (with_db (without (D := Author.t) bi (db w)) w).
Proof.
  destruct req as [pp b g]. cbn [params_id]. intros Hp Hb Hi.
  unfold author_delete_post, author_delete_chains.
  rewrite id_chain_run. cbn [params_id body].
  unfold asyncHandler, findById, cast_id, find_refs. rewrite Hp.
  unfold fmap, M_fmap, mbind, M_bind, mret, M_ret, get_db.
  cbn [db collection AuthorModel BookModel] in *.
  fold (books_of p (db w)). rewrite Hb. cbn [list_fmap].
  rewrite lookup_insert_eq.
  by rewrite (findByIdAndRemove_cast _ bi).
Qed.

Lemma book_delete_other req w p bi :
  ObjectId.ofString (params_id req) = Some p →
  instances_of p (db w) = [] →
  ObjectId.ofString (submitted_id "bookid" req) = Some bi →
  book_delete_post sch req w
  = respond (Redirect "/catalog/books")
      (with_db (without (D := Book.t) bi (db w)) w).
Proof.
  destruct req as [pp b g]. cbn [params_id]. intros Hp Hb Hi.
  unfold book_delete_post, book_delete_chains.
  rewrite id_chain_run. cbn [params_id body].
  unfold asyncHandler, findById, cast_id, find_refs. rewrite Hp.
  unfold fmap, M_fmap, mbind, M_bind, mret, M_ret, get_db.
  cbn [db collection BookInstanceModel BookModel] in *.
  fold (instances_of p (db w)). rewrite Hb.
  rewrite lookup_insert_eq.
  by rewrite (findByIdAndRemove_cast _ bi).
Qed.

(** The removal of a copy is attempted whatever the validation says. *)
Lemma bookinstance_delete_post_run req w :
  let s := submitted_id "bookinstanceid" req in
  let w0 :=
    if validator.isLength 1 None s then w
    else respond (Redirect "/catalog/bookinstances") w in
  bookinstance_delete_post sch req w =
  match ObjectId.ofString s with
  | Some i =>
      respond (Redirect "/catalog/bookinstances")
        (with_db (without (model := BookInstanceModel sch) i (db w0)) w0)
  | None => respond (Next (Err.CastError "ObjectId" "_id")) w0
  end.
Proof.
  destruct req as [pp b g]. intros s w0.
  unfold bookinstance_delete_post, bookinstance_delete_chains.
  rewrite id_chain_run. fold s. cbn [body]. rewrite lookup_insert_eq.
  unfold asyncHandler, mbind, M_bind. subst w0.
  destruct (ObjectId.ofString s) as [i|] eqn:Hi.
  - destruct (validator.isLength 1 None s); cbn [redirect send mret M_ret];
      by rewrite (findByIdAndRemove_cast (model := BookInstanceModel sch) _ i).
  - destruct (validator.isLength 1 None s); cbn [redirect send mret M_ret];
      by rewrite (findByIdAndRemove_malformed (model := BookInstanceModel sch)).
Qed.
End delete.

(** ** List pages *)

Global Instance key_le_total : Total key_le.
Proof.
  intros [x|] [y|]; simpl; auto. apply (total String.le).
Qed.

Global Instance key_le_trans : Transitive key_le.
Proof.
  intros [x|] [y|] [z|]; simpl; try done. apply (transitivity (R := String.le)).
Qed.

Global Instance by_key_total {D} (key : D → field string) : Total (by_key key).
Proof. intros a b. apply (total key_le). Qed.

Global Instance by_key_trans {D} (key : D → field string) : Transitive (by_key key).
Proof. intros a b c. apply (transitivity (R := key_le)). Qed.

(** [.sort(path)] gives the documents it was given, in ascending order of
    the path. *)
Lemma sort_sorted {D} (key : D → field string) l :
  StronglySorted (by_key key) (sort key l) ∧ sort key l ≡ₚ l.
Proof.
  split; [apply StronglySorted_merge_sort; apply _ | apply merge_sort_Permutation].
Qed.

Lemma fst_paired {A B} (f : A → B) (l : list A) :
  ((λ a, (a, f a)) <$> l).*1 = l.
Proof. induction l as [|a l IH]; [done|]. cbn. by rewrite IH. Qed.

Lemma author_list_run req w :
  author_list req w
  = respond (Render "author_list"
               [("title", LString "Author List");
                ("author_list", LAuthors (sort Author.first_name (authors (db w))))]) w.
Proof. reflexivity. Qed.

Lemma book_list_run req w :
  book_list req w
  = respond (Render "book_list"
               [("title", LString "Book List");
                ("book_list",
                 LBooksWithAuthor
                   ((λ b, (b, populate_author (db w) b))
                      <$> sort Book.title
                            (Book.select ["title"; "author"] <$> books (db w))))]) w.
Proof. reflexivity. Qed.

Lemma bookinstance_list_run sch req w :
  bookinstance_list sch req w
  = respond (Render "bookinstance_list"
               [("title", LString "Book Instance List");
                ("bookinstance_list",
                 LBookInstancesWithBook
                   ((λ b, (b, populate_book (db w) b)) <$> bookinstances (db w)))]) w.
Proof. reflexivity. Qed.

(** ** Date fields *)

Section dates.
Context `{DateLib}.
Import express_validator.

Lemma falsy_cases v :
  falsy v = true → v = None ∨ v = Some SNull ∨ v = Some (SStr "").
Proof. destruct v as [[[|c s]|t|]|]; naive_solver. Qed.

Lemma castDate_falsy v :
  falsy v = true →
  castDate v = CastOk Undefined ∨ castDate v = CastOk Null.
Proof. intros [->|[->| ->]]%falsy_cases; cbn; auto. Qed.

(** A falsy date leaves the date paths of an author without a value. *)
Lemma Author_new_absent oid id fn gn v1 v2 :
  (falsy v1 = true → absent (Author.date_of_birth (doc (Author.new oid id fn gn v1 v2))))
  ∧ (falsy v2 = true → absent (Author.date_of_death (doc (Author.new oid id fn gn v1 v2)))).
Proof.
  unfold Author.new. destruct (set_path "_id" _ _), (set_path "first_name" _ _),
    (set_path "family_name" _ _).
  split; intros [E|E]%castDate_falsy; rewrite E; cbn;
    by repeat (case_match; simplify_eq/=).
Qed.

(** The [due_back] path of a copy: no value for an empty or null field, the
    default of the schema for a missing field. *)
Lemma BookInstance_new_due_back sch oid id bk im st v :
  BookInstance.due_back (doc (BookInstance.new sch oid id bk im st v)) =
  match castDate v with
  | CastOk Undefined | CastFailed => Val (BookInstance.due_back_default sch)
  | CastOk f => f
  end.
Proof.
  unfold BookInstance.new. destruct (set_path "_id" _ _), (set_path "book" _ _),
    (set_path "imprint" _ _), (set_path "status" _ _).
  by destruct (castDate v) as [[]|].
Qed.
End dates.

(** ** Date fields, from the form to the store *)

Section dates_stored.
Context `{DateLib}.
Variable sch : BookInstance.schema.
Import express_validator.

(** A chain on one field leaves the other fields of the body alone. *)
Lemma check_body_other f m calls acc g :
  f ≠ g → body (check_body f m calls acc).1 !! g = body acc.1 !! g.
Proof.
  destruct acc as [req es]. intros Hne. unfold check_body.
  destruct (run_field _ _ _) as [[x|] es']; cbn; [|done].
  by rewrite lookup_insert_ne.
Qed.

(** A date chain leaves a falsy value as it is. *)
Lemma date_chain_falsy f m acc :
  falsy (body acc.1 !! f) = true →
  body (date_chain f m acc).1 !! f = body acc.1 !! f.
Proof.
  destruct acc as [[p b g] es]. cbn [fst body]. intros Hf.
  by rewrite date_chain_run, Hf.
Qed.

Lemma author_chains_dates req :
  (falsy (body req !! "date_of_birth") = true →
   body (sanitized author_chains req) !! "date_of_birth"
   = body req !! "date_of_birth")
  ∧ (falsy (body req !! "date_of_death") = true →
     body (sanitized author_chains req) !! "date_of_death"
     = body req !! "date_of_death").
Proof.
  unfold sanitized, run_middlewares, author_chains, name_chain. cbn [fold_left].
  split; intros Hf.
  - unfold date_chain at 1. rewrite check_body_other by done.
    rewrite date_chain_falsy; rewrite !check_body_other by done; done.
  - rewrite date_chain_falsy; unfold date_chain;
      rewrite !check_body_other by done; done.
Qed.

Lemma bookinstance_chains_due_back req :
  falsy (body req !! "due_back") = true →
  body (sanitized bookinstance_chains req) !! "due_back" = body req !! "due_back".
Proof.
  unfold sanitized, run_middlewares, bookinstance_chains. cbn [fold_left].
  intros Hf. rewrite date_chain_falsy; rewrite !check_body_other by done; done.
Qed.

(** A valid author form with falsy dates, for a new name: the author that
    is stored has no date. *)
Lemma author_create_stores_no_date oid req w :
  validationResult author_chains req = [] →
  falsy (body req !! "date_of_birth") = true →
  falsy (body req !! "date_of_death") = true →
  List.find (name_is (body (sanitized author_chains req) !! "first_name")
                     (body (sanitized author_chains req) !! "family_name"))
    (authors (db w)) = None →
  existsb (has_id oid) (authors (db w)) = false →
  ∃ a, authors (db (author_create_post oid req w)) = (authors (db w) ++ [a])%list
       ∧ absent (Author.date_of_birth a) ∧ absent (Author.date_of_death a).
Proof.
  intros Hv F1 F2 Hn Hfresh.
  rewrite (author_create_post_valid oid req w Hv). cbv zeta.
  rewrite Hn, Hfresh. eexists. split; [reflexivity|].
  destruct (author_chains_dates req) as [E1 E2].
  rewrite (E1 F1), (E2 F2). split; by apply Author_new_absent.
Qed.

(** A copy whose form and document are valid is stored as it was built. *)
Lemma bookinstance_create_post_valid oid req w :
  let req' := sanitized bookinstance_chains req in
  let c := BookInstance.new sch oid None (body req' !! "book")
             (body req' !! "imprint") (body req' !! "status")
             (body req' !! "due_back") in
  validationResult bookinstance_chains req = [] →
  BookInstance.validate sch c = [] →
  existsb (has_id (model := BookInstanceModel sch) (BookInstance._id (doc c)))
    (bookinstances (db w)) = false →
  bookinstance_create_post sch oid req w
  = respond (Redirect (BookInstance.url (doc c)))
      (with_db (set_collection (Model := BookInstanceModel sch)
                  (bookinstances (db w) ++ [doc c])%list (db w)) w).
Proof.
  intros req' c. subst req' c.
  unfold validationResult, sanitized, bookinstance_create_post.
  destruct (run_middlewares bookinstance_chains req) as [r es].
  cbn [fst snd]. intros -> Hval Hfresh.
  unfold asyncHandler, mbind, M_bind, save.
  cbn [invalid BookInstanceModel]. rewrite Hval.
  unfold mbind, M_bind, get_db. cbn [db collection BookInstanceModel id_of] in *.
  by rewrite Hfresh.
Qed.

(** The due date of the copy that is stored: none for an empty field, the
    default of the schema for a missing one. *)
Lemma bookinstance_create_due_back oid req w :
  let req' := sanitized bookinstance_chains req in
  let c := BookInstance.new sch oid None (body req' !! "book")
             (body req' !! "imprint") (body req' !! "status")
             (body req' !! "due_back") in
  validationResult bookinstance_chains req = [] →
  BookInstance.validate sch c = [] →
  existsb (has_id (model := BookInstanceModel sch) (BookInstance._id (doc c)))
    (bookinstances (db w)) = false →
  ∃ d, bookinstances (db (bookinstance_create_post sch oid req w))
       = (bookinstances (db w) ++ [d])%list
       ∧ (body req !! "due_back" = Some (SStr "") →
          absent (BookInstance.due_back d))
       ∧ (body req !! "due_back" = None →
          BookInstance.due_back d = Val (BookInstance.due_back_default sch)).
Proof.
  intros req' c Hv Hval Hfresh.
  rewrite (bookinstance_create_post_valid oid req w Hv Hval Hfresh).
  eexists. split; [reflexivity|]. fold req' c. subst c.
  rewrite BookInstance_new_due_back. subst req'.
  split; intros E; rewrite bookinstance_chains_due_back, E by (by rewrite E); done.
Qed.
End dates_stored.

(** ** The genre field of the book forms *)

Section genre.
Context `{DateLib}.
Import express_validator.

Lemma run_elements_escape m f i l :
  run_elements (build m [Escape]) f i l
  = ((λ x, SStr (validator.escape (toString (Some x)))) <$> l, []).
Proof.
  revert i. induction l as [|x l IH]; intros i; [done|].
  cbn [run_elements]. rewrite IH. reflexivity.
Qed.

(** After the chains of a book form the genre is a list: the escaped
    elements of the list the first middleware made. *)
Lemma book_chains_genre isbn_msg genre_msg req :
  body_genre (run_middlewares (book_chains isbn_msg genre_msg) req).1
  = Some (Many ((λ x, SStr (validator.escape (toString (Some x))))
                  <$> genre_list (body_genre req))).
Proof.
  destruct req as [p b g]. unfold run_middlewares, book_chains.
  cbn [fold_left]. unfold genre_to_array at 1. cbn [params_id body body_genre].
  rewrite !text_chain_run. unfold check_genre_each. cbn [body_genre].
  destruct g as [[x|l]|]; by rewrite run_elements_escape.
Qed.
End genre.

(** * Further properties of the controllers *)

(** ** Pages for a record that is not stored *)

Section missing_record.
Variable sch : BookInstance.schema.

Lemma author_delete_get_missing req w i :
  ObjectId.ofString (params_id req) = Some i →
  stored (D := Author.t) i (db w) = None →
  author_delete_get req w
  = respond (author_delete_page None (books_of i (db w)))
      (respond (Redirect "/catalog/authors") w).
Proof.
  unfold stored, author_delete_get, asyncHandler, findById, cast_id, find_refs.
  intros -> Hn. unfold fmap, M_fmap, mbind, M_bind, mret, M_ret, get_db.
  cbn [db collection AuthorModel BookModel] in *. by rewrite Hn.
Qed.

Lemma book_delete_get_missing req w i :
  ObjectId.ofString (params_id req) = Some i →
  stored (D := Book.t) i (db w) = None →
  book_delete_get sch req w
  = respond (book_delete_page None (instances_of i (db w)))
      (respond (Redirect "/catalog/books") w).
Proof.
  unfold stored, book_delete_get, asyncHandler, findById, cast_id, find_refs.
  intros -> Hn. unfold fmap, M_fmap, mbind, M_bind, mret, M_ret, get_db.
  cbn [db collection BookInstanceModel BookModel] in *. by rewrite Hn.
Qed.

Lemma bookinstance_delete_get_missing req w i :
  ObjectId.ofString (params_id req) = Some i →
  stored (model := BookInstanceModel sch) i (db w) = None →
  bookinstance_delete_get sch req w
  = respond (Render "bookinstance_delete"
               [("title", LString "Delete Copy");
                ("bookinstance", LBookInstance None)])
      (respond (Redirect "/catalog/bookinstances") w).
Proof.
  unfold stored, bookinstance_delete_get, asyncHandler, findById, cast_id.
  intros -> Hn. unfold mbind, M_bind, mret, M_ret, get_db.
  cbn [db collection BookInstanceModel] in *. by rewrite Hn.
Qed.
End missing_record.

(** X1. The confirm-delete pages do not stop at a record that is not
    stored: for an identifier that is an ObjectId of no stored author, book
    or copy, the handler calls [res.redirect] to the list and then still
    calls [res.render] of the delete page, with a null record (and, for an
    author or a book, the dependents found under that identifier); the store
    is left as it was. *)
Theorem X1_delete_get_redirects_then_renders (sch : BookInstance.schema)
    (req : request) (w : world) (i : ObjectId) :
  ObjectId.ofString (params_id req) = Some i →
  (stored (D := Author.t) i (db w) = None →
   author_delete_get req w
   = respond (author_delete_page None (books_of i (db w)))
       (respond (Redirect "/catalog/authors") w))
  ∧ (stored (D := Book.t) i (db w) = None →
     book_delete_get sch req w
     = respond (book_delete_page None (instances_of i (db w)))
         (respond (Redirect "/catalog/books") w))
  ∧ (stored (model := BookInstanceModel sch) i (db w) = None →
     bookinstance_delete_get sch req w
     = respond (Render "bookinstance_delete"
                  [("title", LString "Delete Copy");
                   ("bookinstance", LBookInstance None)])
         (respond (Redirect "/catalog/bookinstances") w)).
Proof.
  intros Hi. split_and!; intros Hn.
  - by apply (author_delete_get_missing req w i).
  - by apply (book_delete_get_missing sch req w i).
  - by apply (bookinstance_delete_get_missing sch req w i).
Qed.

Lemma X1_witness :
  let req := Examples.request_of Examples.id_unknown [] None in
  sent (author_delete_get req Examples.w0)
  = [Redirect "/catalog/authors"; author_delete_page None []]
  ∧ sent (book_delete_get Examples.sch req Examples.w0)
    = [Redirect "/catalog/books"; book_delete_page None []]
  ∧ sent (bookinstance_delete_get Examples.sch req Examples.w0)
    = [Redirect "/catalog/bookinstances";
       Render "bookinstance_delete"
         [("title", LString "Delete Copy"); ("bookinstance", LBookInstance None)]].
Proof.
  intros req.
  destruct (X1_delete_get_redirects_then_renders Examples.sch req Examples.w0
              Examples.id_unknown) as (Ha & Hb & Hc); [reflexivity|].
  rewrite Ha, Hb, Hc by reflexivity. split_and!; reflexivity.
Defined.

(** ** Update forms *)

(** X2. No update form (author, book, copy) writes to the store, whatever
    the identifier of the request.  For an identifier that is an ObjectId:
    when no record has it, the handler hands an error with status 404 to
    [next]; when a record has it, the handler renders the form with that
    record. *)
Theorem X2_update_get (sch : BookInstance.schema) (req : request) (w : world) :
  (db (author_update_get req w) = db w
   ∧ db (book_update_get req w) = db w
   ∧ db (bookinstance_update_get sch req w) = db w)
  ∧ ∀ i : ObjectId,
      ObjectId.ofString (params_id req) = Some i →
      (match stored (D := Author.t) i (db w) with
       | None => signals_not_found w (author_update_get req w)
       | Some a =>
           author_update_get req w
           = respond (Render "author_form"
                        [("title", LString "Update Author");
                         ("author", LAuthor (Some a))]) w
       end)
      ∧ (match stored (D := Book.t) i (db w) with
         | None => signals_not_found w (book_update_get req w)
         | Some b =>
             ∃ marks, book_update_get req w
             = respond (Render "book_form"
                          [("title", LString "Update Book");
                           ("authors", LAuthors (authors (db w)));
                           ("genres", LGenres marks);
                           ("book", LBookWithRefs b (populate_author (db w) b)
                                      (populate_genre (db w) b))]) w
         end)
      ∧ (match stored (model := BookInstanceModel sch) i (db w) with
         | None => signals_not_found w (bookinstance_update_get sch req w)
         | Some c =>
             bookinstance_update_get sch req w
             = respond (Render "bookinstance_form"
                          [("title", LString "Update BookInstance");
                           ("book_list",
                            LBooks (Book.select ["title"] <$> books (db w)));
                           ("bookinstance",
                            LBookInstanceWithBook (c, populate_book (db w) c))]) w
         end).
Proof.
  unfold stored, author_update_get, book_update_get, bookinstance_update_get,
    asyncHandler, findById, cast_id, find_all, signals_not_found.
  split.
  - destruct (ObjectId.ofString (params_id req)) as [i|];
      unfold fmap, M_fmap, mbind, M_bind, mret, M_ret, get_db, throw;
      cbn [db collection AuthorModel BookModel BookInstanceModel]; [|done].
    split_and!.
    + by destruct (List.find _ (authors _)).
    + by destruct (List.find _ (books _)).
    + by destruct (List.find _ (bookinstances _)).
  - intros i Hi. rewrite Hi.
    unfold fmap, M_fmap, mbind, M_bind, mret, M_ret, get_db.
    cbn [db collection AuthorModel BookModel BookInstanceModel].
    split_and!.
    + destruct (List.find _ (authors _)); [done|]. by eexists.
    + destruct (List.find _ (books _)); [by eexists|]. by eexists.
    + destruct (List.find _ (bookinstances _)); [done|]. by eexists.
Qed.

Lemma X2_witness :
  signals_not_found Examples.w0
    (author_update_get (Examples.request_of Examples.id_unknown [] None) Examples.w0)
  ∧ author_update_get (Examples.request_of Examples.id_carver [] None) Examples.w0
    = respond (Render "author_form"
                 [("title", LString "Update Author");
                  ("author", LAuthor (Some Examples.carver))]) Examples.w0
  ∧ signals_not_found Examples.w0
      (bookinstance_update_get Examples.sch
         (Examples.request_of Examples.id_unknown [] None) Examples.w0)
  ∧ db (book_update_get (Examples.request_of "abc" [] None) Examples.w0)
    = Examples.library.
Proof.
  destruct (X2_update_get Examples.sch
              (Examples.request_of Examples.id_unknown [] None) Examples.w0)
    as [_ Hu].
  destruct (Hu Examples.id_unknown) as (Ha & _ & Hc); [reflexivity|].
  destruct (X2_update_get Examples.sch
              (Examples.request_of Examples.id_carver [] None) Examples.w0)
    as [_ Hv].
  destruct (Hv Examples.id_carver) as (Hb & _); [reflexivity|].
  destruct (X2_update_get Examples.sch (Examples.request_of "abc" [] None)
              Examples.w0) as [(_ & Hd & _) _].
  split_and!; [exact Ha | exact Hb | exact Hc | exact Hd].
Defined.

(** A genre of the store is marked exactly when the book lists its
    identifier. *)
Lemma mark_checked_iff st b g c :
  (g, c) ∈ mark_checked (populate_genre st b) (genres st) →
  c = true ↔ Val (Genre._id g) ∈ genre_ids b.
Proof.
  unfold mark_checked. intros (g' & [= <- ->] & Hg)%list_elem_of_fmap.
  rewrite existsb_exists. unfold populate_genre, genre_ids.
  destruct (Book.genre b) as [| |l]; cbn.
  - split; [by intros (? & [] & _) | by intros ?%elem_of_nil].
  - split; [by intros (? & [] & _) | by intros ?%elem_of_nil].
  - split.
    + intros (bg & Hin & Heq). apply bool_decide_eq_true in Heq.
      apply list_elem_of_In, list_elem_of_omap in Hin as (fi & Hfi & Hby).
      destruct fi as [| |j]; try done. cbn in Hby.
      apply find_some in Hby as [_ Hj]. apply bool_decide_eq_true in Hj.
      by rewrite Heq, Hj.
    + intros Hl.
      destruct (List.find (λ d, bool_decide (Genre._id d = Genre._id g)) (genres st))
        as [bg|] eqn:Hf.
      * exists bg. pose proof (find_some _ _ Hf) as [_ Hj].
        apply bool_decide_eq_true in Hj. split.
        -- apply list_elem_of_In, list_elem_of_omap.
           exists (Val (Genre._id g)). split; [done|]. exact Hf.
        -- by apply bool_decide_eq_true.
      * exfalso. apply list_elem_of_In in Hg.
        pose proof (find_none _ _ Hf g Hg) as Hn.
        by apply bool_decide_eq_false in Hn.
Qed.

(** X3. The update form of a stored book lists every genre of the store, in
    the order of the store, and marks a genre as checked exactly when its
    identifier is in the [genre] path of the book. *)
Theorem X3_update_form_checks_genres_of_book (req : request) (w : world)
    (i : ObjectId) (b : Book.t) :
  ObjectId.ofString (params_id req) = Some i →
  stored (D := Book.t) i (db w) = Some b →
  ∃ marks,
    book_update_get req w
    = respond (Render "book_form"
                 [("title", LString "Update Book");
                  ("authors", LAuthors (authors (db w)));
                  ("genres", LGenres marks);
                  ("book", LBookWithRefs b (populate_author (db w) b)
                             (populate_genre (db w) b))]) w
    ∧ marks.*1 = genres (db w)
    ∧ ∀ g c, (g, c) ∈ marks → c = true ↔ Val (Genre._id g) ∈ genre_ids b.
Proof.
  intros Hi Hb. exists (mark_checked (populate_genre (db w) b) (genres (db w))).
  split_and!.
  - unfold stored in Hb.
    unfold book_update_get, asyncHandler, findById, cast_id, find_all.
    rewrite Hi. unfold mbind, M_bind, mret, M_ret, get_db.
    cbn [db collection AuthorModel BookModel] in *. by rewrite Hb.
  - unfold mark_checked. apply fst_paired.
  - intros g c. apply mark_checked_iff.
Qed.

Lemma X3_witness :
  ∃ marks,
    sent (book_update_get (Examples.request_of Examples.id_cathedral [] None) Shelf.w0)
    = [Render "book_form"
         [("title", LString "Update Book");
          ("authors", LAuthors (authors Shelf.library));
          ("genres", LGenres marks);
          ("book", LBookWithRefs Shelf.collected (Some Examples.paley)
                     [Shelf.fiction; Shelf.essays])]]
    ∧ marks.*1 = [Shelf.fiction; Shelf.poetry; Shelf.essays]
    ∧ (∀ c, (Shelf.fiction, c) ∈ marks → c = true)
    ∧ (∀ c, (Shelf.poetry, c) ∈ marks → c ≠ true).
Proof.
  destruct (X3_update_form_checks_genres_of_book
              (Examples.request_of Examples.id_cathedral [] None) Shelf.w0
              Examples.id_cathedral Shelf.collected) as (marks & E & Hm & Hc);
    [reflexivity..|].
  exists marks. rewrite E. split_and!; [reflexivity | exact Hm | |].
  - intros c Hin. apply (Hc _ _ Hin). vm_compute. apply list_elem_of_here.
  - intros c Hin Ht. apply (Hc _ _ Hin) in Ht. vm_compute in Ht.
    apply elem_of_cons in Ht as [Ht|Ht]; [discriminate|].
    apply elem_of_cons in Ht as [Ht|Ht]; [discriminate|].
    by apply elem_of_nil in Ht.
Defined.

(** ** Forms that fail validation *)

(** X4. An author or book form with at least one validation failure is not
    written anywhere: the create and the update handler answer with the form
    rendered again, with the document built from the sanitized fields and
    with the failures, and leave the store as it was. *)
Theorem X4_invalid_form_is_rendered_again `{DateLib} (oid : ObjectId)
    (req : request) (w : world) :
  (validationResult author_chains req ≠ [] →
   (∃ a, author_create_post oid req w
         = respond (Render "author_form"
                      [("title", LString "Create Author"); ("author", LAuthor (Some a));
                       ("errors", LErrors (validationResult author_chains req))]) w)
   ∧ (∃ a, author_update_post oid req w
           = respond (Render "author_form"
                        [("title", LString "Update Author"); ("author", LAuthor (Some a));
                         ("errors", LErrors (validationResult author_chains req))]) w))
  ∧ (validationResult book_create_chains req ≠ [] →
     ∃ b marks,
       book_create_post oid req w
       = respond (Render "book_form"
                    [("title", LString "Create Book");
                     ("authors", LAuthors (authors (db w)));
                     ("genres", LGenres marks); ("book", LBook (Some b));
                     ("errors", LErrors (validationResult book_create_chains req))]) w
       ∧ marks.*1 = genres (db w))
  ∧ (validationResult book_update_chains req ≠ [] →
     ∃ b marks,
       book_update_post oid req w
       = respond (Render "book_form"
                    [("title", LString "Update Book");
                     ("authors", LAuthors (authors (db w)));
                     ("genres", LGenres marks); ("book", LBook (Some b));
                     ("errors", LErrors (validationResult book_update_chains req))]) w
       ∧ marks.*1 = genres (db w)).
Proof.
  unfold validationResult, author_create_post, author_update_post,
    book_create_post, book_update_post.
  destruct (run_middlewares author_chains req) as [r1 [|e1 es1]];
    destruct (run_middlewares book_create_chains req) as [r2 [|e2 es2]];
    destruct (run_middlewares book_update_chains req) as [r3 [|e3 es3]];
    cbn [snd]; split_and!; intros Hne; try done;
    try (split; eexists; reflexivity);
    eexists _, _; (split; [reflexivity | apply fst_paired]).
Qed.

Lemma X4_witness :
  let req := Examples.request_of Examples.id_carver
    [("first_name", "Ray mond"); ("family_name", "Carver"); ("title", "")] None in
  db (author_create_post (H := SimpleDates.lib) Examples.id_new req Examples.w0)
  = Examples.library
  ∧ db (author_update_post (H := SimpleDates.lib) Examples.id_new req Examples.w0)
    = Examples.library
  ∧ db (book_create_post (H := SimpleDates.lib) Examples.id_new req Examples.w0)
    = Examples.library
  ∧ db (book_update_post (H := SimpleDates.lib) Examples.id_new req Examples.w0)
    = Examples.library.
Proof.
  intros req.
  destruct (X4_invalid_form_is_rendered_again (H := SimpleDates.lib) Examples.id_new
              req Examples.w0) as (Ha & Hb & Hc).
  destruct Ha as [[a ->] [a' ->]]; [discriminate|].
  destruct Hb as (b & m & -> & _); [discriminate|].
  destruct Hc as (b' & m' & -> & _); [discriminate|].
  split_and!; reflexivity.
Defined.

Section copy_form.
Context `{DateLib}.
Variable sch : BookInstance.schema.
Import express_validator.

(** A chain appends its failures to those already found. *)
Lemma check_body_appends f m calls acc :
  ∃ es, (check_body f m calls acc).2 = (acc.2 ++ es)%list.
Proof.
  destruct acc as [req es0]. unfold check_body.
  destruct (run_field _ _ _) as [v es]. by exists es.
Qed.

(** Chains on other fields keep one field and the failures found so far. *)
Lemma fold_keeps_field g (ms : list middleware) acc :
  Forall (λ m : middleware,
            ∀ a, body (m a).1 !! g = body a.1 !! g
                 ∧ ∃ es, (m a).2 = (a.2 ++ es)%list) ms →
  body (fold_left (λ a m, m a) ms acc).1 !! g = body acc.1 !! g
  ∧ ∃ es, (fold_left (λ a m, m a) ms acc).2 = (acc.2 ++ es)%list.
Proof.
  revert acc. induction ms as [|m ms IH]; intros acc Hms.
  - split; [done|]. exists []. by rewrite app_nil_r.
  - apply Forall_cons in Hms as [Hm Hms]. cbn [fold_left].
    destruct (IH (m acc) Hms) as [E1 [es1 E2]].
    destruct (Hm acc) as [E3 [es2 E4]].
    split; [by rewrite E1|]. exists (es2 ++ es1)%list.
    by rewrite E2, E4, app_assoc.
Qed.

Lemma check_body_keeps_field f m calls g :
  f ≠ g →
  ∀ a, body (check_body f m calls a).1 !! g = body a.1 !! g
       ∧ ∃ es, (check_body f m calls a).2 = (a.2 ++ es)%list.
Proof.
  intros Hne a. split; [by apply check_body_other | apply check_body_appends].
Qed.

(** The chains of a copy form on a blank book: a failure, and the empty
    string as the book. *)
Lemma bookinstance_chains_blank_book req :
  validator.trim (toString (body req !! "book")) = "" →
  ∃ r e es,
    run_middlewares bookinstance_chains req = (r, e :: es)
    ∧ body r !! "book" = Some (SStr "").
Proof.
  destruct req as [p b g]. cbn [body]. intros Ht.
  change (run_middlewares bookinstance_chains
            {| params_id := p; body := b; body_genre := g |})
    with (fold_left (λ a (m : middleware), m a)
            [check_body "imprint" (Some "Imprint must be specified")
               [Trim; IsLength 1 None; Escape];
             check_body "status" None [Escape];
             date_chain "due_back" (Some "Invalid date")]
            (text_chain "book" "Book must be specified"
               ({| params_id := p; body := b; body_genre := g |}, []))).
  rewrite text_chain_run. cbv zeta. rewrite Ht.
  match goal with
  | |- context [fold_left ?f ?ms ?acc] =>
      destruct (fold_keeps_field "book" ms acc) as [E1 [es E2]];
      [|exists (fold_left f ms acc).1, (err "book" "Book must be specified"), es;
        split; [apply injective_projections; [reflexivity | exact E2]
               | exact (eq_trans E1 (lookup_insert_eq _ _ _))]]
  end.
  unfold date_chain.
  repeat (apply Forall_cons_2; [by apply check_body_keeps_field|]).
  apply Forall_nil_2.
Qed.

Lemma BookInstance_new_book oid id bk im st du :
  BookInstance.book (doc (BookInstance.new sch oid id bk im st du)) =
  match castObjectId bk with
  | CastOk f => f
  | CastFailed => Undefined
  end.
Proof.
  unfold BookInstance.new. destruct (set_path "_id" _ _).
  destruct (castObjectId bk) as [[]|]; cbn;
    by destruct (set_path "imprint" _ _), (set_path "status" _ _),
         (set_path "due_back" _ _).
Qed.

(** The form of a copy without a book: the read of [book._id] throws. *)
Lemma bookinstance_form_undefined_book title c es w :
  BookInstance.book c = Undefined →
  asyncHandler (bookinstance_form title c es) w = respond (Next id_of_undefined) w.
Proof.
  intros Hb. unfold asyncHandler, bookinstance_form.
  unfold fmap, M_fmap, mbind, M_bind, find_all, mret, M_ret, get_db.
  by rewrite Hb.
Qed.
End copy_form.

(** X5. A copy form whose book field is blank (missing, empty or
    white space) fails validation, and neither the create nor the update
    handler renders the form again: the book of the document under
    construction is undefined, reading its [_id] throws, and the TypeError is
    what [next] receives; the store is left as it was. *)
Theorem X5_blank_book_breaks_the_copy_form `{DateLib} (sch : BookInstance.schema)
    (oid : ObjectId) (req : request) (w : world) :
  validator.trim (express_validator.toString (body req !! "book")) = "" →
  validationResult bookinstance_chains req ≠ []
  ∧ bookinstance_create_post sch oid req w = respond (Next id_of_undefined) w
  ∧ bookinstance_update_post sch oid req w = respond (Next id_of_undefined) w.
Proof.
  intros Ht.
  destruct (bookinstance_chains_blank_book req Ht) as (r & e & es & E & Hb).
  unfold validationResult, bookinstance_create_post, bookinstance_update_post.
  rewrite E. cbn [snd]. split_and!; [done| |];
    apply bookinstance_form_undefined_book;
    by rewrite BookInstance_new_book, Hb.
Qed.

Lemma X5_witness :
  let req := Examples.request_of Examples.id_copy1
    [("book", "  "); ("imprint", "Vintage"); ("status", "Loaned")] None in
  bookinstance_create_post (H := SimpleDates.lib) Examples.sch Examples.id_new req
    Examples.w0
  = respond (Next id_of_undefined) Examples.w0
  ∧ bookinstance_update_post (H := SimpleDates.lib) Examples.sch Examples.id_new req
      Examples.w0
    = respond (Next id_of_undefined) Examples.w0.
Proof.
  intros req.
  destruct (X5_blank_book_breaks_the_copy_form (H := SimpleDates.lib) Examples.sch
              Examples.id_new req Examples.w0) as (_ & Ha & Hb); [reflexivity|].
  by split.
Defined.

(** ** Which forms the chains accept *)

Section author_form.
Context `{DateLib}.
Import express_validator.

Lemma escape_of_alnum s :
  validator.all_alnum s = true → validator.escape s = s.
Proof.
  induction s as [|c s IH]; [done|]. cbn [validator.all_alnum validator.escape].
  intros [Hc Hs]%andb_true_iff. rewrite (IH Hs).
  destruct (escape_char_cases c) as [->|[Hn _]]; [done | congruence].
Qed.

Lemma name_accepted t :
  validator.isLength 1 (Some 100) t = true
  ∧ validator.isAlphanumeric (validator.escape t) = true
  ↔ valid_name t.
Proof.
  unfold valid_name, validator.isLength. split.
  - intros [[H1 H2]%andb_true_iff Ha].
    apply Nat.leb_le in H1, H2.
    destruct (isAlphanumeric_escape t Ha) as [E Hne].
    split_and!; [done | done |]. rewrite E in Ha.
    destruct t; [done | exact Ha].
  - intros (Hne & Hl & Ha). split.
    + apply andb_true_iff. split; apply Nat.leb_le; [|done].
      destruct t; [done | cbn; lia].
    + rewrite (escape_of_alnum t Ha). by destruct t.
Qed.

Lemma author_chains_errors req :
  validationResult author_chains req =
  (name_errors "first_name" "First name must be specified."
     "First name has non-alphanumeric characters."
     (validator.trim (toString (body req !! "first_name")))
   ++ name_errors "family_name" "Family name must be specified."
        "Family name has non-alphanumeric characters."
        (validator.trim (toString (body req !! "family_name")))
   ++ date_errors "date_of_birth" (body req !! "date_of_birth")
   ++ date_errors "date_of_death" (body req !! "date_of_death"))%list.
Proof.
  destruct req as [p b g]. unfold validationResult, run_middlewares, author_chains.
  cbn [fold_left body]. rewrite !name_chain_run. cbn [app]. cbv zeta.
  assert (∀ x, <["first_name":=x]> b !! "family_name" = b !! "family_name") as E.
  { intros x. by rewrite lookup_insert_ne. }
  rewrite !E.
  set (b1 := <["family_name":=_]> _).
  assert (b1 !! "date_of_birth" = b !! "date_of_birth") as E1.
  { unfold b1. by rewrite !lookup_insert_ne. }
  assert (b1 !! "date_of_death" = b !! "date_of_death") as E2.
  { unfold b1. by rewrite !lookup_insert_ne. }
  unfold name_errors, date_errors.
  rewrite date_chain_run, E1.
  destruct (falsy (b !! "date_of_birth")) eqn:F1; rewrite date_chain_run.
  - rewrite E2. destruct (falsy (b !! "date_of_death")); cbn [snd default];
      by rewrite <-?app_assoc, ?app_nil_r.
  - rewrite lookup_insert_ne, E2 by done.
    destruct (falsy (b !! "date_of_death")); cbn [snd default];
      by rewrite <-?app_assoc, ?app_nil_r.
Qed.

Lemma name_errors_nil f m1 m2 t : name_errors f m1 m2 t = [] ↔ valid_name t.
Proof.
  rewrite <-name_accepted. unfold name_errors. rewrite app_nil.
  destruct (validator.isLength _ _ _), (validator.isAlphanumeric _);
    split; intros [? ?]; by split.
Qed.

Lemma date_errors_nil f v : date_errors f v = [] ↔ valid_date v.
Proof.
  unfold date_errors, valid_date.
  destruct (falsy v), (isISO8601 _);
    (split; [intros ?; by (left + right + idtac) | by intros [?|?]]).
Qed.
End author_form.

(** X6. The author form passes its validation chains exactly when both
    names, once trimmed, are non-empty, at most 100 characters long and made
    of letters and digits only, and each date field is either falsy (missing
    or empty) or accepted by isISO8601. *)
Theorem X6_author_form_accepted_iff `{DateLib} (req : request) :
  validationResult author_chains req = [] ↔
  valid_name (validator.trim (express_validator.toString (body req !! "first_name")))
  ∧ valid_name (validator.trim (express_validator.toString (body req !! "family_name")))
  ∧ valid_date (body req !! "date_of_birth")
  ∧ valid_date (body req !! "date_of_death").
Proof.
  by rewrite author_chains_errors, !app_nil, !name_errors_nil, !date_errors_nil.
Qed.

Section forms_accepted.
Context `{DateLib}.
Import express_validator.

Lemma isLength_min t : validator.isLength 1 None t = true ↔ t ≠ "".
Proof.
  unfold validator.isLength. rewrite andb_true_r, Nat.leb_le.
  destruct t; cbn; [split; [lia | done] | split; [done | lia]].
Qed.

Lemma text_errors_nil f m v :
  (if validator.isLength 1 None (validator.trim (toString v)) then []
   else [err f m]) = [] ↔ filled v.
Proof.
  unfold filled. rewrite <-isLength_min.
  by destruct (validator.isLength _ _ _).
Qed.

Lemma escape_chain_run f p b g es :
  check_body f None [Escape] ({| params_id := p; body := b; body_genre := g |}, es) =
  ({| params_id := p; body := <[f := SStr (validator.escape (toString (b !! f)))]> b;
      body_genre := g |}, es).
Proof.
  unfold check_body. cbn. by rewrite app_nil_r.
Qed.

Lemma bookinstance_chains_run p b g :
  let book := validator.trim (toString (b !! "book")) in
  let imprint := validator.trim (toString (b !! "imprint")) in
  let due := b !! "due_back" in
  ∃ b',
    run_middlewares bookinstance_chains
      {| params_id := p; body := b; body_genre := g |}
    = ({| params_id := p; body := b'; body_genre := g |},
       ((if validator.isLength 1 None book then []
         else [err "book" "Book must be specified"])
        ++ (if validator.isLength 1 None imprint then []
            else [err "imprint" "Imprint must be specified"])
        ++ (if falsy due then []
            else if isISO8601 (toString due) then []
                 else [err "due_back" "Invalid date"]))%list)
    ∧ b' !! "book" = Some (SStr (validator.escape book))
    ∧ b' !! "imprint" = Some (SStr (validator.escape imprint))
    ∧ b' !! "status" = Some (SStr (validator.escape (toString (b !! "status"))))
    ∧ b' !! "due_back" = (if falsy due then due else Some (toDate (toString due))).
Proof.
  intros book imprint due. unfold run_middlewares, bookinstance_chains.
  cbn [fold_left].
  change (check_body "book" (Some "Book must be specified")
            [Trim; IsLength 1 None; Escape])
    with (text_chain "book" "Book must be specified").
  change (check_body "imprint" (Some "Imprint must be specified")
            [Trim; IsLength 1 None; Escape])
    with (text_chain "imprint" "Imprint must be specified").
  rewrite !text_chain_run. cbv zeta. fold book.
  set (b1 := <["book":=_]> b).
  assert (b1 !! "imprint" = b !! "imprint") as -> by (by unfold b1; simplify_map_eq).
  fold imprint. set (b2 := <["imprint":=_]> b1).
  rewrite escape_chain_run.
  assert (b2 !! "status" = b !! "status") as -> by (by unfold b2, b1; simplify_map_eq).
  set (b3 := <["status":=_]> b2).
  rewrite date_chain_run.
  assert (b3 !! "due_back" = due) as -> by (by unfold b3, b2, b1; simplify_map_eq).
  cbn [app default].
  destruct (falsy due) eqn:F; eexists; (split; [by rewrite ?app_nil_r, <-?app_assoc|]);
    unfold b3, b2, b1; split_and!; by simplify_map_eq.
Qed.

Lemma book_chains_run isbn_msg genre_msg p b g :
  let title := validator.trim (toString (b !! "title")) in
  let author := validator.trim (toString (b !! "author")) in
  let summary := validator.trim (toString (b !! "summary")) in
  let isbn := validator.trim (toString (b !! "isbn")) in
  ∃ b',
    run_middlewares (book_chains isbn_msg genre_msg)
      {| params_id := p; body := b; body_genre := g |}
    = ({| params_id := p; body := b';
          body_genre :=
            Some (Many ((λ x, SStr (validator.escape (toString (Some x))))
                          <$> genre_list g)) |},
       ((if validator.isLength 1 None title then []
         else [err "title" "Title must not be empty."])
        ++ (if validator.isLength 1 None author then []
            else [err "author" "Author must not be empty."])
        ++ (if validator.isLength 1 None summary then []
            else [err "summary" "Summary must not be empty."])
        ++ (if validator.isLength 1 None isbn then []
            else [err "isbn" isbn_msg]))%list)
    ∧ b' !! "title" = Some (SStr (validator.escape title))
    ∧ b' !! "author" = Some (SStr (validator.escape author))
    ∧ b' !! "summary" = Some (SStr (validator.escape summary))
    ∧ b' !! "isbn" = Some (SStr (validator.escape isbn)).
Proof.
  intros title author summary isbn. unfold run_middlewares, book_chains.
  cbn [fold_left]. unfold genre_to_array at 1. cbn [params_id body body_genre].
  rewrite !text_chain_run. cbv zeta. fold title.
  set (b1 := <["title":=_]> b).
  assert (b1 !! "author" = b !! "author") as -> by (by unfold b1; simplify_map_eq).
  fold author. set (b2 := <["author":=_]> b1).
  assert (b2 !! "summary" = b !! "summary") as ->
    by (by unfold b2, b1; simplify_map_eq).
  fold summary. set (b3 := <["summary":=_]> b2).
  assert (b3 !! "isbn" = b !! "isbn") as ->
    by (by unfold b3, b2, b1; simplify_map_eq).
  fold isbn. set (b4 := <["isbn":=_]> b3).
  unfold check_genre_each. cbn [body_genre params_id body app].
  exists b4. split.
  - destruct g as [[x|l]|]; cbn [genre_list]; rewrite run_elements_escape;
      by rewrite app_nil_r, <-?app_assoc.
  - unfold b4, b3, b2, b1; split_and!; by simplify_map_eq.
Qed.
End forms_accepted.

(** X7. A book form passes the chains of the create route exactly when
    title, author, summary and isbn are not blank; the genre is never a
    reason to refuse it, and the update route accepts the same forms. *)
Theorem X7_book_form_accepted_iff `{DateLib} (req : request) :
  (validationResult book_create_chains req = [] ↔
   filled (body req !! "title") ∧ filled (body req !! "author")
   ∧ filled (body req !! "summary") ∧ filled (body req !! "isbn"))
  ∧ (validationResult book_update_chains req = [] ↔
     validationResult book_create_chains req = []).
Proof.
  destruct req as [p b g]. unfold validationResult, book_create_chains, book_update_chains.
  destruct (book_chains_run "ISBN must not be empty." (Some "Genre must not be empty.")
              p b g) as (b1 & -> & _).
  destruct (book_chains_run "ISBN must not be empty" None p b g) as (b2 & -> & _).
  cbn [snd body]. rewrite !app_nil, !text_errors_nil. done.
Qed.

(** X8. A copy form passes its chains exactly when book and imprint are
    not blank and due_back is falsy or accepted by isISO8601; the chains put
    no condition on the status. *)
Theorem X8_copy_form_accepted_iff `{DateLib} (req : request) :
  validationResult bookinstance_chains req = [] ↔
  filled (body req !! "book") ∧ filled (body req !! "imprint")
  ∧ valid_date (body req !! "due_back").
Proof.
  destruct req as [p b g]. unfold validationResult.
  destruct (bookinstance_chains_run p b g) as (b' & -> & _).
  cbn [snd body]. rewrite !app_nil, !text_errors_nil.
  unfold valid_date.
  destruct (falsy (b !! "due_back")), (isISO8601 _);
    (split; [intros (? & ? & ?); split_and!; by (left + right + idtac)
            | by intros (? & ? & [?|?])]).
Qed.

(** ** What the schemas check, and when *)

Section store_facts.
Context {D : Type} {model : Model D}.

Lemma stored_id i st (d : D) : stored i st = Some d → id_of d = i.
Proof.
  unfold stored. intros [_ Hd]%find_some. by apply bool_decide_eq_true in Hd.
Qed.

Lemma replace_first_ids (f : D → D) p l :
  (∀ d, id_of (f d) = id_of d) → id_of <$> replace_first p f l = id_of <$> l.
Proof.
  intros Hf. induction l as [|d l IH]; [done|]. cbn [replace_first].
  destruct (p d); rewrite !fmap_cons; [by rewrite Hf | by rewrite IH].
Qed.

Lemma find_replace_first i (f : D → D) l :
  (∀ d, id_of (f d) = id_of d) →
  List.find (has_id i) (replace_first (has_id i) f l) = f <$> List.find (has_id i) l.
Proof.
  intros Hf. induction l as [|d l IH]; [done|]. cbn [replace_first List.find].
  destruct (has_id i d) eqn:E; cbn [List.find].
  - unfold has_id in *. by rewrite Hf, E.
  - by rewrite E.
Qed.

Lemma find_replace_other i j (f : D → D) l :
  (∀ d, id_of (f d) = id_of d) → j ≠ i →
  List.find (has_id j) (replace_first (has_id i) f l) = List.find (has_id j) l.
Proof.
  intros Hf Hne. induction l as [|d l IH]; [done|]. cbn [replace_first List.find].
  destruct (has_id i d) eqn:E; cbn [List.find].
  - apply bool_decide_eq_true in E.
    assert (has_id j (f d) = false) as ->
      by (apply bool_decide_eq_false; rewrite Hf; congruence).
    assert (has_id j d = false) as ->
      by (apply bool_decide_eq_false; congruence).
    done.
  - by rewrite IH.
Qed.

Lemma findByIdAndUpdate_stored s i (c : candidate D) w old :
  ObjectId.ofString s = Some i →
  stored i (db w) = Some old →
  findByIdAndUpdate s c w
  = (Normal (Some old),
     with_db (set_collection
                (replace_first (has_id i) (λ d, updated d (doc c))
                   (collection (db w))) (db w)) w).
Proof.
  intros Hi Hs. unfold findByIdAndUpdate, cast_id, stored in *. rewrite Hi.
  unfold mbind, M_bind, mret, M_ret, get_db. by rewrite Hs.
Qed.

Lemma save_run (c : candidate D) w :
  save c w =
  match invalid c with
  | [] =>
      if existsb (has_id (id_of (doc c))) (collection (db w))
      then (Throw Err.DuplicateKey, w)
      else (Normal (),
            with_db (set_collection (collection (db w) ++ [doc c])%list (db w)) w)
  | paths => (Throw (Err.ValidationError modelName paths), w)
  end.
Proof.
  unfold save. destruct (invalid c); [|done].
  unfold mbind, M_bind, get_db. by destruct (existsb _ _).
Qed.
End store_facts.

Section documents.
Context `{DateLib}.

Ltac split_paths :=
  repeat match goal with
         | |- context [set_path ?p ?c ?d] => destruct (set_path p c d)
         end.

Lemma Author_new_doc oid id fn gn dob dod :
  doc (Author.new oid id fn gn dob dod) =
  {| Author._id :=
       default oid (field_value (set_path "_id" (castObjectId (SStr <$> id)) (Val oid)).1);
     Author.first_name := (set_path "first_name" (castString fn) Undefined).1;
     Author.family_name := (set_path "family_name" (castString gn) Undefined).1;
     Author.date_of_birth := (set_path "date_of_birth" (castDate dob) Undefined).1;
     Author.date_of_death := (set_path "date_of_death" (castDate dod) Undefined).1 |}.
Proof. unfold Author.new. by split_paths. Qed.

Lemma BookInstance_new_doc sch oid id bk im st du :
  doc (BookInstance.new sch oid id bk im st du) =
  {| BookInstance._id :=
       default oid (field_value (set_path "_id" (castObjectId (SStr <$> id)) (Val oid)).1);
     BookInstance.book := (set_path "book" (castObjectId bk) Undefined).1;
     BookInstance.imprint := (set_path "imprint" (castString im) Undefined).1;
     BookInstance.status :=
       (set_path "status" (castString st) (Val (BookInstance.status_default sch))).1;
     BookInstance.due_back :=
       (set_path "due_back" (castDate du) (Val (BookInstance.due_back_default sch))).1 |}.
Proof. unfold BookInstance.new. by split_paths. Qed.

Lemma Book_new_doc oid id ti au su isb ge :
  doc (Book.new oid id ti au su isb ge) =
  {| Book._id :=
       default oid (field_value (set_path "_id" (castObjectId (SStr <$> id)) (Val oid)).1);
     Book.title := (set_path "title" (castString ti) Undefined).1;
     Book.author := (set_path "author" (castObjectId au) Undefined).1;
     Book.summary := (set_path "summary" (castString su) Undefined).1;
     Book.isbn := (set_path "isbn" (castString isb) Undefined).1;
     Book.genre := (set_path "genre" (Book.castGenre ge) (Val [])).1 |}.
Proof. unfold Book.new. by split_paths. Qed.
Lemma BookInstance_new_errors sch oid id bk im st du :
  cast_errors (BookInstance.new sch oid id bk im st du) =
  ((set_path "_id" (castObjectId (SStr <$> id)) (Val oid)).2
   ++ (set_path "book" (castObjectId bk) Undefined).2
   ++ (set_path "imprint" (castString im) Undefined).2
   ++ (set_path "status" (castString st) (Val (BookInstance.status_default sch))).2
   ++ (set_path "due_back" (castDate du)
         (Val (BookInstance.due_back_default sch))).2)%list.
Proof. unfold BookInstance.new. by split_paths. Qed.

Lemma Book_new_errors oid id ti au su isb ge :
  cast_errors (Book.new oid id ti au su isb ge) =
  ((set_path "_id" (castObjectId (SStr <$> id)) (Val oid)).2
   ++ (set_path "title" (castString ti) Undefined).2
   ++ (set_path "author" (castObjectId au) Undefined).2
   ++ (set_path "summary" (castString su) Undefined).2
   ++ (set_path "isbn" (castString isb) Undefined).2
   ++ (set_path "genre" (Book.castGenre ge) (Val [])).2)%list.
Proof. unfold Book.new. by split_paths. Qed.
End documents.

Section schema_checks.
Context `{DateLib}.
Variable sch : BookInstance.schema.
Import express_validator.

Lemma status_not_listed oid id bk im du s :
  s ∉ BookInstance.status_enum sch →
  "status" ∈ BookInstance.validate sch
               (BookInstance.new sch oid id bk im (Some (SStr s)) du).
Proof.
  intros Hs. unfold BookInstance.validate. rewrite BookInstance_new_doc.
  cbn [BookInstance.status castString set_path fst].
  rewrite !elem_of_app. do 3 right. unfold enum.
  rewrite bool_decide_eq_false_2 by done.
  destruct s; apply list_elem_of_here.
Qed.

Lemma author_not_an_id oid id ti su isb ge s :
  ObjectId.ofString s = None →
  "author" ∈ Book.validate (Book.new oid id ti (Some (SStr s)) su isb ge).
Proof.
  intros Hs. unfold Book.validate. rewrite Book_new_errors.
  cbn [castObjectId]. rewrite Hs. cbn [set_path snd].
  rewrite !elem_of_app. left. right. right. left. apply list_elem_of_here.
Qed.
End schema_checks.

(** X9. The status of a copy is checked by the schema alone, when the copy
    is saved: a form the chains accept whose (escaped) status is not one of
    the schema's values, a missing status included, is answered with a
    ValidationError of the model passed to [next], and nothing is stored. *)
Theorem X9_create_rejects_unlisted_status `{DateLib} (sch : BookInstance.schema)
    (oid : ObjectId) (req : request) (w : world) :
  validationResult bookinstance_chains req = [] →
  validator.escape (express_validator.toString (body req !! "status"))
    ∉ BookInstance.status_enum sch →
  ∃ paths,
    "status" ∈ paths
    ∧ bookinstance_create_post sch oid req w
      = respond (Next (Err.ValidationError "BookInstance" paths)) w.
Proof.
  destruct req as [p b g]. unfold validationResult. cbn [body]. intros Hv Hs.
  unfold bookinstance_create_post.
  destruct (bookinstance_chains_run p b g) as (b' & E & _ & _ & Hst & _).
  rewrite E in Hv |- *. cbn [snd] in Hv. rewrite Hv. cbn [body]. rewrite Hst.
  unfold asyncHandler, mbind, M_bind. rewrite save_run.
  match goal with
  | |- context [invalid ?c] =>
      pose proof (status_not_listed sch oid None (b' !! "book") (b' !! "imprint")
                    (b' !! "due_back") _ Hs) as Hin;
      change (invalid c) with (BookInstance.validate sch c);
      destruct (BookInstance.validate sch c) as [|e l] eqn:Ec
  end.
  - by apply elem_of_nil in Hin.
  - by exists (e :: l).
Qed.

Lemma X9_witness :
  let req := Examples.request_of ""
    [("book", Examples.id_runaway); ("imprint", "Vintage")] None in
  let w' := bookinstance_create_post (H := SimpleDates.lib) Examples.sch
              Examples.id_new req Examples.w0 in
  db w' = Examples.library
  ∧ ∃ paths, "status" ∈ paths
             ∧ sent w' = [Next (Err.ValidationError "BookInstance" paths)].
Proof.
  intros req w'. subst w'.
  destruct (X9_create_rejects_unlisted_status (H := SimpleDates.lib) Examples.sch
              Examples.id_new req Examples.w0) as (paths & Hin & ->).
  - reflexivity.
  - apply (bool_decide_unpack _). vm_compute. exact I.
  - split; [reflexivity | by exists paths].
Defined.

(** X10. The update of a stored copy runs no schema validator: whatever the
    (escaped) status of an accepted form is, it is the status of the stored
    copy afterwards, and the handler redirects to the copy. *)
Theorem X10_update_skips_schema_validators `{DateLib} (sch : BookInstance.schema)
    (oid : ObjectId) (req : request) (w : world) (i : ObjectId)
    (old : BookInstance.t) :
  validationResult bookinstance_chains req = [] →
  ObjectId.ofString (params_id req) = Some i →
  stored (model := BookInstanceModel sch) i (db w) = Some old →
  let w' := bookinstance_update_post sch oid req w in
  ∃ new,
    sent w' = (sent w ++ [Redirect ("/catalog/bookinstance/" +:+ i)])%list
    ∧ stored (model := BookInstanceModel sch) i (db w') = Some new
    ∧ BookInstance.status new
      = Val (validator.escape (express_validator.toString (body req !! "status")))
    ∧ BookInstance.imprint new
      = Val (validator.escape
               (validator.trim (express_validator.toString (body req !! "imprint")))).
Proof.
  destruct req as [p b g]. unfold validationResult. cbn [body params_id].
  intros Hv Hi Hs. unfold bookinstance_update_post.
  destruct (bookinstance_chains_run p b g) as (b' & E & _ & Him & Hst & _).
  rewrite E in Hv |- *. cbn [snd] in Hv. rewrite Hv. cbn [body params_id].
  unfold asyncHandler, mbind, M_bind.
  rewrite (findByIdAndUpdate_stored (model := BookInstanceModel sch) p i _ w old Hi Hs).
  pose proof (stored_id (model := BookInstanceModel sch) _ _ _ Hs) as Hid.
  cbn in Hid. unfold redirect, send. cbn [db sent with_db].
  eexists. split_and!.
  - unfold BookInstance.url. by rewrite Hid.
  - unfold stored. cbn [collection set_collection BookInstanceModel bookinstances].
    rewrite find_replace_first by done. unfold stored in Hs. cbn in Hs.
    rewrite Hs. reflexivity.
  - cbn [updated BookInstanceModel BookInstance.update BookInstance.status].
    rewrite BookInstance_new_doc. cbn [BookInstance.status]. rewrite Hst.
    reflexivity.
  - cbn [updated BookInstanceModel BookInstance.update BookInstance.imprint].
    rewrite BookInstance_new_doc. cbn [BookInstance.imprint]. rewrite Him.
    reflexivity.
Qed.

Lemma X10_witness :
  let req := Examples.request_of Examples.id_copy1
    [("book", Examples.id_runaway); ("imprint", "Vintage"); ("status", "Lost")]
    None in
  let w' := bookinstance_update_post (H := SimpleDates.lib) Examples.sch
              Examples.id_new req Examples.w0 in
  ("Lost" ∉ BookInstance.status_enum Examples.sch)
  ∧ ∃ new, stored (model := BookInstanceModel Examples.sch) Examples.id_copy1 (db w')
           = Some new
           ∧ BookInstance.status new = Val "Lost".
Proof.
  intros req w'. subst w'. split.
  - apply (bool_decide_unpack _). vm_compute. exact I.
  - destruct (X10_update_skips_schema_validators (H := SimpleDates.lib) Examples.sch
                Examples.id_new req Examples.w0 Examples.id_copy1 Examples.copy1)
      as (new & _ & Hs & Hst & _); [reflexivity | reflexivity | reflexivity |].
    exists new. split; [exact Hs | exact Hst].
Defined.

(** X11. The update of a stored author with an accepted form overwrites it
    in place: the handler redirects to the author, the stored names are the
    trimmed names of the form, a date field (of birth or of death) missing
    from the form keeps the stored date while an empty one clears it, the
    identifiers of the collection stay as they are and in order, no other
    author changes, and the other collections are untouched. *)
Theorem X11_author_update_overwrites_in_place `{DateLib} (oid : ObjectId)
    (req : request) (w : world) (i : ObjectId) (old : Author.t) :
  validationResult author_chains req = [] →
  ObjectId.ofString (params_id req) = Some i →
  stored (D := Author.t) i (db w) = Some old →
  let w' := author_update_post oid req w in
  ∃ new,
    sent w' = (sent w ++ [Redirect ("/catalog/author/" +:+ i)])%list
    ∧ stored (D := Author.t) i (db w') = Some new
    ∧ Author.first_name new
      = Val (validator.trim (express_validator.toString (body req !! "first_name")))
    ∧ Author.family_name new
      = Val (validator.trim (express_validator.toString (body req !! "family_name")))
    ∧ (body req !! "date_of_birth" = None →
       Author.date_of_birth new = Author.date_of_birth old)
    ∧ (body req !! "date_of_birth" = Some (SStr "") →
       Author.date_of_birth new = Null)
    ∧ (body req !! "date_of_death" = None →
       Author.date_of_death new = Author.date_of_death old)
    ∧ (body req !! "date_of_death" = Some (SStr "") →
       Author.date_of_death new = Null)
    ∧ Author._id <$> authors (db w') = Author._id <$> authors (db w)
    ∧ (∀ j, j ≠ i → stored (D := Author.t) j (db w') = stored (D := Author.t) j (db w))
    ∧ books (db w') = books (db w)
    ∧ bookinstances (db w') = bookinstances (db w)
    ∧ genres (db w') = genres (db w).
Proof.
  intros Hv Hi Hs.
  pose proof Hv as Hn. rewrite author_chains_errors, !app_nil, !name_errors_nil in Hn.
  destruct Hn as ((_ & _ & Ha1) & (_ & _ & Ha2) & _).
  pose proof (author_chains_dates req) as [Hd He].
  revert Hv Hi Hs Ha1 Ha2 Hd He. unfold validationResult, sanitized.
  destruct req as [p b g]. cbn [body params_id]. intros Hv Hi Hs Ha1 Ha2 Hd He.
  unfold author_update_post.
  destruct (author_chains_run p b g) as (b' & es & E & H1 & H2 & _).
  rewrite E in Hv, Hd, He |- *. cbn [fst snd body] in Hv, Hd, He. rewrite Hv.
  cbn [body params_id].
  rewrite (escape_of_alnum _ Ha1) in H1. rewrite (escape_of_alnum _ Ha2) in H2.
  rewrite H1, H2.
  unfold asyncHandler, mbind, M_bind.
  rewrite (findByIdAndUpdate_stored (model := AuthorModel) p i _ w old Hi Hs).
  pose proof (stored_id (model := AuthorModel) _ _ _ Hs) as Hid. cbn in Hid.
  unfold redirect, send. cbn [db sent with_db].
  eexists. split_and!.
  - unfold Author.url. by rewrite Hid.
  - unfold stored. cbn [collection set_collection AuthorModel authors].
    rewrite find_replace_first by done. unfold stored in Hs. cbn in Hs.
    rewrite Hs. reflexivity.
  - cbn [updated AuthorModel Author.update Author.first_name].
    by rewrite Author_new_doc.
  - cbn [updated AuthorModel Author.update Author.family_name].
    by rewrite Author_new_doc.
  - intros Hb. cbn [updated AuthorModel Author.update Author.date_of_birth].
    rewrite Author_new_doc. cbn [Author.date_of_birth].
    rewrite Hd by (by rewrite Hb). by rewrite Hb.
  - intros Hb. cbn [updated AuthorModel Author.update Author.date_of_birth].
    rewrite Author_new_doc. cbn [Author.date_of_birth].
    rewrite Hd by (by rewrite Hb). by rewrite Hb.
  - intros Hb. cbn [updated AuthorModel Author.update Author.date_of_death].
    rewrite Author_new_doc. cbn [Author.date_of_death].
    rewrite He by (by rewrite Hb). by rewrite Hb.
  - intros Hb. cbn [updated AuthorModel Author.update Author.date_of_death].
    rewrite Author_new_doc. cbn [Author.date_of_death].
    rewrite He by (by rewrite Hb). by rewrite Hb.
  - cbn [set_collection AuthorModel authors collection].
    by apply (replace_first_ids (model := AuthorModel)).
  - intros j Hj. unfold stored.
    cbn [set_collection AuthorModel authors collection].
    by apply (find_replace_other (model := AuthorModel)).
  - done.
  - done.
  - done.
Qed.

Lemma X11_witness :
  let req := Examples.request_of Examples.id_munro
    [("first_name", " Alice "); ("family_name", "Laidlaw"); ("date_of_birth", "")]
    None in
  let req' := Examples.request_of Examples.id_munro
    [("first_name", "Alice"); ("family_name", "Munro"); ("date_of_death", "")]
    None in
  let w'' := author_update_post (H := SimpleDates.lib) Examples.id_new req'
               Examples.w0 in
  let w' := author_update_post (H := SimpleDates.lib) Examples.id_new req
              Examples.w0 in
  ∃ new, stored (D := Author.t) Examples.id_munro (db w') = Some new
         ∧ Author.first_name new = Val "Alice"
         ∧ Author.family_name new = Val "Laidlaw"
         ∧ Author.date_of_birth new = Null
         ∧ Author.date_of_death new = Author.date_of_death Examples.munro
         ∧ Author._id <$> authors (db w') = Author._id <$> authors Examples.library
         ∧ ∃ new', stored (D := Author.t) Examples.id_munro (db w'') = Some new'
                   ∧ Author.date_of_birth new' = Val 0%Z
                   ∧ Author.date_of_death new' = Null.
Proof.
  intros req req' w'' w'. subst w' w''.
  destruct (X11_author_update_overwrites_in_place (H := SimpleDates.lib)
              Examples.id_new req Examples.w0 Examples.id_munro Examples.munro)
    as (new & _ & Hs & H1 & H2 & _ & Hd & Hk & _ & Hids & _);
    [reflexivity | reflexivity | reflexivity |].
  destruct (X11_author_update_overwrites_in_place (H := SimpleDates.lib)
              Examples.id_new req' Examples.w0 Examples.id_munro Examples.munro)
    as (new' & _ & Hs' & _ & _ & Hb' & _ & _ & Hd' & _);
    [reflexivity | reflexivity | reflexivity |].
  exists new.
  split_and!; [exact Hs | exact H1 | exact H2 | by apply Hd | by apply Hk
              | exact Hids |].
  exists new'. split_and!; [exact Hs' | by apply Hb' | by apply Hd'].
Defined.

(** X12. The chains of the book form only ask for an author that is not
    blank; that it is an identifier is checked by the schema: a form the
    chains accept, with a title that is not stored and an author that is no
    ObjectId string, is answered with a ValidationError of the model passed
    to [next], and nothing is stored. *)
Theorem X12_book_author_must_be_an_id `{DateLib} (oid : ObjectId) (req : request)
    (w : world) :
  let field f := validator.escape
                   (validator.trim (express_validator.toString (body req !! f))) in
  validationResult book_create_chains req = [] →
  List.find (title_is (Some (SStr (field "title")))) (books (db w)) = None →
  ObjectId.ofString (field "author") = None →
  ∃ paths,
    "author" ∈ paths
    ∧ book_create_post oid req w = respond (Next (Err.ValidationError "Book" paths)) w.
Proof.
  destruct req as [p b g]. unfold validationResult. cbn [body]. intros Hv Ht Ha.
  unfold book_create_post, book_create_chains in *.
  destruct (book_chains_run "ISBN must not be empty." (Some "Genre must not be empty.")
              p b g) as (b' & E & H1 & H2 & _).
  rewrite E in Hv |- *. cbn [snd] in Hv. rewrite Hv. cbn [body body_genre].
  rewrite H1, H2. unfold asyncHandler, mbind, M_bind, get_db. rewrite Ht.
  rewrite save_run.
  match goal with
  | |- context [invalid ?c] =>
      pose proof (author_not_an_id oid None (Some (SStr (validator.escape
                    (validator.trim (express_validator.toString (b !! "title"))))))
                    (b' !! "summary") (b' !! "isbn")
                    (Some (Many ((λ x, SStr (validator.escape
                                    (express_validator.toString (Some x))))
                                   <$> genre_list g))) _ Ha) as Hin;
      change (invalid c) with (Book.validate c);
      destruct (Book.validate c) as [|e l] eqn:Ec
  end.
  - by apply elem_of_nil in Hin.
  - by exists (e :: l).
Qed.

Lemma X12_witness :
  let req := Examples.request_of ""
    [("title", "Dubliners"); ("author", "James Joyce"); ("summary", "Stories");
     ("isbn", "0140186476")] None in
  let w' := book_create_post (H := SimpleDates.lib) Examples.id_new req Examples.w0 in
  db w' = Examples.library
  ∧ ∃ paths, "author" ∈ paths ∧ sent w' = [Next (Err.ValidationError "Book" paths)].
Proof.
  intros req w'. subst w'.
  destruct (X12_book_author_must_be_an_id (H := SimpleDates.lib) Examples.id_new req
              Examples.w0) as (paths & Hin & ->);
    [reflexivity | reflexivity | reflexivity |].
  split; [reflexivity | by exists paths].
Defined.

(** ** Reading what was written *)

Section detail_stored.
Variable sch : BookInstance.schema.

Lemma author_detail_stored req w i a :
  ObjectId.ofString (params_id req) = Some i →
  stored (D := Author.t) i (db w) = Some a →
  author_detail req w = respond (author_detail_page a (books_of i (db w))) w.
Proof.
  unfold stored, author_detail, asyncHandler, findById, cast_id, find_refs.
  intros -> Hs. unfold fmap, M_fmap, mbind, M_bind, mret, M_ret, get_db.
  cbn [db collection AuthorModel] in *. by rewrite Hs.
Qed.

Lemma book_detail_stored req w i b :
  ObjectId.ofString (params_id req) = Some i →
  stored (D := Book.t) i (db w) = Some b →
  book_detail sch req w
  = respond (book_detail_page (db w) b
               (sort BookInstance.status (instances_of i (db w)))) w.
Proof.
  unfold stored, book_detail, asyncHandler, findById, cast_id, find_refs.
  intros -> Hs. unfold fmap, M_fmap, mbind, M_bind, mret, M_ret, get_db.
  cbn [db collection BookModel] in *. by rewrite Hs.
Qed.

Lemma bookinstance_detail_stored req w i c :
  ObjectId.ofString (params_id req) = Some i →
  stored (model := BookInstanceModel sch) i (db w) = Some c →
  bookinstance_detail sch req w = respond (bookinstance_detail_page (db w) c) w.
Proof.
  unfold stored, bookinstance_detail, asyncHandler, findById, cast_id.
  intros -> Hs. unfold fmap, M_fmap, mbind, M_bind, mret, M_ret, get_db.
  cbn [db collection BookInstanceModel] in *. by rewrite Hs.
Qed.
End detail_stored.

(** X13. The detail page of a stored record (identifier well-formed): the
    author with the books that reference the author, reduced to title and
    summary; the book with author and genres populated and with exactly its
    copies, sorted by status; the copy with its book populated. *)
Theorem X13_detail_pages_of_stored_records (sch : BookInstance.schema)
    (req : request) (w : world) (i : ObjectId) :
  ObjectId.ofString (params_id req) = Some i →
  (∀ a, stored (D := Author.t) i (db w) = Some a →
        author_detail req w = respond (author_detail_page a (books_of i (db w))) w)
  ∧ (∀ b, stored (D := Book.t) i (db w) = Some b →
          ∃ copies,
            book_detail sch req w = respond (book_detail_page (db w) b copies) w
            ∧ StronglySorted (by_key BookInstance.status) copies
            ∧ copies ≡ₚ instances_of i (db w))
  ∧ (∀ c, stored (model := BookInstanceModel sch) i (db w) = Some c →
          bookinstance_detail sch req w
          = respond (bookinstance_detail_page (db w) c) w).
Proof.
  intros Hi. split_and!.
  - intros a Ha. exact (author_detail_stored req w i a Hi Ha).
  - intros b Hb. eexists. split; [exact (book_detail_stored sch req w i b Hi Hb) | apply sort_sorted].
  - intros c Hc. exact (bookinstance_detail_stored sch req w i c Hi Hc).
Qed.

Lemma X13_witness :
  let req := Examples.request_of Examples.id_runaway [] None in
  ∃ copies,
    book_detail Examples.sch req Examples.w0
    = respond (book_detail_page Examples.library Examples.runaway copies) Examples.w0
    ∧ copies ≡ₚ [Examples.copy1].
Proof.
  intros req.
  destruct (X13_detail_pages_of_stored_records Examples.sch req Examples.w0
              Examples.id_runaway) as (_ & Hb & _); [reflexivity|].
  destruct (Hb Examples.runaway) as (copies & E & _ & Hp); [reflexivity|].
  by exists copies.
Defined.

Lemma existsb_find_none {A} (p : A → bool) l :
  existsb p l = false → List.find p l = None.
Proof.
  induction l as [|a l IH]; cbn; [done|]. destruct (p a); [done | exact IH].
Qed.

(** X14. Create, then read: after an accepted author form with a new name
    and an unused identifier, the handler has redirected to the new author's
    URL, and the detail page of that identifier shows an author with the
    trimmed names of the form and the books that reference the identifier. *)
Theorem X14_created_author_has_a_detail_page `{DateLib} (oid : ObjectId)
    (req req' : request) (w : world) :
  let first := validator.trim (express_validator.toString (body req !! "first_name")) in
  let family :=
    validator.trim (express_validator.toString (body req !! "family_name")) in
  validationResult author_chains req = [] →
  List.find (name_is (Some (SStr first)) (Some (SStr family))) (authors (db w)) = None →
  existsb (has_id oid) (authors (db w)) = false →
  ObjectId.ofString (params_id req') = Some oid →
  let w1 := author_create_post oid req w in
  ∃ a,
    sent w1 = (sent w ++ [Redirect ("/catalog/author/" +:+ oid)])%list
    ∧ Author._id a = oid
    ∧ Author.first_name a = Val first
    ∧ Author.family_name a = Val family
    ∧ author_detail req' w1 = respond (author_detail_page a (books_of oid (db w))) w1.
Proof.
  intros first family Hv Hnew Hfresh Hi w1.
  pose proof (author_create_post_valid oid req w Hv) as E. cbv zeta in E.
  pose proof Hv as Hn. rewrite author_chains_errors, !app_nil, !name_errors_nil in Hn.
  destruct Hn as ((_ & _ & Ha1) & (_ & _ & Ha2) & _).
  assert (body (sanitized author_chains req) !! "first_name" = Some (SStr first)
          ∧ body (sanitized author_chains req) !! "family_name" = Some (SStr family))
    as [E1 E2].
  { unfold first, family, sanitized. destruct req as [p b g].
    destruct (author_chains_run p b g) as (b' & es & -> & H1 & H2 & _).
    cbn [fst body]. cbn [body] in Ha1, Ha2.
    by rewrite H1, H2, (escape_of_alnum _ Ha1), (escape_of_alnum _ Ha2). }
  rewrite E1, E2, Hnew, Hfresh in E.
  set (c := Author.new oid None _ _ _ _) in E.
  assert (Author._id (doc c) = oid) as Hid.
  { unfold c. rewrite Author_new_doc. reflexivity. }
  exists (doc c). subst w1. rewrite E. cbn [sent]. split_and!.
  - unfold Author.url. by rewrite Hid.
  - done.
  - unfold c. rewrite Author_new_doc. reflexivity.
  - unfold c. rewrite Author_new_doc. reflexivity.
  - erewrite author_detail_stored; [|exact Hi|].
    + reflexivity.
    + unfold stored. cbn [db collection set_collection AuthorModel authors].
      apply find_app_new.
      * by apply existsb_find_none.
      * unfold has_id. apply bool_decide_eq_true. exact Hid.
Qed.

Lemma X14_witness :
  let req := Examples.request_of ""
    [("first_name", " Lydia "); ("family_name", "Davis")] None in
  let req' := Examples.request_of Examples.id_new [] None in
  let w1 := author_create_post (H := SimpleDates.lib) Examples.id_new req
              Examples.w0 in
  ∃ a, Author.first_name a = Val "Lydia"
       ∧ Author.family_name a = Val "Davis"
       ∧ author_detail req' w1 = respond (author_detail_page a []) w1.
Proof.
  intros req req' w1. subst w1.
  destruct (X14_created_author_has_a_detail_page (H := SimpleDates.lib)
              Examples.id_new req req' Examples.w0)
    as (a & _ & _ & H1 & H2 & Hd); [reflexivity | reflexivity | reflexivity
                                   | reflexivity |].
  exists a. split_and!; [exact H1 | exact H2 | exact Hd].
Defined.

Lemma signals_not_found_404 m w :
  signals_not_found w (respond (Next (Err.with_status m 404)) w).
Proof. by eexists. Qed.

(** X15. Delete, then read: once a delete POST has removed the record its
    form names (an author, a book, a copy; identifiers unique in the
    collection), the detail page of that identifier signals not-found. *)
Theorem X15_deleted_record_is_not_found `{DateLib} (sch : BookInstance.schema)
    (req req' : request) (w : world) (p i : ObjectId) :
  ObjectId.ofString (params_id req') = Some i →
  (ObjectId.ofString (params_id req) = Some p →
   books_of p (db w) = [] →
   ObjectId.ofString (submitted_id "authorid" req) = Some i →
   unique_ids (D := Author.t) (db w) →
   let w1 := author_delete_post req w in
   signals_not_found w1 (author_detail req' w1))
  ∧ (ObjectId.ofString (params_id req) = Some p →
     instances_of p (db w) = [] →
     ObjectId.ofString (submitted_id "bookid" req) = Some i →
     unique_ids (D := Book.t) (db w) →
     let w1 := book_delete_post sch req w in
     signals_not_found w1 (book_detail sch req' w1))
  ∧ (ObjectId.ofString (submitted_id "bookinstanceid" req) = Some i →
     unique_ids (model := BookInstanceModel sch) (db w) →
     let w1 := bookinstance_delete_post sch req w in
     signals_not_found w1 (bookinstance_detail sch req' w1)).
Proof.
  intros Hi. split_and!.
  - intros Hp Hb Hs Hu w1. subst w1.
    rewrite (author_delete_other req w p i Hp Hb Hs).
    erewrite author_detail_missing; [apply signals_not_found_404 | exact Hi |].
    by apply (without_gone (model := AuthorModel)).
  - intros Hp Hb Hs Hu w1. subst w1.
    rewrite (book_delete_other sch req w p i Hp Hb Hs).
    erewrite book_detail_missing; [apply signals_not_found_404 | exact Hi |].
    by apply (without_gone (model := BookModel)).
  - intros Hs Hu w1. subst w1. rewrite bookinstance_delete_post_run. cbv zeta.
    rewrite Hs.
    destruct (validator.isLength 1 None (submitted_id "bookinstanceid" req)) eqn:El.
    + erewrite bookinstance_detail_missing; [apply signals_not_found_404 | exact Hi |].
      by apply (without_gone (model := BookInstanceModel sch)).
    + apply blank_id in El. congruence.
Qed.

Lemma X15_witness :
  let req := Examples.request_of Examples.id_paley
    [("authorid", Examples.id_paley)] None in
  let creq := Examples.request_of "" [("bookinstanceid", Examples.id_copy1)] None in
  let read := Examples.request_of Examples.id_copy1 [] None in
  let w1 := author_delete_post (H := SimpleDates.lib) req Examples.w0 in
  let w2 := bookinstance_delete_post (H := SimpleDates.lib) Examples.sch creq
              Examples.w0 in
  authors (db w1) = [Examples.munro; Examples.carver]
  ∧ signals_not_found w1 (author_detail req w1)
  ∧ signals_not_found w2 (bookinstance_detail Examples.sch read w2).
Proof.
  intros req creq read w1 w2. split; [reflexivity|].
  destruct (X15_deleted_record_is_not_found (H := SimpleDates.lib) Examples.sch req req
              Examples.w0 Examples.id_paley Examples.id_paley) as (Ha & _ & _);
    [reflexivity|].
  destruct (X15_deleted_record_is_not_found (H := SimpleDates.lib) Examples.sch creq
              read Examples.w0 Examples.id_paley Examples.id_copy1) as (_ & _ & Hc);
    [reflexivity|].
  split.
  - apply Ha; [reflexivity | reflexivity | reflexivity |].
    apply (bool_decide_unpack _). vm_compute. exact I.
  - apply Hc; [reflexivity|].
    apply (bool_decide_unpack _). vm_compute. exact I.
Defined.

(** ** What the handlers keep *)

Section keeps_facts.
Context `{DateLib} (P : store → Prop).

Lemma keeps_ret {A} (a : A) : keeps P (mret a).
Proof. by intros w. Qed.

Lemma keeps_throw {A} e : keeps P (throw (A := A) e).
Proof. by intros w. Qed.

Lemma keeps_get_db : keeps P get_db.
Proof. by intros w. Qed.

Lemma keeps_send a : keeps P (send a).
Proof. by intros w. Qed.

Lemma keeps_bind {A B} (m : M A) (k : A → M B) :
  keeps P m → (∀ a, keeps P (k a)) → keeps P (m ≫= k).
Proof.
  intros Hm Hk w HP. unfold mbind, M_bind. specialize (Hm w HP).
  destruct (m w) as [[a|e] w']; cbn [snd] in *; [by apply Hk | done].
Qed.

Lemma keeps_fmap {A B} (f : A → B) (m : M A) : keeps P m → keeps P (f <$> m).
Proof.
  intros Hm w HP. unfold fmap, M_fmap. specialize (Hm w HP).
  by destruct (m w) as [[a|e] w'].
Qed.

Lemma keeps_asyncHandler (m : M unit) w :
  keeps P m → P (db w) → P (db (asyncHandler m w)).
Proof.
  intros Hm HP. unfold asyncHandler. specialize (Hm w HP).
  by destruct (m w) as [[a|e] w'].
Qed.

Section reads.
Context {D : Type} {model : Model D}.

Lemma keeps_cast_id s : keeps P (cast_id s).
Proof. unfold cast_id. destruct (ObjectId.ofString s); by intros w. Qed.

Lemma keeps_findById s : keeps P (findById (D := D) s).
Proof.
  unfold findById. apply keeps_bind; [apply keeps_cast_id|]. intros i.
  apply keeps_bind; [apply keeps_get_db|]. intros st. apply keeps_ret.
Qed.

Lemma keeps_find_refs path (ref : D → field ObjectId) s :
  keeps P (find_refs path ref s).
Proof.
  unfold find_refs. destruct (ObjectId.ofString s); [|apply keeps_throw].
  apply keeps_bind; [apply keeps_get_db|]. intros st. apply keeps_ret.
Qed.

Lemma keeps_find_all : keeps P (find_all (D := D)).
Proof.
  unfold find_all. apply keeps_bind; [apply keeps_get_db|]. intros st.
  apply keeps_ret.
Qed.
End reads.

Section writes.
Context {D : Type} {model : Model D}.
Hypothesis Hset : ∀ l st, P st → NoDup (id_of <$> l) → P (set_collection l st).
Hypothesis Hget : ∀ st, P st → NoDup (id_of <$> collection st).
Hypothesis Hupd : ∀ d n : D, id_of (updated d n) = id_of d.

Lemma existsb_has_id i (l : list D) :
  existsb (has_id i) l = false → i ∉ id_of <$> l.
Proof.
  induction l as [|d l IH]; cbn [existsb]; [intros _; apply not_elem_of_nil|].
  intros [Hd Hl]%orb_false_iff. rewrite fmap_cons. apply not_elem_of_cons.
  split; [|by apply IH]. apply bool_decide_eq_false in Hd. congruence.
Qed.

Lemma remove_first_sublist (p : D → bool) l : (remove_first p l).2 `sublist_of` l.
Proof.
  induction l as [|d l IH]; [done|]. cbn [remove_first].
  destruct (p d); [by apply sublist_cons|].
  destruct (remove_first p l) as [r l']. by apply sublist_skip.
Qed.

Lemma keeps_save (c : candidate D) : keeps P (save c).
Proof.
  intros w HP. rewrite save_run. destruct (invalid c); [|done].
  destruct (existsb _ _) eqn:E; [done|]. cbn [snd db with_db].
  apply Hset; [done|]. rewrite fmap_app. apply NoDup_app. split_and!.
  - by apply Hget.
  - intros x Hx [->|[]%elem_of_nil]%elem_of_cons.
    by apply existsb_has_id in E.
  - apply NoDup_singleton.
Qed.

Lemma keeps_findByIdAndUpdate s (c : candidate D) : keeps P (findByIdAndUpdate s c).
Proof.
  intros w HP. unfold findByIdAndUpdate, cast_id.
  destruct (ObjectId.ofString s) as [i|]; [|done].
  unfold mbind, M_bind, mret, M_ret, get_db, put_db.
  destruct (List.find _ _); [|done]. cbn [snd db].
  apply Hset; [done|]. rewrite replace_first_ids by (intros; apply Hupd).
  by apply Hget.
Qed.

Lemma keeps_findByIdAndRemove v : keeps P (findByIdAndRemove (D := D) v).
Proof.
  assert (∀ p w, P (db w) →
            P (db ((st ← get_db;
                    let '(r, l) := remove_first p (collection st) in
                    _ ← put_db (set_collection l st); mret r) w).2)) as Hrm.
  { intros p w HP. unfold mbind, M_bind, mret, M_ret, get_db, put_db.
    pose proof (remove_first_sublist p (collection (db w))) as Hsub.
    destruct (remove_first p (collection (db w))) as [r l]. cbn [snd db] in *.
    apply Hset; [done|].
    eapply sublist_NoDup; [by apply Hget | by apply fmap_sublist]. }
  intros w HP. unfold findByIdAndRemove.
  destruct v as [x|]; [|by apply Hrm].
  destruct (castObjectId (Some x)) as [[| |i]|]; try by apply Hrm. done.
Qed.
End writes.
End keeps_facts.

Ltac keeps_side :=
  first [ intros ? ? (? & ? & ?) ?; by split_and!
        | by intros ? (? & ? & ?)
        | done ].

Ltac keeps_write :=
  first [apply keeps_save | apply keeps_findByIdAndUpdate
        | apply keeps_findByIdAndRemove];
  keeps_side.

Ltac keeps_tac :=
  repeat first
    [ progress cbv zeta
    | apply keeps_ret | apply keeps_throw | apply keeps_send | apply keeps_get_db
    | apply keeps_findById | apply keeps_find_refs | apply keeps_find_all
    | apply keeps_fmap
    | keeps_write
    | apply keeps_bind; [|intros ?]
    | match goal with
      | |- keeps _ (match ?x with _ => _ end) => destruct x
      end ].

(** X16. Every POST handler of the three controllers keeps the identifiers
    of the three collections unique, whatever the request and whichever way
    the handler ends (redirect, form rendered again, or error passed on). *)
Theorem X16_post_handlers_keep_identifiers_unique `{DateLib}
    (sch : BookInstance.schema) (oid : ObjectId) (req : request) (w : world) :
  store_ok sch (db w) →
  store_ok sch (db (author_create_post oid req w))
  ∧ store_ok sch (db (author_update_post oid req w))
  ∧ store_ok sch (db (author_delete_post req w))
  ∧ store_ok sch (db (book_create_post oid req w))
  ∧ store_ok sch (db (book_update_post oid req w))
  ∧ store_ok sch (db (book_delete_post sch req w))
  ∧ store_ok sch (db (bookinstance_create_post sch oid req w))
  ∧ store_ok sch (db (bookinstance_update_post sch oid req w))
  ∧ store_ok sch (db (bookinstance_delete_post sch req w)).
Proof.
  intros Hok.
  unfold author_create_post, author_update_post, author_delete_post,
    book_create_post, book_update_post, book_delete_post,
    bookinstance_create_post, bookinstance_update_post, bookinstance_delete_post.
  split_and!;
    match goal with
    | |- context [run_middlewares ?ms req] =>
        destruct (run_middlewares ms req) as [r errors]
    end;
    (apply keeps_asyncHandler; [|exact Hok]);
    unfold bookinstance_form, book_form, null_property, undefined_property;
    keeps_tac.
Qed.

Lemma X16_witness :
  let req := Examples.request_of Examples.id_paley
    [("first_name", "Lydia"); ("family_name", "Davis");
     ("authorid", Examples.id_paley)] None in
  store_ok Examples.sch
    (db (author_create_post (H := SimpleDates.lib) Examples.id_new req Examples.w0))
  ∧ store_ok Examples.sch
      (db (author_delete_post (H := SimpleDates.lib) req Examples.w0)).
Proof.
  intros req.
  destruct (X16_post_handlers_keep_identifiers_unique (H := SimpleDates.lib)
              Examples.sch Examples.id_new req Examples.w0) as (Ha & _ & Hc & _).
  - unfold store_ok, unique_ids.
    split_and!; apply (bool_decide_unpack _); vm_compute; exact I.
  - by split.
Defined.

(** X17. The list pages and the create, delete and update forms (GET) of
    the three controllers never write to the store. *)
Theorem X17_get_handlers_write_nothing (sch : BookInstance.schema) (req : request)
    (w : world) :
  db (author_list req w) = db w
  ∧ db (author_create_get req w) = db w
  ∧ db (author_delete_get req w) = db w
  ∧ db (author_update_get req w) = db w
  ∧ db (book_list req w) = db w
  ∧ db (book_create_get req w) = db w
  ∧ db (book_delete_get sch req w) = db w
  ∧ db (book_update_get req w) = db w
  ∧ db (bookinstance_list sch req w) = db w
  ∧ db (bookinstance_create_get req w) = db w
  ∧ db (bookinstance_delete_get sch req w) = db w
  ∧ db (bookinstance_update_get sch req w) = db w.
Proof.
  unfold author_list, author_delete_get, author_update_get, book_list,
    book_create_get, book_delete_get, book_update_get, bookinstance_list,
    bookinstance_create_get, bookinstance_delete_get, bookinstance_update_get.
  split_and!; try reflexivity;
    (apply (keeps_asyncHandler (λ st, st = db w)); [|reflexivity]);
    keeps_tac.
Qed.

(** ** What escaping leaves in the body *)

Section escaped.
Context `{DateLib}.
Import express_validator.

Lemma forall_chars_app p s t :
  ObjectId.forall_chars p (s +:+ t)
  = ObjectId.forall_chars p s && ObjectId.forall_chars p t.
Proof.
  induction s as [|c s IH]; [done|]. simpl. by rewrite IH, andb_assoc.
Qed.

Lemma escape_char_safe c : html_safe (validator.escape_char c).
Proof. by destruct c as [[] [] [] [] [] [] [] []]. Qed.

Lemma escape_safe s : html_safe (validator.escape s).
Proof.
  unfold html_safe. induction s as [|c s IH]; [done|]. cbn [validator.escape].
  rewrite forall_chars_app, IH, andb_true_r. apply escape_char_safe.
Qed.

Lemma safe_text_escape b f s :
  b !! f = Some (SStr (validator.escape s)) → safe_text b f.
Proof. intros Hb. eexists. split; [exact Hb | apply escape_safe]. Qed.
End escaped.

(** X18. After the chains of a form, every text field the chains escape
    (the names of an author; title, author, summary, isbn and each genre of
    a book; book, imprint and status of a copy) holds a string in which no
    quote, angle bracket, slash, backslash or backtick is left, whatever was
    submitted. *)
Theorem X18_escaped_fields_hold_no_markup `{DateLib} (req : request) :
  Forall (safe_text (body (sanitized author_chains req)))
    ["first_name"; "family_name"]
  ∧ Forall (safe_text (body (sanitized book_create_chains req)))
      ["title"; "author"; "summary"; "isbn"]
  ∧ Forall (safe_text (body (sanitized book_update_chains req)))
      ["title"; "author"; "summary"; "isbn"]
  ∧ (∃ l, body_genre (sanitized book_create_chains req) = Some (Many l)
          ∧ Forall safe_element l)
  ∧ (∃ l, body_genre (sanitized book_update_chains req) = Some (Many l)
          ∧ Forall safe_element l)
  ∧ Forall (safe_text (body (sanitized bookinstance_chains req)))
      ["book"; "imprint"; "status"].
Proof.
  destruct req as [p b g]. unfold sanitized, book_create_chains, book_update_chains.
  destruct (author_chains_run p b g) as (b1 & es & -> & Ha1 & Ha2 & _).
  destruct (book_chains_run "ISBN must not be empty." (Some "Genre must not be empty.")
              p b g) as (b2 & -> & Hb1 & Hb2 & Hb3 & Hb4).
  destruct (book_chains_run "ISBN must not be empty" None p b g)
    as (b3 & -> & Hc1 & Hc2 & Hc3 & Hc4).
  destruct (bookinstance_chains_run p b g) as (b4 & -> & Hd1 & Hd2 & Hd3 & _).
  cbn [fst body body_genre].
  assert (Forall safe_element
            ((λ x, SStr (validator.escape (express_validator.toString (Some x))))
               <$> genre_list g)) as Hg.
  { apply Forall_fmap, Forall_forall. intros x _. eexists.
    split; [reflexivity | apply escape_safe]. }
  split_and!; try (eexists; split; [reflexivity | exact Hg]);
    repeat (apply Forall_cons_2; [by eapply safe_text_escape|]); apply Forall_nil_2.
Qed.

(** ** Updating a book *)

(** X19. The update of a stored book with an accepted form: the handler
    redirects to the book; title, summary and isbn are overwritten with the
    escaped fields; the author is overwritten only when the field is an
    ObjectId string and is otherwise left as stored, without any error; a
    form without genre empties the genres; identifiers and the other
    collections stay as they are. *)
Theorem X19_book_update_overwrites_what_casts `{DateLib} (oid : ObjectId)
    (req : request) (w : world) (i : ObjectId) (old : Book.t) :
  let field f := validator.escape
                   (validator.trim (express_validator.toString (body req !! f))) in
  validationResult book_update_chains req = [] →
  ObjectId.ofString (params_id req) = Some i →
  stored (D := Book.t) i (db w) = Some old →
  let w' := book_update_post oid req w in
  ∃ new,
    sent w' = (sent w ++ [Redirect ("/catalog/book/" +:+ i)])%list
    ∧ stored (D := Book.t) i (db w') = Some new
    ∧ Book.title new = Val (field "title")
    ∧ Book.summary new = Val (field "summary")
    ∧ Book.isbn new = Val (field "isbn")
    ∧ Book.author new
      = match ObjectId.ofString (field "author") with
        | Some a => Val a
        | None => Book.author old
        end
    ∧ (body_genre req = None → Book.genre new = Val [])
    ∧ Book._id <$> books (db w') = Book._id <$> books (db w)
    ∧ authors (db w') = authors (db w)
    ∧ bookinstances (db w') = bookinstances (db w)
    ∧ genres (db w') = genres (db w).
Proof.
  destruct req as [p b g]. unfold validationResult. cbn [body params_id body_genre].
  intros Hv Hi Hs. unfold book_update_post, book_update_chains in *.
  destruct (book_chains_run "ISBN must not be empty" None p b g)
    as (b' & E & H1 & H2 & H3 & H4).
  rewrite E in Hv |- *. cbn [snd] in Hv. rewrite Hv.
  cbn [body params_id body_genre default]. rewrite H1, H2, H3, H4.
  unfold asyncHandler, mbind, M_bind.
  rewrite (findByIdAndUpdate_stored (model := BookModel) p i _ w old Hi Hs).
  pose proof (stored_id (model := BookModel) _ _ _ Hs) as Hid. cbn in Hid.
  unfold redirect, send. cbn [db sent with_db].
  eexists. split_and!.
  - unfold Book.url. by rewrite Hid.
  - unfold stored. cbn [collection set_collection BookModel books].
    rewrite find_replace_first by done. unfold stored in Hs. cbn in Hs.
    rewrite Hs. reflexivity.
  - cbn [updated BookModel Book.update Book.title]. by rewrite Book_new_doc.
  - cbn [updated BookModel Book.update Book.summary]. by rewrite Book_new_doc.
  - cbn [updated BookModel Book.update Book.isbn]. by rewrite Book_new_doc.
  - cbn [updated BookModel Book.update Book.author]. rewrite Book_new_doc.
    cbn [Book.author castObjectId]. destruct (ObjectId.ofString (validator.escape _)); reflexivity.
  - intros ->. cbn [updated BookModel Book.update Book.genre].
    by rewrite Book_new_doc.
  - cbn [set_collection BookModel books collection].
    by apply (replace_first_ids (model := BookModel)).
  - done.
  - done.
  - done.
Qed.

Lemma X19_witness :
  let req := Examples.request_of Examples.id_runaway
    [("title", "Run <away>"); ("author", "Alice Munro"); ("summary", "Stories");
     ("isbn", "1400042817")] None in
  let w' := book_update_post (H := SimpleDates.lib) Examples.id_new req Examples.w0 in
  ∃ new, stored (D := Book.t) Examples.id_runaway (db w') = Some new
         ∧ Book.title new = Val "Run &lt;away&gt;"
         ∧ Book.author new = Val Examples.id_munro
         ∧ sent w' = [Redirect ("/catalog/book/" +:+ Examples.id_runaway)].
Proof.
  intros req w'. subst w'.
  destruct (X19_book_update_overwrites_what_casts (H := SimpleDates.lib)
              Examples.id_new req Examples.w0 Examples.id_runaway Examples.runaway)
    as (new & Hsent & Hs & Ht & _ & _ & Ha & _);
    [reflexivity | reflexivity | reflexivity |].
  exists new. split_and!; [exact Hs | exact Ht | exact Ha | exact Hsent].
Defined.

(** ** Creating records that reference others *)

Section created.
Context `{DateLib}.
Import express_validator.

Ltac split_paths :=
  repeat match goal with
         | |- context [set_path ?p ?c ?d] => destruct (set_path p c d)
         end.

Lemma escape_empty s : validator.escape s = "" → s = "".
Proof.
  destruct s as [|c s]; [done|]. cbn [validator.escape].
  destruct (escape_char_cases c) as [->|(_ & r & ->)]; discriminate.
Qed.

Lemma required_string_filled p s : s ≠ "" → required_string p (Val s) = [].
Proof. by destruct s. Qed.

Lemma unless_cast_nil {D} (c : candidate D) p : unless_cast c p [] = [].
Proof. unfold unless_cast. by destruct (bool_decide _). Qed.

Lemma set_path_cast_ok {A} p (f : field A) d : (set_path p (CastOk f) d).2 = [].
Proof. by destruct f. Qed.

Lemma castObjectIds_strings l ids :
  castObjectIds (SStr <$> l) = Some ids → forallb is_val ids = true.
Proof.
  revert ids. induction l as [|s l IH]; intros ids; cbn [fmap list_fmap castObjectIds].
  - by intros [= <-].
  - unfold castObjectId at 1. destruct (ObjectId.ofString s); [|done].
    fold (fmap (M := list) SStr l).
    destruct (castObjectIds (SStr <$> l)) as [r|]; [|done].
    intros [= <-]. cbn [forallb is_val]. by apply IH.
Qed.
End created.

(** An accepted copy form with a book that casts, a status of the schema and
    an unused identifier: the copy that is appended. *)
Lemma bookinstance_create_post_stored `{DateLib} (sch : BookInstance.schema)
    (oid : ObjectId) (req : request) (w : world) (a : ObjectId) :
  let field f := validator.escape
                   (validator.trim (express_validator.toString (body req !! f))) in
  let status := validator.escape (express_validator.toString (body req !! "status")) in
  validationResult bookinstance_chains req = [] →
  ObjectId.ofString (field "book") = Some a →
  status ∈ BookInstance.status_enum sch →
  status ≠ "" →
  existsb (has_id (model := BookInstanceModel sch) oid) (bookinstances (db w)) = false →
  ∃ due,
    bookinstance_create_post sch oid req w
    = respond (Redirect ("/catalog/bookinstance/" +:+ oid))
        (with_db
           (set_collection (Model := BookInstanceModel sch)
              (bookinstances (db w)
               ++ [ {| BookInstance._id := oid; BookInstance.book := Val a;
                       BookInstance.imprint := Val (field "imprint");
                       BookInstance.status := Val status;
                       BookInstance.due_back := due |} ])%list (db w)) w).
Proof.
  destruct req as [p b g]. unfold validationResult. cbn [body].
  intros Hv Ha Hst Hne Hfresh.
  destruct (bookinstance_chains_run p b g) as (b' & E & Hb & Hi & Hs & Hd).
  pose proof (bookinstance_create_post_valid sch oid
                {| params_id := p; body := b; body_genre := g |} w) as V.
  cbv zeta in V. unfold sanitized, validationResult in V. rewrite E in V, Hv.
  cbn [fst snd body] in V, Hv. specialize (V Hv).
  apply app_nil in Hv as [_ [Him%text_errors_nil _]%app_nil].
  assert (date_ready (b' !! "due_back")) as Hr.
  { rewrite Hd. destruct (falsy (b !! "due_back")) eqn:F;
      [by apply falsy_ready | apply toDate_ready]. }
  destruct (date_ready_cast _ Hr) as [f Hf].
  rewrite Hb, Hi, Hs in V.
  set (c := BookInstance.new sch oid None _ _ _ _) in V.
  assert (doc c
          = {| BookInstance._id := oid; BookInstance.book := Val a;
               BookInstance.imprint :=
                 Val (validator.escape
                        (validator.trim (express_validator.toString (b !! "imprint"))));
               BookInstance.status :=
                 Val (validator.escape (express_validator.toString (b !! "status")));
               BookInstance.due_back :=
                 (set_path "due_back" (CastOk f)
                    (Val (BookInstance.due_back_default sch))).1 |}) as Hdoc.
  { unfold c. rewrite BookInstance_new_doc. cbn [castObjectId castString fmap option_fmap
      option_map]. by rewrite Ha, Hf. }
  assert (BookInstance.validate sch c = []) as Hok.
  { unfold BookInstance.validate. rewrite Hdoc. unfold c.
    rewrite BookInstance_new_errors.
    cbn [castObjectId castString fmap option_fmap option_map BookInstance.book
         BookInstance.imprint BookInstance.status required].
    rewrite Ha, Hf, !set_path_cast_ok.
    rewrite !required_string_filled; [|done|].
    - rewrite unless_cast_nil. unfold first_failure, enum.
      by rewrite bool_decide_eq_true_2.
    - intros He. by apply escape_empty in He. }
  rewrite V; [|exact Hok|by rewrite Hdoc].
  eexists. by rewrite Hdoc.
Qed.

(** X20. Creating a copy checks no reference: a form the chains accept,
    with a book that is an ObjectId string, a status of the schema and an
    unused identifier, is stored and answered with a redirect to the new
    copy, whether or not a book with that identifier is stored; populating
    the book of the new copy gives what the store holds under it. *)
Theorem X20_copy_is_created_without_its_book `{DateLib} (sch : BookInstance.schema)
    (oid : ObjectId) (req : request) (w : world) (a : ObjectId) :
  let field f := validator.escape
                   (validator.trim (express_validator.toString (body req !! f))) in
  let status := validator.escape (express_validator.toString (body req !! "status")) in
  validationResult bookinstance_chains req = [] →
  ObjectId.ofString (field "book") = Some a →
  status ∈ BookInstance.status_enum sch →
  status ≠ "" →
  existsb (has_id (model := BookInstanceModel sch) oid) (bookinstances (db w)) = false →
  let w1 := bookinstance_create_post sch oid req w in
  ∃ c,
    bookinstances (db w1) = (bookinstances (db w) ++ [c])%list
    ∧ sent w1 = (sent w ++ [Redirect ("/catalog/bookinstance/" +:+ oid)])%list
    ∧ BookInstance._id c = oid
    ∧ BookInstance.book c = Val a
    ∧ BookInstance.imprint c = Val (field "imprint")
    ∧ BookInstance.status c = Val status
    ∧ populate_book (db w1) c = stored (D := Book.t) a (db w)
    ∧ books (db w1) = books (db w)
    ∧ authors (db w1) = authors (db w).
Proof.
  intros field status Hv Ha Hst Hne Hfresh w1. subst w1.
  destruct (bookinstance_create_post_stored sch oid req w a Hv Ha Hst Hne Hfresh)
    as [due ->].
  eexists. cbn. split_and!; done.
Qed.

Lemma X20_witness :
  let req := Examples.request_of ""
    [("book", Examples.id_unknown); ("imprint", "Vintage"); ("status", "Available")]
    None in
  let w1 := bookinstance_create_post (H := SimpleDates.lib) Examples.sch
              Examples.id_new req Examples.w0 in
  stored (D := Book.t) Examples.id_unknown Examples.library = None
  ∧ ∃ c, bookinstances (db w1) = [Examples.copy1; Examples.copy2; c]
         ∧ BookInstance.book c = Val Examples.id_unknown
         ∧ populate_book (db w1) c = None.
Proof.
  intros req w1. subst w1. split; [reflexivity|].
  destruct (X20_copy_is_created_without_its_book (H := SimpleDates.lib) Examples.sch
              Examples.id_new req Examples.w0 Examples.id_unknown)
    as (c & Hl & _ & _ & Hb & _ & _ & Hp & _).
  - reflexivity.
  - reflexivity.
  - apply (bool_decide_unpack _). vm_compute. exact I.
  - discriminate.
  - reflexivity.
  - exists c. split_and!; [exact Hl | exact Hb | exact Hp].
Defined.

(** X21. Creating a book: a form the chains accept, with a title that is
    not stored, an author and genres that are ObjectId strings and an unused
    identifier, appends exactly the book made of the escaped fields and the
    cast references, and redirects to it; neither the author nor the genres
    are looked up. *)
Theorem X21_book_is_created_with_its_references `{DateLib} (oid : ObjectId)
    (req : request) (w : world) (a : ObjectId) (ids : list (field ObjectId)) :
  let field f := validator.escape
                   (validator.trim (express_validator.toString (body req !! f))) in
  let genre := (λ x, validator.escape (express_validator.toString (Some x)))
                 <$> genre_list (body_genre req) in
  validationResult book_create_chains req = [] →
  List.find (title_is (Some (SStr (field "title")))) (books (db w)) = None →
  ObjectId.ofString (field "author") = Some a →
  castObjectIds (SStr <$> genre) = Some ids →
  existsb (has_id oid) (books (db w)) = false →
  let w1 := book_create_post oid req w in
  ∃ bk,
    books (db w1) = (books (db w) ++ [bk])%list
    ∧ sent w1 = (sent w ++ [Redirect ("/catalog/book/" +:+ oid)])%list
    ∧ bk = {| Book._id := oid; Book.title := Val (field "title");
              Book.author := Val a; Book.summary := Val (field "summary");
              Book.isbn := Val (field "isbn"); Book.genre := Val ids |}
    ∧ populate_author (db w1) bk = stored (D := Author.t) a (db w)
    ∧ authors (db w1) = authors (db w)
    ∧ bookinstances (db w1) = bookinstances (db w)
    ∧ genres (db w1) = genres (db w).
Proof.
  destruct req as [p b g]. unfold validationResult. cbn [body body_genre].
  intros Hv Ht Ha Hg Hfresh. unfold book_create_post, book_create_chains in *.
  destruct (book_chains_run "ISBN must not be empty." (Some "Genre must not be empty.")
              p b g) as (b' & E & H1 & H2 & H3 & H4).
  rewrite E in Hv |- *. cbn [snd] in Hv. rewrite Hv.
  apply app_nil in Hv as [Hf1%text_errors_nil [_ [Hf3%text_errors_nil
    Hf4%text_errors_nil]%app_nil]%app_nil].
  cbn [body body_genre]. rewrite H1, H2, H3, H4.
  unfold asyncHandler, mbind, M_bind, get_db. rewrite Ht. rewrite save_run.
  pose proof (castObjectIds_strings _ _ Hg) as Hval.
  rewrite <-list_fmap_compose in Hg. unfold compose in Hg.
  set (c := Book.new oid None _ _ _ _ _).
  assert (doc c
          = {| Book._id := oid;
               Book.title :=
                 Val (validator.escape
                        (validator.trim (express_validator.toString (b !! "title"))));
               Book.author := Val a;
               Book.summary :=
                 Val (validator.escape
                        (validator.trim (express_validator.toString (b !! "summary"))));
               Book.isbn :=
                 Val (validator.escape
                        (validator.trim (express_validator.toString (b !! "isbn"))));
               Book.genre := Val ids |}) as Hdoc.
  { unfold c. rewrite Book_new_doc.
    cbn [castObjectId castString Book.castGenre fmap option_fmap option_map].
    by rewrite Ha, Hg. }
  assert (Book.validate c = []) as Hok.
  { unfold Book.validate. rewrite Hdoc. unfold c. rewrite Book_new_errors.
    cbn [castObjectId castString Book.castGenre fmap option_fmap option_map
         Book.title Book.author Book.summary Book.isbn Book.genre required].
    rewrite Ha, Hg, !set_path_cast_ok, Hval, unless_cast_nil.
    rewrite !required_string_filled; [done|..];
      intros He; by apply escape_empty in He. }
  change (invalid c) with (Book.validate c). rewrite Hok, Hdoc.
  cbn [id_of BookModel Book._id collection]. rewrite Hfresh.
  eexists. cbn. split_and!; done.
Qed.

Lemma X21_witness :
  let req := Examples.request_of ""
    [("title", "Dubliners"); ("author", Examples.id_unknown); ("summary", "Stories");
     ("isbn", "0140186476")] (Some (One (SStr Examples.id_other))) in
  let w1 := book_create_post (H := SimpleDates.lib) Examples.id_new req Examples.w0 in
  stored (D := Author.t) Examples.id_unknown Examples.library = None
  ∧ ∃ bk, books (db w1) = [Examples.runaway; Examples.cathedral; bk]
          ∧ Book.author bk = Val Examples.id_unknown
          ∧ Book.genre bk = Val [Val Examples.id_other]
          ∧ populate_author (db w1) bk = None.
Proof.
  intros req w1. subst w1. split; [reflexivity|].
  destruct (X21_book_is_created_with_its_references (H := SimpleDates.lib)
              Examples.id_new req Examples.w0 Examples.id_unknown
              [Val Examples.id_other])
    as (bk & Hl & _ & -> & Hp & _);
    [reflexivity | reflexivity | reflexivity | reflexivity | reflexivity |].
  eexists. split_and!; [exact Hl | reflexivity | reflexivity | exact Hp].
Defined.

(** ** The home page *)

(** X22. The numbers of the home page follow a created copy: the count of
    copies goes up by one, the count of available copies goes up by one
    exactly when the stored status is Available, the other counts stay, and
    the available copies never outnumber the copies. *)
Theorem X22_home_page_counts_a_new_copy `{DateLib} (sch : BookInstance.schema)
    (oid : ObjectId) (req : request) (w : world) (a : ObjectId) :
  let field f := validator.escape
                   (validator.trim (express_validator.toString (body req !! f))) in
  let status := validator.escape (express_validator.toString (body req !! "status")) in
  validationResult bookinstance_chains req = [] →
  ObjectId.ofString (field "book") = Some a →
  status ∈ BookInstance.status_enum sch →
  status ≠ "" →
  existsb (has_id (model := BookInstanceModel sch) oid) (bookinstances (db w)) = false →
  let n := index_counts (db w) in
  let n1 := index_counts (db (bookinstance_create_post sch oid req w)) in
  book_instance_count n1 = S (book_instance_count n)
  ∧ book_instance_available_count n1
    = ((if bool_decide (status = "Available") then 1 else 0)
       + book_instance_available_count n)%nat
  ∧ book_count n1 = book_count n
  ∧ author_count n1 = author_count n
  ∧ genre_count n1 = genre_count n
  ∧ (book_instance_available_count n1 ≤ book_instance_count n1)%nat.
Proof.
  intros text status Hv Ha Hst Hne Hfresh n n1. subst n n1.
  destruct (bookinstance_create_post_stored sch oid req w a Hv Ha Hst Hne Hfresh)
    as [due ->].
  unfold index_counts.
  cbn [respond with_db db set_collection BookInstanceModel bookinstances books authors
       genres book_count book_instance_count book_instance_available_count
       author_count genre_count].
  rewrite List.filter_app, !length_app. cbn [List.filter BookInstance.status].
  fold status.
  assert (bool_decide (Val status = Val "Available" :> field string)
          = bool_decide (status = "Available")) as ->.
  { apply bool_decide_ext. split; [by intros [= ->] | by intros ->]. }
  pose proof (List.filter_length_le
                (λ d, bool_decide (BookInstance.status d = Val "Available"))
                (bookinstances (db w))) as Hle.
  split_and!; try done; destruct (bool_decide (status = "Available")); cbn; lia.
Qed.

Lemma X22_witness :
  let req := Examples.request_of ""
    [("book", Examples.id_runaway); ("imprint", "Vintage"); ("status", "Available")]
    None in
  let n1 := index_counts
              (db (bookinstance_create_post (H := SimpleDates.lib) Examples.sch
                     Examples.id_new req Examples.w0)) in
  book_instance_count n1 = 3 ∧ book_instance_available_count n1 = 2.
Proof.
  intros req n1. subst n1.
  destruct (X22_home_page_counts_a_new_copy (H := SimpleDates.lib) Examples.sch
              Examples.id_new req Examples.w0 Examples.id_runaway)
    as (H1 & H2 & _).
  - reflexivity.
  - reflexivity.
  - apply (bool_decide_unpack _). vm_compute. exact I.
  - discriminate.
  - reflexivity.
  - split; [exact H1 | exact H2].
Defined.

(** ** The author schema and its virtuals *)

(** X23. The author chains are at least as strict as the author schema:
    the document built from a form the chains accept passes every validator
    of the schema, its virtual name is the two trimmed names joined by a
    space, never the empty string, and its virtual url ends in the
    generated identifier. *)
Theorem X23_author_schema_accepts_what_the_chains_accept `{DateLib} (oid : ObjectId)
    (req : request) :
  let first := validator.trim (express_validator.toString (body req !! "first_name")) in
  let family :=
    validator.trim (express_validator.toString (body req !! "family_name")) in
  let r := sanitized author_chains req in
  let c := Author.new oid None (body r !! "first_name") (body r !! "family_name")
             (body r !! "date_of_birth") (body r !! "date_of_death") in
  validationResult author_chains req = [] →
  Author.validate c = []
  ∧ Author.name (doc c) = first +:+ " " +:+ family
  ∧ Author.name (doc c) ≠ ""
  ∧ Author.url (doc c) = "/catalog/author/" +:+ oid.
Proof.
  intros first family r c Hv.
  pose proof Hv as Hn. rewrite author_chains_errors, !app_nil, !name_errors_nil in Hn.
  destruct Hn as ((Hn1 & Hl1 & Ha1) & (Hn2 & Hl2 & Ha2) & _).
  fold first in Hn1, Hl1, Ha1. fold family in Hn2, Hl2, Ha2.
  assert (body r !! "first_name" = Some (SStr first)
          ∧ body r !! "family_name" = Some (SStr family)
          ∧ date_ready (body r !! "date_of_birth")
          ∧ date_ready (body r !! "date_of_death")) as (E1 & E2 & D1 & D2).
  { unfold r, first, family, sanitized in *. destruct req as [p b g].
    destruct (author_chains_run p b g) as (b' & es & -> & H1 & H2 & H3 & H4).
    cbn [fst body] in *.
    by rewrite H1, H2, (escape_of_alnum _ Ha1), (escape_of_alnum _ Ha2). }
  subst c. rewrite E1, E2.
  destruct (Author_new_created oid first family _ _ D1 D2) as [Hc Hid].
  destruct (Author_new_valid oid None first family _ _ Hn1 Hn2 Hl1 Hl2 D1 D2 Hc)
    as (Hok & Hf & Hg).
  split_and!.
  - exact Hok.
  - unfold Author.name. rewrite Hf, Hg. by destruct first, family.
  - unfold Author.name. rewrite Hf, Hg. by destruct first, family.
  - unfold Author.url. by rewrite Hid.
Qed.

Lemma X23_witness :
  let req := Examples.request_of ""
    [("first_name", " Lydia "); ("family_name", "Davis")] None in
  let r := sanitized (author_chains (H := SimpleDates.lib)) req in
  let c := Author.new (H := SimpleDates.lib) Examples.id_new None
             (body r !! "first_name") (body r !! "family_name")
             (body r !! "date_of_birth") (body r !! "date_of_death") in
  Author.validate c = [] ∧ Author.name (doc c) = "Lydia Davis".
Proof.
  intros req r c.
  destruct (X23_author_schema_accepts_what_the_chains_accept (H := SimpleDates.lib)
              Examples.id_new req) as (Hok & Hn & _); [reflexivity|].
  split; [exact Hok | exact Hn].
Defined.

(** ** The due date of an updated copy *)

(** X24. The due date after the update of a stored copy with an accepted
    form: a form without due_back overwrites the stored date with the
    default of the schema (the clock reading when the schema was built); an
    empty due_back clears it; a due_back that parses is stored as parsed. *)
Theorem X24_copy_update_due_back `{DateLib} (sch : BookInstance.schema)
    (oid : ObjectId) (req : request) (w : world) (i : ObjectId)
    (old : BookInstance.t) :
  validationResult bookinstance_chains req = [] →
  ObjectId.ofString (params_id req) = Some i →
  stored (model := BookInstanceModel sch) i (db w) = Some old →
  let w' := bookinstance_update_post sch oid req w in
  ∃ new,
    stored (model := BookInstanceModel sch) i (db w') = Some new
    ∧ (body req !! "due_back" = None →
       BookInstance.due_back new = Val (BookInstance.due_back_default sch))
    ∧ (body req !! "due_back" = Some (SStr "") → BookInstance.due_back new = Null)
    ∧ (∀ s t, body req !! "due_back" = Some (SStr s) → s ≠ "" →
              Date_parse s = Some t → BookInstance.due_back new = Val t).
Proof.
  destruct req as [p b g]. unfold validationResult. cbn [body params_id].
  intros Hv Hi Hs. unfold bookinstance_update_post.
  destruct (bookinstance_chains_run p b g) as (b' & E & _ & _ & _ & Hd).
  rewrite E in Hv |- *. cbn [snd] in Hv. rewrite Hv. cbn [body params_id].
  unfold asyncHandler, mbind, M_bind.
  rewrite (findByIdAndUpdate_stored (model := BookInstanceModel sch) p i _ w old Hi Hs).
  unfold redirect, send. cbn [db sent with_db].
  eexists. split_and!.
  - unfold stored. cbn [collection set_collection BookInstanceModel bookinstances].
    rewrite find_replace_first by done. unfold stored in Hs. cbn in Hs.
    rewrite Hs. reflexivity.
  - intros Hb. cbn [updated BookInstanceModel BookInstance.update BookInstance.due_back].
    rewrite BookInstance_new_due_back, Hd, Hb. reflexivity.
  - intros Hb. cbn [updated BookInstanceModel BookInstance.update BookInstance.due_back].
    rewrite BookInstance_new_due_back, Hd, Hb. reflexivity.
  - intros s t Hb Hne Ht.
    cbn [updated BookInstanceModel BookInstance.update BookInstance.due_back].
    rewrite BookInstance_new_due_back, Hd, Hb.
    destruct s; [done|]. cbn [falsy express_validator.toString].
    unfold express_validator.toDate. rewrite Ht. reflexivity.
Qed.

Lemma X24_witness :
  let req := Examples.request_of Examples.id_copy1
    [("book", Examples.id_runaway); ("imprint", "Vintage"); ("status", "Loaned")]
    None in
  let w' := bookinstance_update_post (H := SimpleDates.lib) Examples.sch
              Examples.id_new req Examples.w0 in
  BookInstance.due_back Examples.copy1 = Val 20%Z
  ∧ clock Examples.w0 = 2000%Z
  ∧ ∃ new, stored (model := BookInstanceModel Examples.sch) Examples.id_copy1 (db w')
           = Some new
           ∧ BookInstance.due_back new = Val 1000%Z.
Proof.
  intros req w'. subst w'. split; [reflexivity|]. split; [reflexivity|].
  destruct (X24_copy_update_due_back (H := SimpleDates.lib) Examples.sch
              Examples.id_new req Examples.w0 Examples.id_copy1 Examples.copy1)
    as (new & Hs & Hd & _); [reflexivity | reflexivity | reflexivity |].
  exists new. split; [exact Hs | by apply Hd].
Defined.

(** ** Deleting with a blank identifier *)

(** X25. The delete handlers of authors and books never look at the
    validation result: with a blank identifier in the form (and no
    dependents under the identifier of the URL) validation fails, yet the
    removal is attempted, its cast error is passed to [next], and the
    message of the chain is shown nowhere. *)
Theorem X25_delete_ignores_the_validation_result `{DateLib}
    (sch : BookInstance.schema) (req : request) (w : world) (p : ObjectId) :
  ObjectId.ofString (params_id req) = Some p →
  (books_of p (db w) = [] →
   submitted_id "authorid" req = "" →
   validationResult author_delete_chains req
   = [err "authorid" "Author Id is required"]
   ∧ author_delete_post req w = respond (Next (Err.CastError "ObjectId" "_id")) w)
  ∧ (instances_of p (db w) = [] →
     submitted_id "bookid" req = "" →
     validationResult book_delete_chains req = [err "bookid" "Invalid value"]
     ∧ book_delete_post sch req w
       = respond (Next (Err.CastError "ObjectId" "_id")) w).
Proof.
  destruct req as [pp b g]. cbn [params_id]. intros Hp. split.
  - intros Hb Hs. unfold validationResult, author_delete_post, author_delete_chains.
    rewrite id_chain_run. cbv zeta. rewrite Hs. cbn [snd validator.isLength
      String.length Nat.leb andb default params_id body]. split; [done|].
    unfold asyncHandler, findById, cast_id, find_refs. rewrite Hp.
    unfold fmap, M_fmap, mbind, M_bind, mret, M_ret, get_db.
    cbn [db collection AuthorModel BookModel] in *.
    fold (books_of p (db w)). rewrite Hb. cbn [list_fmap].
    rewrite lookup_insert_eq.
    by rewrite (findByIdAndRemove_malformed (model := AuthorModel) "" _).
  - intros Hb Hs. unfold validationResult, book_delete_post, book_delete_chains.
    rewrite id_chain_run. cbv zeta. rewrite Hs. cbn [snd validator.isLength
      String.length Nat.leb andb default params_id body]. split; [done|].
    unfold asyncHandler, findById, cast_id, find_refs. rewrite Hp.
    unfold fmap, M_fmap, mbind, M_bind, mret, M_ret, get_db.
    cbn [db collection BookModel BookInstanceModel] in *.
    fold (instances_of p (db w)). rewrite Hb.
    rewrite lookup_insert_eq.
    by rewrite (findByIdAndRemove_malformed (model := BookModel) "" _).
Qed.

Lemma X25_witness :
  let req := Examples.request_of Examples.id_paley [("authorid", "  ")] None in
  author_delete_post (H := SimpleDates.lib) req Examples.w0
  = respond (Next (Err.CastError "ObjectId" "_id")) Examples.w0.
Proof.
  intros req.
  destruct (X25_delete_ignores_the_validation_result (H := SimpleDates.lib)
              Examples.sch req Examples.w0 Examples.id_paley) as [Ha _];
    [reflexivity|].
  by apply Ha.
Defined.

(** ** One answer per request *)

Section answers.
Context `{DateLib}.

Lemma silent_ret {A} (a : A) : silent (mret a).
Proof. by intros w. Qed.

Lemma silent_throw {A} e : silent (throw (A := A) e).
Proof. by intros w. Qed.

Lemma silent_get_db : silent get_db.
Proof. by intros w. Qed.

Lemma silent_put_db st : silent (put_db st).
Proof. by intros w. Qed.

Lemma silent_bind {A B} (m : M A) (k : A → M B) :
  silent m → (∀ a, silent (k a)) → silent (m ≫= k).
Proof.
  intros Hm Hk w. unfold mbind, M_bind. specialize (Hm w).
  destruct (m w) as [[a|e] w']; cbn [snd] in *; [|done].
  by rewrite Hk.
Qed.

Lemma silent_fmap {A B} (f : A → B) (m : M A) : silent m → silent (f <$> m).
Proof.
  intros Hm w. unfold fmap, M_fmap. specialize (Hm w).
  by destruct (m w) as [[a|e] w'].
Qed.

Lemma once_send a : answers_once (send a).
Proof. intros w. by eexists. Qed.

Lemma once_throw e : answers_once (throw e).
Proof. by intros w. Qed.

Lemma once_bind {A} (m : M A) (k : A → M unit) :
  silent m → (∀ a, answers_once (k a)) → answers_once (m ≫= k).
Proof.
  intros Hm Hk w. unfold mbind, M_bind. specialize (Hm w).
  destruct (m w) as [[a|e] w']; cbn [snd] in *; [|done].
  specialize (Hk a w'). destruct (k a w') as [[u|e] w'']; by rewrite <-Hm.
Qed.

Lemma once_asyncHandler (m : M unit) w :
  answers_once m → ∃ a, sent (asyncHandler m w) = (sent w ++ [a])%list.
Proof.
  intros Hm. unfold asyncHandler. specialize (Hm w).
  destruct (m w) as [[u|e] w']; [done|]. cbn [sent]. rewrite Hm. by eexists.
Qed.

Section queries.
Context {D : Type} {model : Model D}.

Lemma silent_cast_id s : silent (cast_id s).
Proof. unfold cast_id. destruct (ObjectId.ofString s); by intros w. Qed.

Lemma silent_findById s : silent (findById (D := D) s).
Proof.
  unfold findById. apply silent_bind; [apply silent_cast_id|]. intros i.
  apply silent_bind; [apply silent_get_db|]. intros st. apply silent_ret.
Qed.

Lemma silent_find_refs path (ref : D → field ObjectId) s :
  silent (find_refs path ref s).
Proof.
  unfold find_refs. destruct (ObjectId.ofString s); [|apply silent_throw].
  apply silent_bind; [apply silent_get_db|]. intros st. apply silent_ret.
Qed.

Lemma silent_find_all : silent (find_all (D := D)).
Proof.
  unfold find_all. apply silent_bind; [apply silent_get_db|]. intros st.
  apply silent_ret.
Qed.

Lemma silent_save (c : candidate D) : silent (save c).
Proof.
  intros w. rewrite save_run. destruct (invalid c); [|done].
  by destruct (existsb _ _).
Qed.

Lemma silent_findByIdAndUpdate s (c : candidate D) : silent (findByIdAndUpdate s c).
Proof.
  unfold findByIdAndUpdate. apply silent_bind; [apply silent_cast_id|]. intros i.
  apply silent_bind; [apply silent_get_db|]. intros st.
  destruct (List.find _ _); [|apply silent_ret].
  apply silent_bind; [apply silent_put_db|]. intros _. apply silent_ret.
Qed.

Lemma silent_findByIdAndRemove v : silent (findByIdAndRemove (D := D) v).
Proof.
  unfold findByIdAndRemove. apply silent_bind.
  - destruct v as [x|]; [|apply silent_ret].
    destruct (castObjectId (Some x)) as [[| |i]|];
      first [apply silent_ret | apply silent_throw].
  - intros p. apply silent_bind; [apply silent_get_db|]. intros st.
    destruct (remove_first p (collection st)) as [r l].
    apply silent_bind; [apply silent_put_db|]. intros _. apply silent_ret.
Qed.
End queries.
End answers.

Ltac silent_tac :=
  repeat first
    [ progress cbv zeta
    | apply silent_ret | apply silent_throw | apply silent_get_db
    | apply silent_findById | apply silent_find_refs | apply silent_find_all
    | apply silent_save | apply silent_findByIdAndUpdate
    | apply silent_findByIdAndRemove
    | apply silent_fmap
    | apply silent_bind; [|intros ?]
    | match goal with
      | |- silent (match ?x with _ => _ end) => destruct x
      end ].

Ltac once_tac :=
  repeat first
    [ progress cbv zeta
    | apply once_send | apply once_throw
    | apply once_bind; [solve [silent_tac] | intros ?]
    | match goal with
      | |- answers_once (match ?x with _ => _ end) => destruct x
      end ].

(** The home page shows the five counts and writes nothing. *)
Lemma index_run req w :
  let n := index_counts (db w) in
  index req w
  = respond (Render "index"
               [("title", LString "Local Library Home");
                ("book_count", LNumber (book_count n));
                ("book_instance_count", LNumber (book_instance_count n));
                ("book_instance_available_count",
                 LNumber (book_instance_available_count n));
                ("author_count", LNumber (author_count n));
                ("genre_count", LNumber (genre_count n))]) w.
Proof.
  assert (∀ A (l : list A), List.filter (λ _, true) l = l) as E.
  { intros A l. induction l as [|x l IH]; [done|]. cbn. by rewrite IH. }
  unfold index, asyncHandler, countDocuments, mbind, M_bind, mret, M_ret, get_db.
  cbn [db]. by rewrite !E.
Qed.

(** X26. Every handler of the three controllers (the home page included)
    but the three confirm-delete pages and the delete of a copy answers a
    request exactly once, whatever the request and the store: one call of
    [res.render], [res.redirect] or [next], an exception passed on by
    [asyncHandler] included. *)
Theorem X26_handlers_answer_exactly_once `{DateLib} (sch : BookInstance.schema)
    (oid : ObjectId) (req : request) (w : world) :
  Forall (λ handler : world → world, ∃ a, sent (handler w) = (sent w ++ [a])%list)
    [ author_list req; author_detail req; author_create_get req;
      author_create_post oid req; author_delete_post req; author_update_get req;
      author_update_post oid req;
      index req; book_list req; book_detail sch req; book_create_get req;
      book_create_post oid req; book_delete_post sch req; book_update_get req;
      book_update_post oid req;
      bookinstance_list sch req; bookinstance_detail sch req;
      bookinstance_create_get req; bookinstance_create_post sch oid req;
      bookinstance_update_get sch req; bookinstance_update_post sch oid req ].
Proof.
  unfold author_list, author_detail, author_create_get, author_create_post,
    author_delete_post, author_update_get, author_update_post, index, book_list,
    book_detail, book_create_get, book_create_post, book_delete_post,
    book_update_get, book_update_post, bookinstance_list, bookinstance_detail,
    bookinstance_create_get, bookinstance_create_post, bookinstance_update_get,
    bookinstance_update_post.
  repeat (apply Forall_cons_2;
          [ try (by eexists);
            try match goal with
                | |- context [run_middlewares ?ms req] =>
                    destruct (run_middlewares ms req) as [r errors]
                end;
            apply once_asyncHandler;
            unfold bookinstance_form, book_form, null_property, undefined_property,
              countDocuments, redirect, render, next;
            once_tac
          | ]).
  apply Forall_nil_2.
Qed.

(** * The claims *)

Section natural_keys.
Context `{DateLib}.
Import express_validator.

(** The conditions of the two searches, on the values the chains leave. *)
Lemma name_is_has_name first family a :
  name_is (Some (SStr first)) (Some (SStr family)) a
  = bool_decide (has_name first family a).
Proof.
  unfold name_is, string_is, has_name. cbn [castString].
  rewrite <-bool_decide_and. apply bool_decide_ext. done.
Qed.

Lemma title_is_has_title title b :
  title_is (Some (SStr title)) b = bool_decide (has_title title b).
Proof. unfold title_is, string_is, has_title. cbn [castString]. done. Qed.

Lemma find_first {A} (p : A → bool) l x :
  x ∈ l → p x = true → ∃ y, List.find p l = Some y.
Proof.
  induction l as [|z l IH]; [by intros ?%elem_of_nil|].
  intros [->|Hx]%elem_of_cons Hp; cbn [List.find].
  - rewrite Hp. by eexists.
  - destruct (p z); [by eexists | by apply IH].
Qed.

Lemma not_used {D} {model : Model D} i (l : list D) :
  i ∉ id_of <$> l → existsb (has_id i) l = false.
Proof.
  induction l as [|d l IH]; [done|]. rewrite fmap_cons.
  intros [Hd Hl]%not_elem_of_cons. cbn [existsb]. rewrite (IH Hl), orb_false_r.
  apply bool_decide_eq_false. congruence.
Qed.

Lemma none_named first family l :
  Forall (λ a, ¬ has_name first family a) l →
  List.find (name_is (Some (SStr first)) (Some (SStr family))) l = None.
Proof.
  intros Hnew. apply find_filter_nil. induction Hnew as [|x l Hx Hl IH]; [done|].
  cbn [List.filter]. rewrite name_is_has_name, bool_decide_eq_false_2 by done.
  exact IH.
Qed.

(** The names the chains of an accepted author form leave in the body are
    the trimmed names of the form. *)
Lemma author_chains_names req :
  validationResult author_chains req = [] →
  body (sanitized author_chains req) !! "first_name"
  = Some (SStr (validator.trim (toString (body req !! "first_name"))))
  ∧ body (sanitized author_chains req) !! "family_name"
    = Some (SStr (validator.trim (toString (body req !! "family_name")))).
Proof.
  intros Hv. pose proof Hv as Hn.
  rewrite author_chains_errors, !app_nil, !name_errors_nil in Hn.
  destruct Hn as ((_ & _ & Ha1) & (_ & _ & Ha2) & _).
  unfold sanitized. destruct req as [p b g].
  destruct (author_chains_run p b g) as (b' & es & -> & H1 & H2 & _).
  cbn [fst body] in *.
  by rewrite H1, H2, (escape_of_alnum _ Ha1), (escape_of_alnum _ Ha2).
Qed.

(** An accepted author form whose trimmed names no stored author has, with
    an identifier that is not in use: the author is appended. *)
Lemma author_create_post_stored oid req w :
  let first := validator.trim (toString (body req !! "first_name")) in
  let family := validator.trim (toString (body req !! "family_name")) in
  let san := sanitized author_chains req in
  let a := doc (Author.new oid None (Some (SStr first)) (Some (SStr family))
                  (body san !! "date_of_birth") (body san !! "date_of_death")) in
  validationResult author_chains req = [] →
  Forall (λ a, ¬ has_name first family a) (authors (db w)) →
  oid ∉ Author._id <$> authors (db w) →
  author_create_post oid req w
  = respond (Redirect ("/catalog/author/" +:+ oid))
      (with_db (set_collection (Model := AuthorModel) (authors (db w) ++ [a])%list
                  (db w)) w)
  ∧ has_name first family a ∧ Author._id a = oid.
Proof.
  intros first family san a Hv Hnew Hfresh.
  pose proof (author_create_post_valid oid req w Hv) as E. cbv zeta in E.
  destruct (author_chains_names req Hv) as [E1 E2].
  rewrite E1, E2 in E. fold first family san in E.
  rewrite (none_named first family _ Hnew), (not_used (model := AuthorModel) oid _ Hfresh) in E.
  assert (Author._id a = oid ∧ has_name first family a) as [Hid Hn].
  { unfold a. rewrite Author_new_doc. by split. }
  split_and!; [|done..]. rewrite E. fold a. unfold Author.url. by rewrite Hid.
Qed.

(** An accepted author form whose trimmed names a stored author has, and no
    author before it in the store: the redirect goes to that author. *)
Lemma author_create_post_known oid req w l a :
  let first := validator.trim (toString (body req !! "first_name")) in
  let family := validator.trim (toString (body req !! "family_name")) in
  validationResult author_chains req = [] →
  authors (db w) = (l ++ [a])%list →
  Forall (λ a, ¬ has_name first family a) l →
  has_name first family a →
  author_create_post oid req w = respond (Redirect (Author.url a)) w.
Proof.
  intros first family Hv Hl Hnew Ha.
  pose proof (author_create_post_valid oid req w Hv) as E. cbv zeta in E.
  destruct (author_chains_names req Hv) as [E1 E2].
  rewrite E1, E2 in E. fold first family in E.
  rewrite Hl, (find_app_new _ l a) in E; [done| |].
  - by apply none_named.
  - rewrite name_is_has_name. by apply bool_decide_eq_true.
Qed.

(** An accepted book form whose escaped title a stored book has: the
    redirect goes to a stored book with that title. *)
Lemma book_create_post_known oid req w b :
  let title := validator.escape (validator.trim (toString (body req !! "title"))) in
  validationResult book_create_chains req = [] →
  b ∈ books (db w) → has_title title b →
  ∃ b', b' ∈ books (db w) ∧ has_title title b'
        ∧ book_create_post oid req w = respond (Redirect (Book.url b')) w.
Proof.
  intros title Hv Hb Ht.
  assert (body (sanitized book_create_chains req) !! "title" = Some (SStr title))
    as E.
  { unfold sanitized, book_create_chains, title. destruct req as [p bd g].
    destruct (book_chains_run "ISBN must not be empty."
                (Some "Genre must not be empty.") p bd g) as (b' & -> & H1 & _).
    exact H1. }
  destruct (find_first (title_is (Some (SStr title))) (books (db w)) b Hb)
    as [b' Hf].
  { rewrite title_is_has_title. by apply bool_decide_eq_true. }
  exists b'. pose proof (find_some _ _ Hf) as [Hin Hp].
  rewrite title_is_has_title in Hp. apply bool_decide_eq_true in Hp.
  split_and!; [by apply list_elem_of_In | done |].
  apply book_create_existing; [done|]. by rewrite E.
Qed.
End natural_keys.

(** C1, as stated, fails: the searches are made with the sanitized values,
    not with the values of the form.  A book is stored under the title R&D;
    a valid form with the title R&D is searched as R&amp;D, finds nothing,
    and a second book is stored.  A book is stored under the title Notes
    between spaces; a valid form with that very title is searched as Notes,
    finds nothing, and a second book is stored.  And a valid author form with
    the first name Alice between spaces, a name pair no stored author has,
    leaves no author with that pair after two submissions: both are
    redirected to the stored Alice Munro. *)
Lemma C1_searched_as_sanitized :
  let book_form title := Examples.request_of ""
    [("title", title); ("author", Archive.id_zed); ("summary", "Reports");
     ("isbn", "0000000002")] None in
  let created title :=
    book_create_post (H := SimpleDates.lib) Examples.id_new (book_form title)
      Archive.w0 in
  let areq := Examples.request_of ""
    [("first_name", " Alice "); ("family_name", "Munro")] None in
  let w1 := author_create_post (H := SimpleDates.lib) Examples.id_new areq
              Examples.w0 in
  let w2 := author_create_post (H := SimpleDates.lib) Examples.id_other areq w1 in
  (validationResult (book_create_chains (H := SimpleDates.lib)) (book_form "R&D") = []
   ∧ body (book_form "R&D") !! "title" = Some (SStr "R&D")
   ∧ Archive.rnd ∈ books (db Archive.w0) ∧ has_title "R&D" Archive.rnd
   ∧ (∃ b, books (db (created "R&D")) = [Archive.rnd; Archive.notes; b]
           ∧ has_title "R&amp;D" b)
   ∧ sent (created "R&D") = [Redirect ("/catalog/book/" +:+ Examples.id_new)])
  ∧ (validationResult (book_create_chains (H := SimpleDates.lib)) (book_form " Notes ")
     = []
     ∧ body (book_form " Notes ") !! "title" = Some (SStr " Notes ")
     ∧ Archive.notes ∈ books (db Archive.w0) ∧ has_title " Notes " Archive.notes
     ∧ (∃ b, books (db (created " Notes ")) = [Archive.rnd; Archive.notes; b]
             ∧ has_title "Notes" b)
     ∧ sent (created " Notes ") = [Redirect ("/catalog/book/" +:+ Examples.id_new)])
  ∧ (validationResult (author_chains (H := SimpleDates.lib)) areq = []
     ∧ Forall (λ a, ¬ has_name " Alice " "Munro" a) (authors (db Examples.w0))
     ∧ authors (db w2) = authors (db Examples.w0)
     ∧ filter (has_name " Alice " "Munro") (authors (db w2)) = []
     ∧ sent w2 = [Redirect (Author.url Examples.munro);
                  Redirect (Author.url Examples.munro)]).
Proof.
  refine (conj _ (conj _ _)); split_and!; try reflexivity.
  - apply list_elem_of_here.
  - eexists. split; reflexivity.
  - apply list_elem_of_further, list_elem_of_here.
  - eexists. split; reflexivity.
  - repeat constructor; intros [Hf _]; discriminate.
Qed.

(** C1, amended. A valid author form whose trimmed first and family name no
    stored author has, submitted twice (the identifier generated for the
    first submission not being in use): the first submission appends one
    author with those names, the second appends none, so that exactly one
    stored author has that name pair, and both submissions redirect to the
    same URL, the one of the author the first submission created.  Likewise
    a valid book form whose trimmed and escaped title a stored book has
    redirects to a stored book with that title and leaves the store as it
    was. *)
Theorem C1_create_deduplicates `{DateLib}
    (oid1 oid2 : ObjectId) (req : request) (w : world)
    (oid : ObjectId) (breq : request) (bw : world) (b : Book.t) :
  let first := validator.trim (express_validator.toString (body req !! "first_name")) in
  let family :=
    validator.trim (express_validator.toString (body req !! "family_name")) in
  let title :=
    validator.escape
      (validator.trim (express_validator.toString (body breq !! "title"))) in
  validationResult author_chains req = [] →
  Forall (λ a, ¬ has_name first family a) (authors (db w)) →
  oid1 ∉ Author._id <$> authors (db w) →
  validationResult book_create_chains breq = [] →
  b ∈ books (db bw) →
  has_title title b →
  let w1 := author_create_post oid1 req w in
  let w2 := author_create_post oid2 req w1 in
  (∃ a, authors (db w1) = (authors (db w) ++ [a])%list
        ∧ authors (db w2) = authors (db w1)
        ∧ has_name first family a ∧ Author._id a = oid1)
  ∧ length (filter (has_name first family) (authors (db w2))) = 1
  ∧ sent w1 = (sent w ++ [Redirect ("/catalog/author/" +:+ oid1)])%list
  ∧ sent w2 = (sent w1 ++ [Redirect ("/catalog/author/" +:+ oid1)])%list
  ∧ ∃ b', b' ∈ books (db bw) ∧ has_title title b'
          ∧ book_create_post oid breq bw = respond (Redirect (Book.url b')) bw
          ∧ db (book_create_post oid breq bw) = db bw.
Proof.
  intros first family title Hv Hnew Hfresh Hbv Hb Ht w1 w2.
  destruct (author_create_post_stored oid1 req w Hv Hnew Hfresh) as (E1 & Hn & Hid).
  fold first family in E1, Hn, Hid.
  set (a := doc (Author.new oid1 None _ _ _ _)) in *.
  assert (authors (db w1) = (authors (db w) ++ [a])%list) as Hw1
    by (subst w1; by rewrite E1).
  pose proof (author_create_post_known oid2 req w1 (authors (db w)) a Hv Hw1 Hnew Hn)
    as E2. fold w2 in E2.
  assert (filter (has_name first family) (authors (db w)) = []) as Hnone.
  { clear -Hnew. induction Hnew as [|x l Hx Hl IH]; [done|].
    by rewrite filter_cons_False. }
  split_and!.
  - exists a. split_and!; [done | by rewrite E2 | done..].
  - rewrite E2. cbn [respond db]. rewrite Hw1, filter_app, Hnone.
    by rewrite filter_cons_True.
  - subst w1. by rewrite E1.
  - rewrite E2. unfold Author.url. by rewrite Hid.
  - destruct (book_create_post_known oid breq bw b Hbv Hb Ht) as (b' & Hin & Hb' & E).
    exists b'. split_and!; [done..|]. by rewrite E.
Qed.

Lemma C1_witness :
  let req := Examples.request_of ""
    [("first_name", " Lydia "); ("family_name", "Davis"); ("date_of_birth", "1947-07-15")]
    None in
  let breq := Examples.request_of ""
    [("title", " Runaway"); ("author", Examples.id_munro); ("summary", "s"); ("isbn", "1")]
    None in
  let w1 := author_create_post (H := SimpleDates.lib) Examples.id_new req Examples.w0 in
  let w2 := author_create_post (H := SimpleDates.lib) Examples.id_other req w1 in
  length (filter (has_name "Lydia" "Davis") (authors (db w2))) = 1
  ∧ sent w1 = [Redirect "/catalog/author/5f8d0a1b2c3d4e5f607182aa"]
  ∧ sent w2 = [Redirect "/catalog/author/5f8d0a1b2c3d4e5f607182aa";
               Redirect "/catalog/author/5f8d0a1b2c3d4e5f607182aa"]
  ∧ book_create_post (H := SimpleDates.lib) Examples.id_new breq Examples.w0
    = respond (Redirect "/catalog/book/5f8d0a1b2c3d4e5f60718211") Examples.w0.
Proof.
  intros req breq w1 w2.
  destruct (C1_create_deduplicates (H := SimpleDates.lib) Examples.id_new
              Examples.id_other req Examples.w0 Examples.id_new breq Examples.w0
              Examples.runaway) as (_ & Hc & H1 & H2 & b' & _ & _ & Hb & _).
  - reflexivity.
  - repeat constructor; intros [Hf _]; discriminate.
  - apply (bool_decide_unpack _). vm_compute. exact I.
  - reflexivity.
  - apply list_elem_of_here.
  - reflexivity.
  - split_and!; [exact Hc | exact H1 | exact H2 | reflexivity].
Defined.

(** C2, as stated, fails: an identifier that is no ObjectId matches no stored
    record, and the author detail page then hands a cast error without
    status to [next], not an error with status 404. *)
Lemma C2_malformed_identifier :
  Forall (λ a, Author._id a ≠ "abc") (authors (db Examples.w0))
  ∧ author_detail (Examples.request_of "abc" [] None) Examples.w0
    = respond (Next (Err.CastError "ObjectId" "_id")) Examples.w0
  ∧ ¬ signals_not_found Examples.w0
        (author_detail (Examples.request_of "abc" [] None) Examples.w0).
Proof.
  split_and!.
  - repeat constructor; discriminate.
  - reflexivity.
  - intros (e & Hs & He). vm_compute in Hs. by simplify_eq.
Qed.

(** C2, amended. No detail request (author, book, copy) writes to the store,
    whatever its identifier.  For a detail request whose identifier is an
    ObjectId that no stored record has, the handler hands an error with
    status 404 to [next]. *)
Theorem C2_detail_not_found (sch : BookInstance.schema) (req : request)
    (w : world) :
  (db (author_detail req w) = db w
   ∧ db (book_detail sch req w) = db w
   ∧ db (bookinstance_detail sch req w) = db w)
  ∧ ∀ i : ObjectId,
      ObjectId.ofString (params_id req) = Some i →
      (stored (D := Author.t) i (db w) = None →
       signals_not_found w (author_detail req w))
      ∧ (stored (D := Book.t) i (db w) = None →
         signals_not_found w (book_detail sch req w))
      ∧ (stored (model := BookInstanceModel sch) i (db w) = None →
         signals_not_found w (bookinstance_detail sch req w)).
Proof.
  split; [apply (detail_reads_only sch)|]. intros i Hi. split_and!.
  - intros Hn. rewrite (author_detail_missing req w i Hi Hn). by eexists.
  - intros Hn. rewrite (book_detail_missing sch req w i Hi Hn). by eexists.
  - intros Hn. rewrite (bookinstance_detail_missing sch req w i Hi Hn). by eexists.
Qed.

Lemma C2_witness :
  let req := Examples.request_of Examples.id_unknown [] None in
  let bad := Examples.request_of "abc" [] None in
  signals_not_found Examples.w0 (author_detail req Examples.w0)
  ∧ signals_not_found Examples.w0 (book_detail Examples.sch req Examples.w0)
  ∧ signals_not_found Examples.w0 (bookinstance_detail Examples.sch req Examples.w0)
  ∧ db (author_detail req Examples.w0) = Examples.library
  ∧ db (author_detail bad Examples.w0) = Examples.library.
Proof.
  intros req bad.
  destruct (C2_detail_not_found Examples.sch req Examples.w0) as [(Hd & _) Hf].
  destruct (Hf Examples.id_unknown) as (Ha & Hb & Hc); [reflexivity|].
  destruct (C2_detail_not_found Examples.sch bad Examples.w0) as [(He & _) _].
  split_and!; [apply Ha | apply Hb | apply Hc | exact Hd | exact He]; reflexivity.
Defined.

(** C3. A delete POST on a stored author that at least one book references
    leaves the store as it was and answers with the page the confirm-delete
    GET renders for the same request: the author with the books found.
    Likewise for a stored book that at least one copy references. *)
Theorem C3_delete_refused_with_dependents `{DateLib} (sch : BookInstance.schema)
    (req : request) (w : world) (i : ObjectId) (a : Author.t)
    (breq : request) (bw : world) (j : ObjectId) (b : Book.t) :
  ObjectId.ofString (params_id req) = Some i →
  stored (D := Author.t) i (db w) = Some a →
  books_of i (db w) ≠ [] →
  ObjectId.ofString (params_id breq) = Some j →
  stored (D := Book.t) j (db bw) = Some b →
  instances_of j (db bw) ≠ [] →
  (db (author_delete_post req w) = db w
   ∧ author_delete_post req w = author_delete_get req w
   ∧ sent (author_delete_post req w)
     = (sent w ++ [author_delete_page (Some a) (books_of i (db w))])%list)
  ∧ (db (book_delete_post sch breq bw) = db bw
     ∧ book_delete_post sch breq bw = book_delete_get sch breq bw
     ∧ sent (book_delete_post sch breq bw)
       = (sent bw ++ [book_delete_page (Some b) (instances_of j (db bw))])%list).
Proof.
  intros Hi Ha Hd Hj Hb Hc.
  destruct (author_delete_refused req w i a Hi Ha Hd) as [E1 E2].
  destruct (book_delete_refused sch breq bw j b Hj Hb Hc) as [E3 E4].
  rewrite E1, E2, E3, E4. done.
Qed.

Lemma C3_witness :
  let req := Examples.request_of Examples.id_munro [("authorid", Examples.id_munro)] None in
  let breq := Examples.request_of Examples.id_runaway [("bookid", Examples.id_runaway)] None in
  (db (author_delete_post (H := SimpleDates.lib) req Examples.w0) = Examples.library
   ∧ author_delete_post (H := SimpleDates.lib) req Examples.w0
     = author_delete_get req Examples.w0
   ∧ sent (author_delete_post (H := SimpleDates.lib) req Examples.w0)
     = [author_delete_page (Some Examples.munro) [Examples.runaway]])
  ∧ (db (book_delete_post (H := SimpleDates.lib) Examples.sch breq Examples.w0)
     = Examples.library
     ∧ book_delete_post (H := SimpleDates.lib) Examples.sch breq Examples.w0
       = book_delete_get Examples.sch breq Examples.w0
     ∧ sent (book_delete_post (H := SimpleDates.lib) Examples.sch breq Examples.w0)
       = [book_delete_page (Some Examples.runaway) [Examples.copy1]]).
Proof.
  intros req breq.
  apply (C3_delete_refused_with_dependents (H := SimpleDates.lib) Examples.sch
           req Examples.w0 Examples.id_munro Examples.munro
           breq Examples.w0 Examples.id_runaway Examples.runaway);
    vm_compute; first [reflexivity | discriminate].
Defined.

(** C4. The first middleware of the book create and update routes, which
    runs before every validation chain, turns a missing genre into the empty
    list and a single value into the list of that value, and leaves a list as
    it is; nothing else of the request changes.  What the chains then leave in
    the body is that list with every element escaped. *)
Theorem C4_genre_normalized `{DateLib} (p : string) (b : gmap string scalar)
    (g : string) (l : list scalar) (es : list express_validator.error)
    (isbn_msg : string) (genre_msg : option string) (req : request) :
  genre_to_array ({| params_id := p; body := b; body_genre := None |}, es)
  = ({| params_id := p; body := b; body_genre := Some (Many []) |}, es)
  ∧ genre_to_array ({| params_id := p; body := b; body_genre := Some (One (SStr g)) |}, es)
    = ({| params_id := p; body := b; body_genre := Some (Many [SStr g]) |}, es)
  ∧ genre_to_array ({| params_id := p; body := b; body_genre := Some (Many l) |}, es)
    = ({| params_id := p; body := b; body_genre := Some (Many l) |}, es)
  ∧ (∃ chains,
       book_create_chains = genre_to_array :: chains
       ∧ run_middlewares book_create_chains req
         = fold_left (λ acc m, m acc) chains (genre_to_array (req, [])))
  ∧ (∃ chains,
       book_update_chains = genre_to_array :: chains
       ∧ run_middlewares book_update_chains req
         = fold_left (λ acc m, m acc) chains (genre_to_array (req, [])))
  ∧ body_genre (sanitized book_create_chains req)
    = Some (Many ((λ x, SStr (validator.escape (express_validator.toString (Some x))))
                    <$> genre_list (body_genre req)))
  ∧ body_genre (sanitized book_update_chains req)
    = Some (Many ((λ x, SStr (validator.escape (express_validator.toString (Some x))))
                    <$> genre_list (body_genre req))).
Proof.
  split_and!; [reflexivity..| | | |].
  - eexists; split; reflexivity.
  - eexists; split; reflexivity.
  - apply book_chains_genre.
  - apply book_chains_genre.
Qed.

Section date_paths.
Context `{DateLib}.
Variable sch : BookInstance.schema.
Import express_validator.

(** What the two date chains of the author form leave in the body. *)
Lemma author_chains_date_fields req :
  let after v := if falsy v then v else Some (toDate (toString v)) in
  body (sanitized author_chains req) !! "date_of_birth"
  = after (body req !! "date_of_birth")
  ∧ body (sanitized author_chains req) !! "date_of_death"
    = after (body req !! "date_of_death").
Proof.
  destruct req as [p b g]. unfold sanitized, run_middlewares, author_chains.
  cbn [fold_left body]. rewrite !name_chain_run. cbn [app]. cbv zeta.
  assert (∀ x, <["first_name":=x]> b !! "family_name" = b !! "family_name") as E.
  { intros x. by rewrite lookup_insert_ne. }
  rewrite !E.
  set (b1 := <["family_name":=_]> _).
  assert (b1 !! "date_of_birth" = b !! "date_of_birth") as E1.
  { unfold b1. by rewrite !lookup_insert_ne. }
  assert (b1 !! "date_of_death" = b !! "date_of_death") as E2.
  { unfold b1. by rewrite !lookup_insert_ne. }
  rewrite date_chain_run, E1.
  destruct (falsy (b !! "date_of_birth")) eqn:F1; rewrite date_chain_run.
  - rewrite E2. destruct (falsy (b !! "date_of_death")); cbn [fst body].
    + by rewrite E1, E2.
    + rewrite lookup_insert_ne, lookup_insert_eq, E1 by done. done.
  - rewrite lookup_insert_ne, E2 by done.
    destruct (falsy (b !! "date_of_death")); cbn [fst body].
    + rewrite lookup_insert_eq, lookup_insert_ne, E2 by done. done.
    + rewrite lookup_insert_ne, !lookup_insert_eq by done. done.
Qed.

Lemma castDate_toDate s :
  castDate (Some (toDate s))
  = CastOk (match Date_parse s with Some t => Val t | None => Null end).
Proof. unfold toDate. by destruct (Date_parse s). Qed.

(** A date path without default, from the raw value of its field. *)
Lemma date_path_stored p v :
  stored_date v
    (set_path p (castDate (if falsy v then v else Some (toDate (toString v))))
       Undefined).1.
Proof.
  split.
  - intros Hf. rewrite Hf.
    by destruct (castDate_falsy v Hf) as [-> | ->].
  - intros s -> Hs. destruct s as [|c s]; [done|]. cbn [falsy toString].
    rewrite castDate_toDate. by destruct (Date_parse _).
Qed.

(** The author a valid create form stores, and its two dates. *)
Lemma author_create_stores_dates oid req w :
  let first := validator.trim (toString (body req !! "first_name")) in
  let family := validator.trim (toString (body req !! "family_name")) in
  validationResult author_chains req = [] →
  Forall (λ a, ¬ has_name first family a) (authors (db w)) →
  oid ∉ Author._id <$> authors (db w) →
  ∃ a, authors (db (author_create_post oid req w)) = (authors (db w) ++ [a])%list
       ∧ stored_date (body req !! "date_of_birth") (Author.date_of_birth a)
       ∧ stored_date (body req !! "date_of_death") (Author.date_of_death a).
Proof.
  intros first family Hv Hnew Hfresh.
  destruct (author_create_post_stored oid req w Hv Hnew Hfresh) as (-> & _).
  eexists. split; [reflexivity|]. rewrite Author_new_doc.
  cbn [Author.date_of_birth Author.date_of_death].
  destruct (author_chains_date_fields req) as [-> ->].
  split; apply date_path_stored.
Qed.

(** The copy a valid create form stores, and its due date. *)
Lemma bookinstance_create_due_date oid req w :
  let req' := sanitized bookinstance_chains req in
  let c := BookInstance.new sch oid None (body req' !! "book")
             (body req' !! "imprint") (body req' !! "status")
             (body req' !! "due_back") in
  validationResult bookinstance_chains req = [] →
  BookInstance.validate sch c = [] →
  existsb (has_id (model := BookInstanceModel sch) (BookInstance._id (doc c)))
    (bookinstances (db w)) = false →
  ∃ d, bookinstances (db (bookinstance_create_post sch oid req w))
       = (bookinstances (db w) ++ [d])%list
       ∧ (body req !! "due_back" = Some (SStr "") →
          absent (BookInstance.due_back d))
       ∧ (body req !! "due_back" = None →
          BookInstance.due_back d = Val (BookInstance.due_back_default sch))
       ∧ (∀ s, body req !! "due_back" = Some (SStr s) → s ≠ "" →
               BookInstance.due_back d
               = match Date_parse s with Some t => Val t | None => Null end).
Proof.
  intros req' c Hv Hval Hfresh.
  rewrite (bookinstance_create_post_valid sch oid req w Hv Hval Hfresh).
  eexists. split; [reflexivity|]. fold req' c. subst c.
  rewrite BookInstance_new_due_back. subst req'.
  assert (body (sanitized bookinstance_chains req) !! "due_back"
          = if falsy (body req !! "due_back") then body req !! "due_back"
            else Some (toDate (toString (body req !! "due_back")))) as ->.
  { unfold sanitized. destruct req as [p b g].
    destruct (bookinstance_chains_run p b g) as (b' & -> & _ & _ & _ & Hd).
    exact Hd. }
  split_and!.
  - intros ->. done.
  - intros ->. done.
  - intros s -> Hs. destruct s as [|a s]; [done|]. cbn [falsy toString].
    rewrite castDate_toDate. by destruct (Date_parse _).
Qed.
End date_paths.

(** C5, as stated, fails twice.  For [due_back]: a copy created from a form
    without that field passes validation and is stored with a due date, the
    default of the schema, not without one.  And a value that is accepted as
    ISO 8601 need not be converted to a date: with a validator that accepts
    week dates and a [Date.parse] that does not read them, the author form
    with the date of birth 2024-W05 passes validation and the author is
    stored with a null date of birth. *)
Lemma C5_dates_not_as_stated :
  let req := Examples.request_of ""
    [("book", Examples.id_runaway); ("imprint", "Vintage"); ("status", "Available")]
    None in
  let areq := Examples.request_of ""
    [("first_name", "Lydia"); ("family_name", "Davis"); ("date_of_birth", "2024-W05")]
    None in
  (falsy (body req !! "due_back") = true
   ∧ validationResult (bookinstance_chains (H := SimpleDates.lib)) req = []
   ∧ ∃ d, bookinstances
            (db (bookinstance_create_post (H := SimpleDates.lib) Examples.sch
                   Examples.id_new req Examples.w0))
          = [Examples.copy1; Examples.copy2; d]
          ∧ ¬ absent (BookInstance.due_back d))
  ∧ (isISO8601 (DateLib := WeekDates.lib) "2024-W05" = true
     ∧ Date_parse (DateLib := WeekDates.lib) "2024-W05" = None
     ∧ validationResult (author_chains (H := WeekDates.lib)) areq = []
     ∧ ∃ a, authors (db (author_create_post (H := WeekDates.lib) Examples.id_new areq
                           Examples.w0))
            = [Examples.munro; Examples.carver; Examples.paley; a]
            ∧ Author.date_of_birth a = Null).
Proof.
  split; split_and!; try reflexivity.
  - eexists. split; [vm_compute; reflexivity|]. discriminate.
  - eexists. split; vm_compute; reflexivity.
Qed.

(** C5, amended. For every date field and every form: a falsy value passes
    its chain with no failure and stays as it is; the date paths of an author
    built from a falsy value hold no value; the [due_back] path of a copy
    holds no value when the field is empty or null and the default of the
    schema when the field is missing.  A non-empty string that [isISO8601]
    rejects adds exactly one failure, tagged with the field.  A non-empty
    string that [isISO8601] accepts adds no failure and is replaced by the
    result of [toDate]: the date [Date.parse] reads from it, which is then the
    value of the path, or null when [Date.parse] reads none, and then the
    path holds null.  The author and the copy a valid create form stores have
    their date paths as said: for each date field on its own, no value for a
    falsy field (the default for a missing [due_back]), and for a non-empty
    field the date [Date.parse] reads, or null. *)
Theorem C5_date_fields `{DateLib} (f : string) (m : option string)
    (req : request) (es : list express_validator.error) (s : string) (t : Z)
    (sch : BookInstance.schema) (oid : ObjectId) (id : option string)
    (x1 x2 x3 v v' : option scalar) (w : world) :
  let first := validator.trim (express_validator.toString (body req !! "first_name")) in
  let family :=
    validator.trim (express_validator.toString (body req !! "family_name")) in
  let creq := sanitized bookinstance_chains req in
  let copy :=
    BookInstance.new sch oid None (body creq !! "book") (body creq !! "imprint")
      (body creq !! "status") (body creq !! "due_back") in
  (falsy (body req !! f) = true → date_chain f m (req, es) = (req, es))
  ∧ (falsy v = true →
     absent (Author.date_of_birth (doc (Author.new oid id x1 x2 v v')))
     ∧ absent (Author.date_of_death (doc (Author.new oid id x1 x2 v' v))))
  ∧ (v = Some (SStr "") ∨ v = Some SNull →
     absent (BookInstance.due_back (doc (BookInstance.new sch oid id x1 x2 x3 v))))
  ∧ BookInstance.due_back (doc (BookInstance.new sch oid id x1 x2 x3 None))
    = Val (BookInstance.due_back_default sch)
  ∧ (validationResult author_chains req = [] →
     Forall (λ a, ¬ has_name first family a) (authors (db w)) →
     oid ∉ Author._id <$> authors (db w) →
     ∃ a, authors (db (author_create_post oid req w)) = (authors (db w) ++ [a])%list
          ∧ stored_date (body req !! "date_of_birth") (Author.date_of_birth a)
          ∧ stored_date (body req !! "date_of_death") (Author.date_of_death a))
  ∧ (validationResult bookinstance_chains req = [] →
     BookInstance.validate sch copy = [] →
     existsb (has_id (model := BookInstanceModel sch) (BookInstance._id (doc copy)))
       (bookinstances (db w)) = false →
     ∃ d, bookinstances (db (bookinstance_create_post sch oid req w))
          = (bookinstances (db w) ++ [d])%list
          ∧ (body req !! "due_back" = Some (SStr "") →
             absent (BookInstance.due_back d))
          ∧ (body req !! "due_back" = None →
             BookInstance.due_back d = Val (BookInstance.due_back_default sch))
          ∧ (∀ s, body req !! "due_back" = Some (SStr s) → s ≠ "" →
                  BookInstance.due_back d
                  = match Date_parse s with Some t => Val t | None => Null end))
  ∧ (body req !! f = Some (SStr s) → s ≠ "" → isISO8601 s = false →
     (date_chain f m (req, es)).2
     = (es ++ [err f (default "Invalid value" m)])%list)
  ∧ (body req !! f = Some (SStr s) → s ≠ "" → isISO8601 s = true →
     (date_chain f m (req, es)).2 = es
     ∧ body (date_chain f m (req, es)).1 !! f = Some (express_validator.toDate s)
     ∧ (Date_parse s = Some t →
        express_validator.toDate s = SDate t
        ∧ castDate (Some (express_validator.toDate s)) = CastOk (Val t))
     ∧ (Date_parse s = None →
        express_validator.toDate s = SNull
        ∧ castDate (Some (express_validator.toDate s)) = CastOk Null)).
Proof.
  intros first family creq copy. split_and!.
  - destruct req as [p b g]. cbn [body]. rewrite date_chain_run. by intros ->.
  - intros Hv. split; by apply Author_new_absent.
  - intros Hv. rewrite BookInstance_new_due_back. by destruct Hv as [-> | ->].
  - by rewrite BookInstance_new_due_back.
  - apply author_create_stores_dates.
  - apply bookinstance_create_due_date.
  - destruct req as [p b g]. cbn [body]. rewrite date_chain_run.
    intros -> Hs Hi. destruct s; [done|]. cbn. by rewrite Hi.
  - destruct req as [p b g]. cbn [body]. rewrite date_chain_run.
    intros -> Hs Hi. destruct s as [|c s]; [done|]. cbn.
    rewrite Hi, app_nil_r, lookup_insert_eq. split_and!; [done..| |].
    + intros Ht. unfold express_validator.toDate. by rewrite Ht.
    + intros Ht. unfold express_validator.toDate. by rewrite Ht.
Qed.

Lemma C5_witness :
  let req := Examples.request_of ""
    [("date_of_birth", ""); ("date_of_death", "not-a-date"); ("due_back", "2024-02-29")]
    None in
  let areq := Examples.request_of ""
    [("first_name", "Lydia"); ("family_name", "Davis");
     ("date_of_birth", "1947-07-15"); ("date_of_death", "")] None in
  let wreq := Examples.request_of ""
    [("first_name", "Lydia"); ("family_name", "Davis");
     ("date_of_birth", "2024-W05")] None in
  let creq := Examples.request_of ""
    [("book", Examples.id_runaway); ("imprint", "Vintage"); ("status", "Loaned");
     ("due_back", "")] None in
  date_chain (H := SimpleDates.lib) "date_of_birth" None (req, []) = (req, [])
  ∧ absent (Author.date_of_birth
              (doc (Author.new (H := SimpleDates.lib) Examples.id_new None None None
                      (Some (SStr "")) None)))
  ∧ absent (BookInstance.due_back
              (doc (BookInstance.new (H := SimpleDates.lib) Examples.sch Examples.id_new
                      None None None None (Some (SStr "")))))
  ∧ (∃ a, authors (db (author_create_post (H := SimpleDates.lib) Examples.id_new areq
                         Examples.w0))
          = [Examples.munro; Examples.carver; Examples.paley; a]
          ∧ Author.date_of_birth a = Val 724516%Z
          ∧ absent (Author.date_of_death a))
  ∧ (∃ a, authors (db (author_create_post (H := WeekDates.lib) Examples.id_new wreq
                         Examples.w0))
          = [Examples.munro; Examples.carver; Examples.paley; a]
          ∧ Author.date_of_birth a = Null)
  ∧ (∃ d, bookinstances
            (db (bookinstance_create_post (H := SimpleDates.lib) Examples.sch
                   Examples.id_new creq Examples.w0))
          = [Examples.copy1; Examples.copy2; d]
          ∧ absent (BookInstance.due_back d))
  ∧ (date_chain (H := SimpleDates.lib) "date_of_death" None (req, [])).2
    = [err "date_of_death" "Invalid value"]
  ∧ (date_chain (H := SimpleDates.lib) "due_back" (Some "Invalid date") (req, [])).2 = []
  ∧ castDate (H := SimpleDates.lib)
      (Some (express_validator.toDate (H := SimpleDates.lib) "2024-02-29"))
    = CastOk (Val 753019%Z).
Proof.
  intros req areq wreq creq.
  destruct (C5_date_fields (H := SimpleDates.lib) "date_of_birth" None req [] "" 0%Z
              Examples.sch Examples.id_new None None None None (Some (SStr "")) None
              Examples.w0)
    as (Ha & Hb & Hc & _).
  destruct (C5_date_fields (H := SimpleDates.lib) "date_of_birth" None areq [] "" 0%Z
              Examples.sch Examples.id_new None None None None None None Examples.w0)
    as (_ & _ & _ & _ & Hf & _).
  destruct (C5_date_fields (H := WeekDates.lib) "date_of_birth" None wreq [] "" 0%Z
              Examples.sch Examples.id_new None None None None None None Examples.w0)
    as (_ & _ & _ & _ & Hw & _).
  destruct (C5_date_fields (H := SimpleDates.lib) "due_back" None creq [] "" 0%Z
              Examples.sch Examples.id_new None None None None None None Examples.w0)
    as (_ & _ & _ & _ & _ & Hg & _).
  destruct (C5_date_fields (H := SimpleDates.lib) "date_of_death" None req []
              "not-a-date" 0%Z Examples.sch Examples.id_new None None None None None None
              Examples.w0)
    as (_ & _ & _ & _ & _ & _ & Hd & _).
  destruct (C5_date_fields (H := SimpleDates.lib) "due_back" (Some "Invalid date") req []
              "2024-02-29" 753019%Z Examples.sch Examples.id_new None None None None
              None None Examples.w0)
    as (_ & _ & _ & _ & _ & _ & _ & He).
  assert (Forall (λ a, ¬ has_name "Lydia" "Davis" a) (authors Examples.library)) as Hn
    by (repeat constructor; intros [Hx _]; discriminate).
  assert (Examples.id_new ∉ Author._id <$> authors Examples.library) as Hi
    by (apply (bool_decide_unpack _); vm_compute; exact I).
  refine (conj _ (conj _ (conj _ (conj _ (conj _ (conj _ (conj _ (conj _ _)))))))).
  - apply Ha. reflexivity.
  - apply Hb. reflexivity.
  - apply Hc. by left.
  - destruct Hf as (a & Hl & [_ Hb1] & [Hd1 _]); [reflexivity | exact Hn | exact Hi |].
    exists a. split_and!; [exact Hl | | by apply Hd1].
    by apply (Hb1 "1947-07-15").
  - destruct Hw as (a & Hl & [_ Hb1] & _); [reflexivity | exact Hn | exact Hi |].
    exists a. split; [exact Hl|]. by apply (Hb1 "2024-W05").
  - destruct Hg as (d & Hd1 & Hd2 & _); [reflexivity..|].
    exists d. split; [exact Hd1|]. apply Hd2. reflexivity.
  - apply Hd; [reflexivity | discriminate | reflexivity].
  - apply He; [reflexivity | discriminate | reflexivity].
  - apply He; [reflexivity | discriminate | reflexivity | reflexivity].
Defined.

(** C6, as stated, fails: for an identifier that is no ObjectId (and so
    matches no stored record) and a valid form, the overwrite call does not
    give null but throws a cast error, and that error, not the failed access
    to [url], is handed to [next]. *)
Lemma C6_malformed_identifier :
  let req := Examples.request_of "abc"
    [("first_name", "Alice"); ("family_name", "Munro")] None in
  validationResult (author_chains (H := SimpleDates.lib)) req = []
  ∧ Forall (λ a, Author._id a ≠ "abc") (authors (db Examples.w0))
  ∧ (∀ c, findByIdAndUpdate (D := Author.t) "abc" c Examples.w0
          = (Throw (Err.CastError "ObjectId" "_id"), Examples.w0))
  ∧ author_update_post (H := SimpleDates.lib) Examples.id_new req Examples.w0
    = respond (Next (Err.CastError "ObjectId" "_id")) Examples.w0
  ∧ author_update_post (H := SimpleDates.lib) Examples.id_new req Examples.w0
    ≠ respond (Next url_of_null) Examples.w0.
Proof.
  split_and!; [reflexivity| |reflexivity|reflexivity|discriminate].
  repeat constructor; discriminate.
Qed.

(** C6, amended. For an update POST of an author, a book or a copy whose
    identifier is an ObjectId that no stored record has and whose fields pass
    validation: the overwrite call gives null and leaves the store as it was,
    the handler goes on as after a success, the access to [url] of the null
    result throws, and that error, which carries no status, is what [next]
    receives. *)
Theorem C6_update_of_missing_record `{DateLib} (sch : BookInstance.schema)
    (oid : ObjectId) (req : request) (w : world) (i : ObjectId) :
  ObjectId.ofString (params_id req) = Some i →
  (validationResult author_chains req = [] →
   stored (D := Author.t) i (db w) = None →
   (∀ c, findByIdAndUpdate (D := Author.t) (params_id req) c w = (Normal None, w))
   ∧ author_update_post oid req w = respond (Next url_of_null) w)
  ∧ (validationResult book_update_chains req = [] →
     stored (D := Book.t) i (db w) = None →
     (∀ c, findByIdAndUpdate (D := Book.t) (params_id req) c w = (Normal None, w))
     ∧ book_update_post oid req w = respond (Next url_of_null) w)
  ∧ (validationResult bookinstance_chains req = [] →
     stored (model := BookInstanceModel sch) i (db w) = None →
     (∀ c, findByIdAndUpdate (model := BookInstanceModel sch) (params_id req) c w
           = (Normal None, w))
     ∧ bookinstance_update_post sch oid req w = respond (Next url_of_null) w)
  ∧ Err.status url_of_null = None.
Proof.
  intros Hi. split_and!; [| | |done]; intros Hv Hn; split.
  - intros c. by apply (findByIdAndUpdate_missing _ i).
  - by apply (author_update_missing oid req w i).
  - intros c. by apply (findByIdAndUpdate_missing _ i).
  - by apply (book_update_missing oid req w i).
  - intros c. by apply (findByIdAndUpdate_missing (model := BookInstanceModel sch) _ i).
  - by apply (bookinstance_update_missing sch oid req w i).
Qed.

Lemma C6_witness :
  let areq := Examples.request_of Examples.id_unknown
    [("first_name", "Alice"); ("family_name", "Munro")] None in
  let breq := Examples.request_of Examples.id_unknown
    [("title", "T"); ("author", Examples.id_munro); ("summary", "S"); ("isbn", "1")]
    None in
  let creq := Examples.request_of Examples.id_unknown
    [("book", Examples.id_runaway); ("imprint", "Vintage"); ("status", "Loaned")]
    None in
  author_update_post (H := SimpleDates.lib) Examples.id_new areq Examples.w0
  = respond (Next url_of_null) Examples.w0
  ∧ book_update_post (H := SimpleDates.lib) Examples.id_new breq Examples.w0
    = respond (Next url_of_null) Examples.w0
  ∧ bookinstance_update_post (H := SimpleDates.lib) Examples.sch Examples.id_new creq
      Examples.w0
    = respond (Next url_of_null) Examples.w0.
Proof.
  intros areq breq creq.
  destruct (C6_update_of_missing_record (H := SimpleDates.lib) Examples.sch
              Examples.id_new areq Examples.w0 Examples.id_unknown)
    as (Ha & _); [reflexivity|].
  destruct (C6_update_of_missing_record (H := SimpleDates.lib) Examples.sch
              Examples.id_new breq Examples.w0 Examples.id_unknown)
    as (_ & Hb & _); [reflexivity|].
  destruct (C6_update_of_missing_record (H := SimpleDates.lib) Examples.sch
              Examples.id_new creq Examples.w0 Examples.id_unknown)
    as (_ & _ & Hc & _); [reflexivity|].
  split_and!; [apply Ha | apply Hb | apply Hc]; reflexivity.
Defined.

(** C7, as stated, fails twice.  The list of copies is rendered in the order
    of the store, here in descending order of the imprint, the status, the
    identifier, the due date and the title of the book.  And the list of
    authors is sorted on the first name, not on the name: two authors with
    the same first name are rendered in the order of the store, here Al Zed
    before Al Abe. *)
Lemma C7_lists_out_of_order :
  let l := [(Examples.copy1, Some Examples.runaway);
            (Examples.copy2, Some Examples.cathedral)] in
  (bookinstance_list Examples.sch (Examples.request_of "" [] None) Examples.w0
   = respond (Render "bookinstance_list"
                [("title", LString "Book Instance List");
                 ("bookinstance_list", LBookInstancesWithBook l)]) Examples.w0
   ∧ ¬ Sorted (by_key (λ x, BookInstance.imprint x.1)) l
   ∧ ¬ Sorted (by_key (λ x, BookInstance.status x.1)) l
   ∧ ¬ Sorted (by_key (λ x, Val (BookInstance._id x.1))) l
   ∧ ¬ Sorted (by_key (λ x, from_option Book.title Undefined x.2)) l
   ∧ ¬ Sorted (λ x y, default 0 (field_value (BookInstance.due_back x.1))
                      ≤ default 0 (field_value (BookInstance.due_back y.1)))%Z l)
  ∧ (author_list (Examples.request_of "" [] None) Archive.w0
     = respond (Render "author_list"
                  [("title", LString "Author List");
                   ("author_list", LAuthors [Archive.zed; Archive.abe])]) Archive.w0
     ∧ Author.name Archive.zed = "Al Zed"
     ∧ Author.name Archive.abe = "Al Abe"
     ∧ ¬ Sorted (by_key (λ a, Val (Author.name a))) [Archive.zed; Archive.abe]).
Proof.
  split; split_and!; try reflexivity;
    intros Hs; apply Sorted_inv in Hs as [_ Hs]; apply HdRel_inv in Hs;
    vm_compute in Hs; done.
Qed.

(** C7, amended. The author list is rendered in ascending order of
    [first_name] and the book list in ascending order of [title], each with
    all the documents of its collection; the list of copies is rendered in
    the order of the store. *)
Theorem C7_lists_sorted (sch : BookInstance.schema) (req : request) (w : world) :
  (∃ l, author_list req w
        = respond (Render "author_list"
                     [("title", LString "Author List"); ("author_list", LAuthors l)]) w
        ∧ StronglySorted (by_key Author.first_name) l
        ∧ l ≡ₚ authors (db w))
  ∧ (∃ l, book_list req w
          = respond (Render "book_list"
                       [("title", LString "Book List");
                        ("book_list", LBooksWithAuthor l)]) w
          ∧ StronglySorted (by_key Book.title) l.*1
          ∧ l.*1 ≡ₚ Book.select ["title"; "author"] <$> books (db w))
  ∧ bookinstance_list sch req w
    = respond (Render "bookinstance_list"
                 [("title", LString "Book Instance List");
                  ("bookinstance_list",
                   LBookInstancesWithBook
                     ((λ b, (b, populate_book (db w) b)) <$> bookinstances (db w)))]) w.
Proof.
  split_and!.
  - eexists. split; [apply author_list_run|]. apply sort_sorted.
  - eexists. split; [apply book_list_run|].
    rewrite fst_paired. apply sort_sorted.
  - apply bookinstance_list_run.
Qed.

(** C8 fails on the code: the default of [due_back] is the clock reading of
    the moment the schema was built.  Whatever the clock reads when the
    request is handled, a copy created from a form without a due date under a
    schema built at time [t_load] is stored with the due date [t_load]; for a
    schema built at 1000 and a request handled at 2000 the due date is 1000. *)
Theorem C8_due_back_default_fixed_at_load `{DateLib} (t_load now : Z) :
  let req := Examples.request_of ""
    [("book", Examples.id_runaway); ("imprint", "Vintage"); ("status", "Available")]
    None in
  let created (t_load now : Z) :=
    bookinstances
      (db (bookinstance_create_post (BookInstance.BookInstanceSchema t_load)
             Examples.id_new req
             {| db := Examples.library; clock := now; sent := [] |})) in
  (BookInstance.due_back <$> created t_load now)
  = [Val 20%Z; Val 10%Z; Val t_load]
  ∧ (BookInstance.due_back <$> created 1000%Z 2000%Z)
    = [Val 20%Z; Val 10%Z; Val 1000%Z].
Proof. split; vm_compute; reflexivity. Qed.

(** C9, as stated, fails: when validation of the identifier field fails, no
    record is removed.  A blank [bookinstanceid] fails validation; the handler
    redirects, still calls the removal, and the removal throws a cast error
    that [next] receives: the store is as it was. *)
Lemma C9_nothing_removed_when_validation_fails :
  let blank := Examples.request_of Examples.id_copy1 [("bookinstanceid", "  ")] None in
  let w' := bookinstance_delete_post (H := SimpleDates.lib) Examples.sch blank
              Examples.w0 in
  validationResult (bookinstance_delete_chains (H := SimpleDates.lib)) blank
  = [err "bookinstanceid" "Book Instance is required"]
  ∧ db w' = Examples.library
  ∧ sent w' = [Redirect "/catalog/bookinstances";
               Next (Err.CastError "ObjectId" "_id")].
Proof. split_and!; reflexivity. Qed.

(** C9, amended. A delete POST of a copy looks at no other collection and
    calls the removal whatever the outcome of validation.  When the trimmed
    [bookinstanceid] is an ObjectId, validation passes, the record it names
    is taken out of the store and the handler redirects to the list.
    Validation fails exactly when the trimmed identifier is empty; then the
    handler, after its first redirect, still calls the removal, whose cast
    error is what [next] receives, and no record is removed; nor is one
    removed for any other identifier that is no ObjectId. *)
Theorem C9_bookinstance_delete_unconditional `{DateLib}
    (sch : BookInstance.schema) (req : request) (w : world) (i : ObjectId) :
  let s := submitted_id "bookinstanceid" req in
  let w' := bookinstance_delete_post sch req w in
  (authors (db w') = authors (db w) ∧ books (db w') = books (db w)
   ∧ genres (db w') = genres (db w))
  ∧ (ObjectId.ofString s = Some i →
     validationResult bookinstance_delete_chains req = []
     ∧ w' = respond (Redirect "/catalog/bookinstances")
              (with_db (without (model := BookInstanceModel sch) i (db w)) w)
     ∧ db w' = without (model := BookInstanceModel sch) i (db w)
     ∧ (unique_ids (model := BookInstanceModel sch) (db w) →
        stored (model := BookInstanceModel sch) i (db w') = None))
  ∧ (validationResult bookinstance_delete_chains req ≠ [] ↔ s = "")
  ∧ (validationResult bookinstance_delete_chains req ≠ [] →
     w' = respond (Next (Err.CastError "ObjectId" "_id"))
            (respond (Redirect "/catalog/bookinstances") w)
     ∧ db w' = db w)
  ∧ (ObjectId.ofString s = None → db w' = db w).
Proof.
  intros s w'. subst w'. rewrite bookinstance_delete_post_run. fold s.
  assert (validationResult bookinstance_delete_chains req
          = if validator.isLength 1 None s then []
            else [err "bookinstanceid" "Book Instance is required"]) as Ev.
  { destruct req as [p b g]. unfold validationResult, bookinstance_delete_chains.
    by rewrite id_chain_run. }
  assert (db (if validator.isLength 1 None s then w
              else respond (Redirect "/catalog/bookinstances") w) = db w) as E
    by by destruct (validator.isLength 1 None s).
  rewrite Ev. split_and!.
  - destruct (ObjectId.ofString s); cbn [respond with_db db]; by rewrite ?E.
  - destruct (ObjectId.ofString s); cbn [respond with_db db]; by rewrite ?E.
  - destruct (ObjectId.ofString s); cbn [respond with_db db]; by rewrite ?E.
  - intros Hi. rewrite Hi.
    destruct (validator.isLength 1 None s) eqn:Hl;
      [|by rewrite (blank_id s Hl) in Hi].
    split_and!; [done..|].
    intros Hu. by apply (without_gone (model := BookInstanceModel sch)).
  - pose proof (isLength_min s) as Hm.
    destruct (validator.isLength 1 None s).
    + split; [done|]. intros Hs. exfalso. exact (proj1 Hm eq_refl Hs).
    + split; [|done]. intros _. destruct (decide (s = "")) as [Hs|Hs]; [done|].
      by apply Hm in Hs.
  - destruct (validator.isLength 1 None s) eqn:Hl; [done|]. intros _.
    by rewrite (blank_id s Hl).
  - intros Hn. rewrite Hn. cbn [respond db]. exact E.
Qed.

Lemma C9_witness :
  let req := Examples.request_of "" [("bookinstanceid", " 5f8d0a1b2c3d4e5f60718222 ")] None in
  let blank := Examples.request_of "" [("bookinstanceid", "  ")] None in
  bookinstances (db (bookinstance_delete_post (H := SimpleDates.lib) Examples.sch req
                       Examples.w0))
  = [Examples.copy2]
  ∧ bookinstance_delete_post (H := SimpleDates.lib) Examples.sch blank Examples.w0
    = respond (Next (Err.CastError "ObjectId" "_id"))
        (respond (Redirect "/catalog/bookinstances") Examples.w0)
  ∧ db (bookinstance_delete_post (H := SimpleDates.lib) Examples.sch blank Examples.w0)
    = Examples.library.
Proof.
  intros req blank.
  destruct (C9_bookinstance_delete_unconditional (H := SimpleDates.lib) Examples.sch
              req Examples.w0 Examples.id_copy1) as (_ & Ha & _).
  destruct (C9_bookinstance_delete_unconditional (H := SimpleDates.lib) Examples.sch
              blank Examples.w0 Examples.id_copy1) as (_ & _ & _ & Hb & _).
  destruct Ha as (_ & _ & Hdb & _); [reflexivity|].
  destruct Hb as (Hb1 & Hb2); [discriminate|].
  split_and!; [by rewrite Hdb | exact Hb1 | exact Hb2].
Defined.

Section delete_check.
Context `{DateLib}.
Variable sch : BookInstance.schema.

(** The entity of the URL has dependents: the page, whatever the form
    field names and whether or not the entity is stored. *)
Lemma author_delete_kept req w p :
  ObjectId.ofString (params_id req) = Some p →
  books_of p (db w) ≠ [] →
  author_delete_post req w
  = respond (author_delete_page (stored (D := Author.t) p (db w))
               (books_of p (db w))) w.
Proof.
  destruct req as [pp b g]. cbn [params_id]. intros Hp Hb.
  unfold author_delete_post, author_delete_chains.
  rewrite id_chain_run. cbn [params_id].
  unfold asyncHandler, findById, cast_id, find_refs. rewrite Hp.
  unfold fmap, M_fmap, mbind, M_bind, mret, M_ret, get_db, stored.
  cbn [db collection AuthorModel BookModel] in *. fold (books_of p (db w)).
  destruct (books_of p (db w)) as [|x l]; [done|]. done.
Qed.

Lemma book_delete_kept req w p :
  ObjectId.ofString (params_id req) = Some p →
  instances_of p (db w) ≠ [] →
  book_delete_post sch req w
  = respond (book_delete_page (stored (D := Book.t) p (db w))
               (instances_of p (db w))) w.
Proof.
  destruct req as [pp b g]. cbn [params_id]. intros Hp Hb.
  unfold book_delete_post, book_delete_chains.
  rewrite id_chain_run. cbn [params_id].
  unfold asyncHandler, findById, cast_id, find_refs. rewrite Hp.
  unfold fmap, M_fmap, mbind, M_bind, mret, M_ret, get_db, stored.
  cbn [db collection BookModel BookInstanceModel] in *.
  fold (instances_of p (db w)).
  destruct (instances_of p (db w)) as [|x l]; [done|]. done.
Qed.
End delete_check.

(** C10. In the delete POST of an author the dependents that are looked for
    are the books of the author named by the URL, and the author taken out is
    the one named by the form field [authorid].  When the author of the URL
    has a book, the handler answers with the confirm-delete page of that
    author and takes nothing out, whatever the form names; when the author of
    the URL has no book, the author of the form is taken out with all its
    books left in the store, whatever their number.  The same holds for a
    book and its copies, with the field [bookid]. *)
Theorem C10_delete_checks_one_entity_removes_another `{DateLib}
    (sch : BookInstance.schema)
    (req : request) (w : world) (p i : ObjectId)
    (breq : request) (bw : world) (q j : ObjectId) :
  let w' := author_delete_post req w in
  let bw' := book_delete_post sch breq bw in
  ObjectId.ofString (params_id req) = Some p →
  ObjectId.ofString (params_id breq) = Some q →
  (books_of p (db w) ≠ [] →
   w' = respond (author_delete_page (stored (D := Author.t) p (db w))
                   (books_of p (db w))) w
   ∧ db w' = db w)
  ∧ (books_of p (db w) = [] →
     ObjectId.ofString (submitted_id "authorid" req) = Some i →
     w' = respond (Redirect "/catalog/authors")
            (with_db (without (D := Author.t) i (db w)) w)
     ∧ sent w' = (sent w ++ [Redirect "/catalog/authors"])%list
     ∧ books_of i (db w') = books_of i (db w)
     ∧ (unique_ids (D := Author.t) (db w) →
        stored (D := Author.t) i (db w') = None))
  ∧ (instances_of q (db bw) ≠ [] →
     bw' = respond (book_delete_page (stored (D := Book.t) q (db bw))
                      (instances_of q (db bw))) bw
     ∧ db bw' = db bw)
  ∧ (instances_of q (db bw) = [] →
     ObjectId.ofString (submitted_id "bookid" breq) = Some j →
     bw' = respond (Redirect "/catalog/books")
             (with_db (without (D := Book.t) j (db bw)) bw)
     ∧ sent bw' = (sent bw ++ [Redirect "/catalog/books"])%list
     ∧ instances_of j (db bw') = instances_of j (db bw)
     ∧ (unique_ids (D := Book.t) (db bw) →
        stored (D := Book.t) j (db bw') = None)).
Proof.
  intros w' bw' Hp Hq. subst w' bw'. split_and!.
  - intros Hb. by rewrite (author_delete_kept req w p Hp Hb).
  - intros Hnone Hi. rewrite (author_delete_other req w p i Hp Hnone Hi).
    split_and!; try done. intros Hu. by apply (without_gone (D := Author.t)).
  - intros Hb. by rewrite (book_delete_kept sch breq bw q Hq Hb).
  - intros Hnone Hj. rewrite (book_delete_other sch breq bw q j Hq Hnone Hj).
    split_and!; try done. intros Hu. by apply (without_gone (D := Book.t)).
Qed.

Lemma C10_witness :
  let req := Examples.request_of Examples.id_paley [("authorid", Examples.id_munro)] None in
  let req' := Examples.request_of Examples.id_munro [("authorid", Examples.id_paley)] None in
  let breq := Examples.request_of Examples.id_unknown [("bookid", Examples.id_runaway)] None in
  let breq' := Examples.request_of Examples.id_runaway [("bookid", Examples.id_cathedral)]
                 None in
  let w1 := author_delete_post (H := SimpleDates.lib) req Examples.w0 in
  let w2 := author_delete_post (H := SimpleDates.lib) req' Examples.w0 in
  let bw1 := book_delete_post (H := SimpleDates.lib) Examples.sch breq Examples.w0 in
  let bw2 := book_delete_post (H := SimpleDates.lib) Examples.sch breq' Examples.w0 in
  (authors (db w1) = [Examples.carver; Examples.paley]
   ∧ books (db w1) = [Examples.runaway; Examples.cathedral])
  ∧ (stored (D := Author.t) Examples.id_munro (db w1) = None
     ∧ books_of Examples.id_munro (db w1) = [Examples.runaway]
     ∧ sent w1 = [Redirect "/catalog/authors"])
  ∧ (db w2 = Examples.library
     ∧ sent w2 = [author_delete_page (Some Examples.munro) [Examples.runaway]])
  ∧ (stored (D := Book.t) Examples.id_runaway (db bw1) = None
     ∧ instances_of Examples.id_runaway (db bw1) = [Examples.copy1]
     ∧ sent bw1 = [Redirect "/catalog/books"])
  ∧ (db bw2 = Examples.library
     ∧ sent bw2 = [book_delete_page (Some Examples.runaway) [Examples.copy1]]).
Proof.
  intros req req' breq breq' w1 w2 bw1 bw2. subst w1 w2 bw1 bw2.
  destruct (C10_delete_checks_one_entity_removes_another (H := SimpleDates.lib)
              Examples.sch req Examples.w0 Examples.id_paley Examples.id_munro
              breq Examples.w0 Examples.id_unknown Examples.id_runaway)
    as (_ & Ha & _ & Hb); [reflexivity | reflexivity |].
  destruct (C10_delete_checks_one_entity_removes_another (H := SimpleDates.lib)
              Examples.sch req' Examples.w0 Examples.id_munro Examples.id_paley
              breq' Examples.w0 Examples.id_runaway Examples.id_cathedral)
    as (Hc & _ & Hd & _); [reflexivity | reflexivity |].
  destruct Ha as (_ & Ha2 & Ha3 & Ha4); [reflexivity | reflexivity |].
  destruct Hb as (_ & Hb2 & Hb3 & Hb4); [reflexivity | reflexivity |].
  destruct Hc as (Hc1 & Hc2); [vm_compute; discriminate|].
  destruct Hd as (Hd1 & Hd2); [vm_compute; discriminate|].
  refine (conj _ (conj _ (conj _ (conj _ _)))).
  - split; reflexivity.
  - split_and!; [|exact Ha3|exact Ha2].
    apply Ha4. apply (bool_decide_unpack _). vm_compute. exact I.
  - split; [exact Hc2 | by rewrite Hc1].
  - split_and!; [|exact Hb3|exact Hb2].
    apply Hb4. apply (bool_decide_unpack _). vm_compute. exact I.
  - split; [exact Hd2 | by rewrite Hd1].
Defined.
